(** * algoX: indicators, strategies and the backtest accountant

    A shallow embedding of [src/app/src/utils/indicators.ts],
    [src/app/src/utils/strategies.ts] and [src/app/src/utils/backtest.ts].

    JavaScript numbers are IEEE 754 binary64 values; they are embedded as
    Rocq's primitive [float], whose operations are the binary64 ones, so the
    definitions below compute what the TypeScript computes, rounding included.
    Array indices, loop counters and array lengths are [nat]; they are
    converted with [JS.of_nat] where the source uses them in arithmetic.

    Conventions of the embedding:
    - a [for] loop is [JS.for_loop], a fold of its body over the indices;
      [push] appends, and a read outside an array gives NaN ([undefined]
      in a numeric context);
    - periods and look-back lengths are [nat]: the source uses them as loop
      bounds and slice offsets, and a fractional or negative one is outside
      what [StrategyParams] holds here;
    - [Math.pow] is approximated by implementations, so the definitions
      that call it take it as the section variable [Math_pow];
    - a [Date] is its time value together with its [toDateString] text, and
      [new Date()] is the argument [now];
    - a template-literal reason is the list of its fragments ([Message]);
    - [console] output and the timing of [runBacktest] carry no result
      and are left out; [compareStrategies] returns its timings, so there
      the clock is the function [performance_now] of the number of reads;
      a [throw] of the back-test inside the optimizer is the [Thrown]
      outcome of its callee.

    The file has three parts: the embedding of the sources, the
    vocabulary and sample inputs of the properties, and the properties
    with their proofs.  *)

From Stdlib Require Import String List ZArith Bool Lia Floats.
From Stdlib Require Import Permutation Sorted.
From Stdlib Require Uint63.
Import ListNotations.

Set Warnings "-inexact-float".

Local Open Scope float_scope.

(* ================================================================= *)
(** ** JavaScript number primitives *)

Module JS.

(** An integer as a Number (exact below 2^53). *)
Definition of_Z (z : Z) : float :=
  match z with
  | Z0 => 0
  | Zpos _ => of_uint63 (Uint63.of_Z z)
  | Zneg p => - of_uint63 (Uint63.of_Z (Zpos p))
  end.

Definition of_nat (n : nat) : float := of_Z (Z.of_nat n).

(** [isNaN(x)]; an out-of-range array read gives [undefined], which every
    numeric context turns into NaN, so such reads are embedded as [nan]. *)
Definition isNaN (x : float) : bool := PrimFloat.is_nan x.

(** The relational operators and [===] on numbers. *)
Definition lt (a b : float) : bool := a <? b.
Definition gt (a b : float) : bool := b <? a.
Definition le (a b : float) : bool := a <=? b.
Definition ge (a b : float) : bool := b <=? a.
Definition eq (a b : float) : bool := a =? b.

(** Truthiness of a number: false for NaN, +0 and -0. *)
Definition truthy (x : float) : bool := negb (PrimFloat.is_nan x || PrimFloat.is_zero x).

(** [x || d] on numbers. *)
Definition or_else (x d : float) : float := if truthy x then x else d.

(** [o || d] where [o] may be [undefined]. *)
Definition opt_or (o : option float) (d : float) : float :=
  match o with
  | Some x => or_else x d
  | None => d
  end.

Definition is_pos_zero (x : float) : bool := PrimFloat.Leibniz.eqb x zero.
Definition is_neg_zero (x : float) : bool := PrimFloat.Leibniz.eqb x neg_zero.

(** [Math.max(...l)] (ECMA-262 21.3.2.24): start from -Infinity, NaN is
    contagious and +0 beats -0. *)
Fixpoint max_from (highest : float) (l : list float) : float :=
  match l with
  | [] => highest
  | x :: rest =>
      if isNaN x then nan
      else if is_pos_zero x && is_neg_zero highest then max_from x rest
      else if gt x highest then max_from x rest
      else max_from highest rest
  end.

Definition Math_max (l : list float) : float := max_from neg_infinity l.

(** [Math.min(...l)] (ECMA-262 21.3.2.25). *)
Fixpoint min_from (lowest : float) (l : list float) : float :=
  match l with
  | [] => lowest
  | x :: rest =>
      if isNaN x then nan
      else if is_neg_zero x && is_pos_zero lowest then min_from x rest
      else if lt x lowest then min_from x rest
      else min_from lowest rest
  end.

Definition Math_min (l : list float) : float := min_from infinity l.

Definition Math_abs (x : float) : float := abs x.
Definition Math_sqrt (x : float) : float := sqrt x.

(** [l.slice(from, to)] for [0 <= from], the only use in the sources. *)
Definition slice {A} (from to : nat) (l : list A) : list A :=
  firstn (to - from) (skipn from l).

(** [l.reduce((a, b) => a + b, 0)]. *)
Definition sum (l : list float) : float := fold_left add l 0.

(** [for (let i = from; i < to; i++) s = body(i, s)]. *)
Definition for_loop {S} (from to : nat) (body : nat -> S -> S) (s : S) : S :=
  fold_left (fun s i => body i s) (seq from (to - from)) s.

(** [l[i]] on an array of numbers. *)
Definition get (l : list float) (i : nat) : float := nth i l nan.

(** [l.push(x)]. *)
Definition push {A} (l : list A) (x : A) : list A := l ++ [x].

End JS.

(* ================================================================= *)
(** ** The data model ([@/types/trading], as the three sources use it) *)

Module Types.

(** A [Date]: its time value ([getTime()], milliseconds since the epoch)
    and its local calendar day ([toDateString()]). *)
Record Date := { getTime : Z; toDateString : string }.

Record OHLCV := {
  date : Date;
  open : float;
  high : float;
  low : float;
  close : float;
  volume : float
}.

(** A template literal before it is rendered: literal text, a number
    ([${x}]) or a number through [toFixed] ([${x.toFixed(d)}]). *)
Inductive Fragment :=
| Text (s : string)
| Num (x : float)
| Fixed (x : float) (digits : nat).

Definition Message := list Fragment.

Inductive TradeType := LONG | SHORT.
Inductive TradeStatus := OPEN | CLOSED.

Record Trade := {
  id : nat;
  entryDate : Date;
  entryPrice : float;
  exitDate : option Date;
  exitPrice : option float;
  type : TradeType;
  size : float;
  pnl : option float;
  pnlPercent : option float;
  status : TradeStatus;
  exitReason : option Message
}.

Inductive SignalType := BUY | SELL | EXIT.

Record Signal := {
  signal_date : Date;
  signal_type : SignalType;
  price : float;
  reason : Message
}.

Record EquityPoint := {
  point_date : Date;
  equity : float;
  drawdown : float;
  benchmark : float
}.

Record PerformanceMetrics := {
  totalReturn : float;
  annualizedReturn : float;
  cagr : float;
  sharpeRatio : float;
  sortinoRatio : float;
  maxDrawdown : float;
  maxDrawdownDuration : float;
  calmarRatio : float;
  volatility : float;
  winRate : float;
  profitFactor : float;
  expectancy : float;
  totalTrades : float;
  winningTrades : float;
  losingTrades : float;
  avgTradeReturn : float;
  avgWinningTrade : float;
  avgLosingTrade : float;
  largestWin : float;
  largestLoss : float;
  avgTradeDuration : float;
  grossProfit : float;
  grossLoss : float;
  netProfit : float;
  commissionPaid : float
}.

(** The keys of [PerformanceMetrics] ([keyof PerformanceMetrics]). *)
Inductive MetricKey :=
| K_totalReturn | K_annualizedReturn | K_cagr | K_sharpeRatio
| K_sortinoRatio | K_maxDrawdown | K_maxDrawdownDuration | K_calmarRatio
| K_volatility | K_winRate | K_profitFactor | K_expectancy | K_totalTrades
| K_winningTrades | K_losingTrades | K_avgTradeReturn | K_avgWinningTrade
| K_avgLosingTrade | K_largestWin | K_largestLoss | K_avgTradeDuration
| K_grossProfit | K_grossLoss | K_netProfit | K_commissionPaid.

(** [metrics[key]]. *)
Definition metric (m : PerformanceMetrics) (k : MetricKey) : float :=
  match k with
  | K_totalReturn => totalReturn m
  | K_annualizedReturn => annualizedReturn m
  | K_cagr => cagr m
  | K_sharpeRatio => sharpeRatio m
  | K_sortinoRatio => sortinoRatio m
  | K_maxDrawdown => maxDrawdown m
  | K_maxDrawdownDuration => maxDrawdownDuration m
  | K_calmarRatio => calmarRatio m
  | K_volatility => volatility m
  | K_winRate => winRate m
  | K_profitFactor => profitFactor m
  | K_expectancy => expectancy m
  | K_totalTrades => totalTrades m
  | K_winningTrades => winningTrades m
  | K_losingTrades => losingTrades m
  | K_avgTradeReturn => avgTradeReturn m
  | K_avgWinningTrade => avgWinningTrade m
  | K_avgLosingTrade => avgLosingTrade m
  | K_largestWin => largestWin m
  | K_largestLoss => largestLoss m
  | K_avgTradeDuration => avgTradeDuration m
  | K_grossProfit => grossProfit m
  | K_grossLoss => grossLoss m
  | K_netProfit => netProfit m
  | K_commissionPaid => commissionPaid m
  end.

(** The optional numeric fields the strategies destructure.  The period
    fields index arrays and bound loops, so they are natural numbers. *)
Record StrategyParams := {
  name : string;
  description : string;
  lookbackPeriod : option nat;
  stdDevMultiplier : option float;
  stopLossPercent : option float;
  takeProfitPercent : option float;
  fastPeriod : option nat;
  slowPeriod : option nat;
  vwapDeviation : option float;
  rsiOversold : option float;
  rsiOverbought : option float;
  atrMultiplier : option float
}.

Inductive StrategyType :=
| mean_reversion | momentum | vwap_bounce | rsi | breakout
| ema_crossover | stochastic | atr_trailing | combined.

Record BacktestConfig := {
  strategy : StrategyType;
  params : StrategyParams;
  initialCapital : float;
  commission : float;
  slippage : float;
  startDate : Date;
  endDate : Date
}.

(** [const { field = d } = params]: the default applies when the field
    is [undefined]. *)
Definition default {A} (d : A) (o : option A) : A :=
  match o with Some x => x | None => d end.

End Types.

(* ================================================================= *)
(** ** indicators.ts *)

Module Indicators.
Import JS Types.

Record BollingerBands := {
  upper : list float;
  middle : list float;
  lower : list float;
  bandwidth : list float;
  percentB : list float
}.

Record ATRResult := { atr : list float; tr : list float }.

Record MACDResult := {
  macd : list float;
  signal : list float;
  histogram : list float
}.

Record StochasticResult := { k : list float; d : list float }.

(** The accumulators of the second loop of [calculateRSI]. *)
Record RSIState := {
  rsi_result : list float;
  avgGain : float;
  avgLoss : float
}.

(** The accumulators of [calculateVWAP]. *)
Record VWAPState := {
  vwap_result : list float;
  cumulativeTPV : float;
  cumulativeVolume : float;
  currentDay : string
}.

Section WithPow.
(** [Math.pow] is implementation-approximated (ECMA-262 21.3.2.26); the
    development is parametric in it. *)
Variable Math_pow : float -> float -> float.

(** In [slice], [i + 1 - period] is the source's [i - period + 1]; the
    branch is only taken when it is not negative. *)
Definition calculateSMA (data : list float) (period : nat) : list float :=
  for_loop 0 (length data)
    (fun i result =>
       if (i <? period - 1)%nat then push result nan
       else
         let sum := sum (slice (i + 1 - period) (i + 1) data) in
         push result (sum / of_nat period))
    [].

Definition calculateEMA (data : list float) (period : nat) : list float :=
  let multiplier := 2 / (of_nat period + 1) in
  for_loop 0 (length data)
    (fun i result =>
       if (i =? 0)%nat then push result (get data 0)
       else if (i <? period - 1)%nat then
         let sum := sum (slice 0 (i + 1) data) in
         push result (sum / of_nat (i + 1))
       else
         let ema := (get data i - get result (i - 1)) * multiplier
                    + get result (i - 1) in
         push result ema)
    [].

Definition calculateStdDev (data : list float) (period : nat) : list float :=
  for_loop 0 (length data)
    (fun i result =>
       if (i <? period - 1)%nat then push result nan
       else
         let slice := slice (i + 1 - period) (i + 1) data in
         let mean := sum slice / of_nat period in
         let variance :=
           fold_left (fun sum val => sum + Math_pow (val - mean) 2) slice 0
           / of_nat period in
         push result (Math_sqrt variance))
    [].

Definition calculateBollingerBands
    (data : list float) (period : nat) (stdDev : float) : BollingerBands :=
  let middle := calculateSMA data period in
  let stdDevArray := calculateStdDev data period in
  for_loop 0 (length data)
    (fun i bb =>
       if isNaN (get middle i) || isNaN (get stdDevArray i) then
         {| upper := push (upper bb) nan;
            middle := middle;
            lower := push (lower bb) nan;
            bandwidth := push (bandwidth bb) nan;
            percentB := push (percentB bb) nan |}
       else
         let up := get middle i + stdDev * get stdDevArray i in
         let low := get middle i - stdDev * get stdDevArray i in
         {| upper := push (upper bb) up;
            middle := middle;
            lower := push (lower bb) low;
            bandwidth := push (bandwidth bb) ((up - low) / get middle i);
            percentB := push (percentB bb) ((get data i - low) / (up - low)) |})
    {| upper := []; middle := middle; lower := [];
       bandwidth := []; percentB := [] |}.

(** [data[i]] on an array of bars is only read in range. *)
Definition no_bar : OHLCV :=
  {| date := {| getTime := 0; toDateString := "" |};
     open := nan; high := nan; low := nan; close := nan; volume := nan |}.

Definition bar (data : list OHLCV) (i : nat) : OHLCV := nth i data no_bar.

Definition calculateATR (data : list OHLCV) (period : nat) : ATRResult :=
  let tr :=
    for_loop 0 (length data)
      (fun i tr =>
         if (i =? 0)%nat then push tr (high (bar data i) - low (bar data i))
         else
           let tr1 := high (bar data i) - low (bar data i) in
           let tr2 := Math_abs (high (bar data i) - close (bar data (i - 1))) in
           let tr3 := Math_abs (low (bar data i) - close (bar data (i - 1))) in
           push tr (Math_max [tr1; tr2; tr3]))
      [] in
  let atr := calculateEMA tr period in
  {| atr := atr; tr := tr |}.

(** The first loop of [calculateRSI]: the gains and the losses. *)
Definition rsiChanges (data : list float) : list float * list float :=
  for_loop 1 (length data)
    (fun i gl =>
       let change := get data i - get data (i - 1) in
       (push (fst gl) (if gt change 0 then change else 0),
        push (snd gl) (if lt change 0 then - change else 0)))
    ([], []).

(** One turn of the second loop of [calculateRSI]. *)
Definition rsiStep (gains losses : list float) (period : nat)
    (i : nat) (st : RSIState) : RSIState :=
  if (i =? 0)%nat then
    {| rsi_result := push (rsi_result st) nan;
       avgGain := avgGain st; avgLoss := avgLoss st |}
  else if (i <? period)%nat then
    {| rsi_result := push (rsi_result st) nan;
       avgGain := avgGain st; avgLoss := avgLoss st |}
  else if (i =? period)%nat then
    let avgGain := sum (slice 0 period gains) / of_nat period in
    let avgLoss := sum (slice 0 period losses) / of_nat period in
    let rs := if eq avgLoss 0 then 100 else avgGain / avgLoss in
    {| rsi_result := push (rsi_result st) (100 - (100 / (1 + rs)));
       avgGain := avgGain; avgLoss := avgLoss |}
  else
    let avgGain :=
      (avgGain st * (of_nat period - 1) + get gains (i - 1)) / of_nat period in
    let avgLoss :=
      (avgLoss st * (of_nat period - 1) + get losses (i - 1)) / of_nat period in
    let rs := if eq avgLoss 0 then 100 else avgGain / avgLoss in
    {| rsi_result := push (rsi_result st) (100 - (100 / (1 + rs)));
       avgGain := avgGain; avgLoss := avgLoss |}.

(** The state of the second loop after its first [n] turns. *)
Definition rsiLoop (data : list float) (period : nat) (n : nat) : RSIState :=
  let gains := fst (rsiChanges data) in
  let losses := snd (rsiChanges data) in
  for_loop 0 n (rsiStep gains losses period)
    {| rsi_result := []; avgGain := 0; avgLoss := 0 |}.

Definition calculateRSI (data : list float) (period : nat) : list float :=
  rsi_result (rsiLoop data period (length data)).

Definition calculateMACD (data : list float)
    (fastPeriod slowPeriod signalPeriod : nat) : MACDResult :=
  let fastEMA := calculateEMA data fastPeriod in
  let slowEMA := calculateEMA data slowPeriod in
  let macd :=
    for_loop 0 (length data)
      (fun i macd => push macd (get fastEMA i - get slowEMA i)) [] in
  let signal := calculateEMA macd signalPeriod in
  let histogram :=
    for_loop 0 (length data)
      (fun i histogram => push histogram (get macd i - get signal i)) [] in
  {| macd := macd; signal := signal; histogram := histogram |}.

Definition calculateStochastic (data : list OHLCV) (kPeriod dPeriod : nat)
    : StochasticResult :=
  let kValues :=
    for_loop 0 (length data)
      (fun i kValues =>
         if (i <? kPeriod - 1)%nat then push kValues nan
         else
           let slice := slice (i + 1 - kPeriod) (i + 1) data in
           let lowestLow := Math_min (map low slice) in
           let highestHigh := Math_max (map high slice) in
           if eq highestHigh lowestLow then push kValues 50
           else
             push kValues
               (((close (bar data i) - lowestLow) / (highestHigh - lowestLow))
                * 100))
      [] in
  let dValues := calculateSMA kValues dPeriod in
  {| k := kValues; d := dValues |}.

Definition vwapStep (data : list OHLCV) (i : nat) (st : VWAPState)
    : VWAPState :=
  let day := toDateString (date (bar data i)) in
  let st :=
    if negb (String.eqb day (currentDay st)) then
      {| vwap_result := vwap_result st; cumulativeTPV := 0;
         cumulativeVolume := 0; currentDay := day |}
    else st in
  let typicalPrice :=
    (high (bar data i) + low (bar data i) + close (bar data i)) / 3 in
  let tpv := typicalPrice * volume (bar data i) in
  let cumulativeTPV := cumulativeTPV st + tpv in
  let cumulativeVolume := cumulativeVolume st + volume (bar data i) in
  {| vwap_result :=
       if gt cumulativeVolume 0
       then push (vwap_result st) (cumulativeTPV / cumulativeVolume)
       else push (vwap_result st) typicalPrice;
     cumulativeTPV := cumulativeTPV;
     cumulativeVolume := cumulativeVolume;
     currentDay := currentDay st |}.

Definition calculateVWAP (data : list OHLCV) : list float :=
  vwap_result
    (for_loop 0 (length data) (vwapStep data)
       {| vwap_result := []; cumulativeTPV := 0;
          cumulativeVolume := 0; currentDay := "" |}).

End WithPow.

(** *** The indicators no strategy calls *)

Record OBVResult := { obv : list float; obvEMA : list float }.

Record ADXResult := {
  adx : list float;
  plusDI : list float;
  minusDI : list float
}.

(** The three arrays the second loop of [calculateADX] fills. *)
Record ADXLoop := {
  loop_plusDI : list float;
  loop_minusDI : list float;
  loop_dx : list float
}.

Record IchimokuResult := {
  tenkanSen : list float;
  kijunSen : list float;
  senkouSpanA : list float;
  senkouSpanB : list float;
  chikouSpan : list float
}.

Record PivotPoints := {
  pivot : list float;
  r1 : list float;
  r2 : list float;
  r3 : list float;
  s1 : list float;
  s2 : list float;
  s3 : list float
}.

(** The accumulators of the inner loop of [calculateCorrelation]. *)
Record CorrelationSums := {
  numerator : float;
  denom1 : float;
  denom2 : float
}.

Definition calculateWMA (data : list float) (period : nat) : list float :=
  let denominator := (of_nat period * (of_nat period + 1)) / 2 in
  for_loop 0 (length data)
    (fun i result =>
       if (i <? period - 1)%nat then push result nan
       else
         let sum :=
           for_loop 0 period
             (fun j sum => sum + get data (i - j) * (of_nat period - of_nat j))
             0 in
         push result (sum / denominator))
    [].

Definition calculateROC (data : list float) (period : nat) : list float :=
  for_loop 0 (length data)
    (fun i result =>
       if (i <? period)%nat then push result nan
       else
         push result
           (((get data i - get data (i - period)) / get data (i - period))
            * 100))
    [].

Definition calculateMomentum (data : list float) (period : nat) : list float :=
  for_loop 0 (length data)
    (fun i result =>
       if (i <? period)%nat then push result nan
       else push result (get data i - get data (i - period)))
    [].

(** One turn of the loop of [calculateOBV]. *)
Definition obvStep (data : list OHLCV) (i : nat) (obv : list float)
    : list float :=
  if (i =? 0)%nat then push obv (volume (bar data i))
  else if gt (close (bar data i)) (close (bar data (i - 1))) then
    push obv (get obv (i - 1) + volume (bar data i))
  else if lt (close (bar data i)) (close (bar data (i - 1))) then
    push obv (get obv (i - 1) - volume (bar data i))
  else push obv (get obv (i - 1)).

Definition calculateOBV (data : list OHLCV) : OBVResult :=
  let obv := for_loop 0 (length data) (obvStep data) [] in
  let obvEMA := calculateEMA obv 20 in
  {| obv := obv; obvEMA := obvEMA |}.

Definition calculateVolumeRSI (data : list OHLCV) (period : nat) : list float :=
  let volumes := map volume data in
  calculateRSI volumes period.

(** The first loop of [calculateADX]: [plusDM] and [minusDM]. *)
Definition directionalMoves (data : list OHLCV) : list float * list float :=
  for_loop 0 (length data)
    (fun i dm =>
       if (i =? 0)%nat then (push (fst dm) 0, push (snd dm) 0)
       else
         let upMove := high (bar data i) - high (bar data (i - 1)) in
         let downMove := low (bar data (i - 1)) - low (bar data i) in
         (push (fst dm)
            (if gt upMove downMove && gt upMove 0 then upMove else 0),
          push (snd dm)
            (if gt downMove upMove && gt downMove 0 then downMove else 0)))
    ([], []).

(** One turn of the second loop of [calculateADX]. *)
Definition adxStep (atr smoothPlusDM smoothMinusDM : list float) (i : nat)
    (st : ADXLoop) : ADXLoop :=
  if isNaN (get atr i) || eq (get atr i) 0 then
    {| loop_plusDI := push (loop_plusDI st) nan;
       loop_minusDI := push (loop_minusDI st) nan;
       loop_dx := push (loop_dx st) nan |}
  else
    let pdi := 100 * get smoothPlusDM i / get atr i in
    let mdi := 100 * get smoothMinusDM i / get atr i in
    {| loop_plusDI := push (loop_plusDI st) pdi;
       loop_minusDI := push (loop_minusDI st) mdi;
       loop_dx := push (loop_dx st) (100 * Math_abs (pdi - mdi) / (pdi + mdi)) |}.

Definition calculateADX (data : list OHLCV) (period : nat) : ADXResult :=
  let plusDM := fst (directionalMoves data) in
  let minusDM := snd (directionalMoves data) in
  let atr := atr (calculateATR data period) in
  let smoothPlusDM := calculateEMA plusDM period in
  let smoothMinusDM := calculateEMA minusDM period in
  let di :=
    for_loop 0 (length data) (adxStep atr smoothPlusDM smoothMinusDM)
      {| loop_plusDI := []; loop_minusDI := []; loop_dx := [] |} in
  let adx := calculateEMA (loop_dx di) period in
  {| adx := adx; plusDI := loop_plusDI di; minusDI := loop_minusDI di |}.

(** [(highest + lowest) / 2] over [data.slice(from, i + 1)], the value of
    the three lines of [calculateIchimoku]. *)
Definition midpoint (data : list OHLCV) (from i : nat) : float :=
  let slice := slice from (i + 1) data in
  let highest := Math_max (map high slice) in
  let lowest := Math_min (map low slice) in
  (highest + lowest) / 2.

(** One turn of the loop of [calculateIchimoku]. *)
Definition ichimokuStep (data : list OHLCV) (i : nat) (st : IchimokuResult)
    : IchimokuResult :=
  let tenkanSen :=
    if (i <? 8)%nat then push (tenkanSen st) nan
    else push (tenkanSen st) (midpoint data (i - 8) i) in
  let kijunSen :=
    if (i <? 25)%nat then push (kijunSen st) nan
    else push (kijunSen st) (midpoint data (i - 25) i) in
  let senkouSpanA :=
    if isNaN (get tenkanSen i) || isNaN (get kijunSen i)
    then push (senkouSpanA st) nan
    else push (senkouSpanA st) ((get tenkanSen i + get kijunSen i) / 2) in
  let senkouSpanB :=
    if (i <? 51)%nat then push (senkouSpanB st) nan
    else push (senkouSpanB st) (midpoint data (i - 51) i) in
  let chikouSpan := push (chikouSpan st) (close (bar data i)) in
  {| tenkanSen := tenkanSen; kijunSen := kijunSen;
     senkouSpanA := senkouSpanA; senkouSpanB := senkouSpanB;
     chikouSpan := chikouSpan |}.

Definition calculateIchimoku (data : list OHLCV) : IchimokuResult :=
  for_loop 0 (length data) (ichimokuStep data)
    {| tenkanSen := []; kijunSen := []; senkouSpanA := [];
       senkouSpanB := []; chikouSpan := [] |}.

(** One turn of the loop of [calculatePivotPoints]. *)
Definition pivotStep (data : list OHLCV) (i : nat) (st : PivotPoints)
    : PivotPoints :=
  if (i =? 0)%nat then
    {| pivot := push (pivot st) nan;
       r1 := push (r1 st) nan; r2 := push (r2 st) nan; r3 := push (r3 st) nan;
       s1 := push (s1 st) nan; s2 := push (s2 st) nan; s3 := push (s3 st) nan |}
  else
    let prev := bar data (i - 1) in
    let p := (high prev + low prev + close prev) / 3 in
    {| pivot := push (pivot st) p;
       r1 := push (r1 st) (2 * p - low prev);
       r2 := push (r2 st) (p + (high prev - low prev));
       r3 := push (r3 st) (high prev + 2 * (p - low prev));
       s1 := push (s1 st) (2 * p - high prev);
       s2 := push (s2 st) (p - (high prev - low prev));
       s3 := push (s3 st) (low prev - 2 * (high prev - p)) |}.

Definition calculatePivotPoints (data : list OHLCV) : PivotPoints :=
  for_loop 0 (length data) (pivotStep data)
    {| pivot := []; r1 := []; r2 := []; r3 := [];
       s1 := []; s2 := []; s3 := [] |}.

Definition detectCrossover (fast slow : list float) : list float :=
  for_loop 0 (length fast)
    (fun i result =>
       if (i =? 0)%nat || isNaN (get fast i) || isNaN (get slow i)
          || isNaN (get fast (i - 1)) || isNaN (get slow (i - 1))
       then push result 0
       else
         let crossedUp :=
           gt (get fast i) (get slow i)
           && le (get fast (i - 1)) (get slow (i - 1)) in
         let crossedDown :=
           lt (get fast i) (get slow i)
           && ge (get fast (i - 1)) (get slow (i - 1)) in
         push result (if crossedUp then 1 else if crossedDown then -1 else 0))
    [].

(** The value [calculateCorrelation] pushes at turn [i] once the window
    is full. *)
Definition correlationAt (data1 data2 : list float) (period i : nat) : float :=
  let slice1 := slice (i + 1 - period) (i + 1) data1 in
  let slice2 := slice (i + 1 - period) (i + 1) data2 in
  let mean1 := sum slice1 / of_nat period in
  let mean2 := sum slice2 / of_nat period in
  let sums :=
    for_loop 0 period
      (fun j s =>
         let diff1 := get slice1 j - mean1 in
         let diff2 := get slice2 j - mean2 in
         {| numerator := numerator s + diff1 * diff2;
            denom1 := denom1 s + diff1 * diff1;
            denom2 := denom2 s + diff2 * diff2 |})
      {| numerator := 0; denom1 := 0; denom2 := 0 |} in
  if eq (denom1 sums) 0 || eq (denom2 sums) 0 then 0
  else numerator sums / Math_sqrt (denom1 sums * denom2 sums).

Definition calculateCorrelation (data1 data2 : list float) (period : nat)
    : list float :=
  for_loop 0 (length data1)
    (fun i result =>
       if (i <? period - 1)%nat then push result nan
       else push result (correlationAt data1 data2 period i))
    [].

End Indicators.

(* ================================================================= *)
(** ** strategies.ts *)

Module Strategies.
Import JS Types Indicators.

(** The local variables every strategy's scan carries from bar to bar. *)
Record Run := {
  currentTrade : option Trade;
  tradeId : nat;
  trades : list Trade;
  signals : list Signal
}.

(** The ATR strategy's scan also carries its trailing-stop state. *)
Record TrailRun := {
  run : Run;
  highestPrice : float;
  trailingStop : float
}.

Record StrategyResult := {
  result_trades : list Trade;
  result_signals : list Signal
}.

Definition start : Run :=
  {| currentTrade := None; tradeId := 0; trades := []; signals := [] |}.

(** [currentTrade = { id: tradeId++, ..., status: 'OPEN' }] followed by
    the push of the BUY signal. *)
Definition enter (st : Run) (date : Date) (price : float) (reason : Message)
    : Run :=
  {| currentTrade :=
       Some {| id := tradeId st; entryDate := date; entryPrice := price;
               exitDate := None; exitPrice := None; type := LONG; size := 1;
               pnl := None; pnlPercent := None; status := OPEN;
               exitReason := None |};
     tradeId := S (tradeId st);
     trades := trades st;
     signals :=
       push (signals st)
         {| signal_date := date; signal_type := BUY; price := price;
            reason := reason |} |}.

(** The six assignments that close [currentTrade]. *)
Definition closed (t : Trade) (date : Date) (price pnl pnlPercent : float)
    (exitReason : Message) : Trade :=
  {| id := id t; entryDate := entryDate t; entryPrice := entryPrice t;
     exitDate := Some date; exitPrice := Some price; type := type t;
     size := size t; pnl := Some pnl; pnlPercent := Some pnlPercent;
     status := CLOSED; exitReason := Some exitReason |}.

(** Closing inside the scan: the copy of the closed trade is pushed, the
    EXIT signal is pushed and [currentTrade] is reset. *)
Definition leave (st : Run) (t : Trade) (date : Date)
    (price pnlPercent : float) (exitReason signalReason : Message) : Run :=
  {| currentTrade := None;
     tradeId := tradeId st;
     trades :=
       push (trades st)
         (closed t date price (price - entryPrice t) pnlPercent exitReason);
     signals :=
       push (signals st)
         {| signal_date := date; signal_type := EXIT; price := price;
            reason := signalReason |} |}.

Definition pnlPercentOf (price entryPrice : float) : float :=
  ((price - entryPrice) / entryPrice) * 100.

(** [if (currentTrade) { ... exitReason = 'End of data' ... }] and the
    [return]. *)
Definition closeAtEnd (data : list OHLCV) (st : Run) : StrategyResult :=
  match currentTrade st with
  | Some t =>
      let lastIndex := (length data - 1)%nat in
      let last := bar data lastIndex in
      {| result_trades :=
           push (trades st)
             (closed t (date last) (close last)
                (close last - entryPrice t)
                (((close last - entryPrice t) / entryPrice t) * 100)
                [Text "End of data"]);
         result_signals := signals st |}
  | None => {| result_trades := trades st; result_signals := signals st |}
  end.

Section WithPow.
Variable Math_pow : float -> float -> float.

(** *** Strategy 1: mean reversion *)

Definition meanReversionStep (data : list OHLCV) (bb : BollingerBands)
    (rsi : list float) (stopLossPercent : float) (i : nat) (st : Run) : Run :=
  let price := close (bar data i) in
  let date := date (bar data i) in
  if isNaN (get (lower bb) i) || isNaN (get rsi i) then st
  else
    match currentTrade st with
    | None =>
        if lt price (get (lower bb) i) && lt (get rsi i) 30 then
          enter st date price
            [Text "Mean Reversion: Price ";
             Fixed ((price / get (lower bb) i - 1) * 100) 2;
             Text "% below BB lower, RSI="; Fixed (get rsi i) 1]
        else st
    | Some currentTrade =>
        let entryPrice := entryPrice currentTrade in
        let pnlPercent := pnlPercentOf price entryPrice in
        let takeProfitHit :=
          ge price (get (middle bb) i) || gt (get rsi i) 70 in
        let stopLossHit := le pnlPercent (- stopLossPercent) in
        let trailingStopHit := gt price (get (upper bb) i) in
        if takeProfitHit || stopLossHit || trailingStopHit then
          let exitReason :=
            if takeProfitHit then
              [Text "Take Profit: Price reached middle band or RSI overbought"]
            else if stopLossHit then
              [Text "Stop Loss: "; Fixed pnlPercent 2; Text "% loss"]
            else [Text "Trailing Stop: Price above upper band"] in
          leave st currentTrade date price pnlPercent exitReason exitReason
        else st
    end.

Definition meanReversionScan (data : list OHLCV) (params : StrategyParams)
    : Run :=
  let lookbackPeriod := default 20%nat (lookbackPeriod params) in
  let stdDevMultiplier := default 2 (stdDevMultiplier params) in
  let stopLossPercent := default 2 (stopLossPercent params) in
  let closes := map close data in
  let bb := calculateBollingerBands Math_pow closes lookbackPeriod
              stdDevMultiplier in
  let rsi := calculateRSI closes 14 in
  for_loop (lookbackPeriod + 14) (length data)
    (meanReversionStep data bb rsi stopLossPercent) start.

Definition meanReversionStrategy (data : list OHLCV)
    (params : StrategyParams) : StrategyResult :=
  closeAtEnd data (meanReversionScan data params).

(** The exit reason shared by strategies 2 to 7 and 9: the technical
    exit first, then the stop, then the target. *)
Definition reasonOf (technical stopLossHit : bool)
    (technicalReason : Message) (pnlPercent : float) : Message :=
  if technical then technicalReason
  else if stopLossHit then [Text "Stop Loss: "; Fixed pnlPercent 2; Text "%"]
  else [Text "Take Profit: "; Fixed pnlPercent 2; Text "%"].

(** *** Strategy 2: momentum *)

Definition momentumStep (data : list OHLCV) (macd : MACDResult)
    (sma50 sma200 : list float) (stopLossPercent takeProfitPercent : float)
    (i : nat) (st : Run) : Run :=
  let price := close (bar data i) in
  let date := date (bar data i) in
  if isNaN (get (Indicators.macd macd) i) || isNaN (get sma50 i)
     || isNaN (get sma200 i) then st
  else
    let macdCrossUp :=
      gt (get (Indicators.macd macd) i) (get (signal macd) i)
      && le (get (Indicators.macd macd) (i - 1)) (get (signal macd) (i - 1)) in
    let macdCrossDown :=
      lt (get (Indicators.macd macd) i) (get (signal macd) i)
      && ge (get (Indicators.macd macd) (i - 1)) (get (signal macd) (i - 1)) in
    let uptrend := gt price (get sma50 i) && gt (get sma50 i) (get sma200 i) in
    match currentTrade st with
    | None =>
        if macdCrossUp && uptrend then
          enter st date price
            [Text "Momentum: MACD cross up, uptrend confirmed (Price>SMA50>SMA200)"]
        else st
    | Some currentTrade =>
        let entryPrice := entryPrice currentTrade in
        let pnlPercent := pnlPercentOf price entryPrice in
        let macdExit := macdCrossDown in
        let stopLossHit := le pnlPercent (- stopLossPercent) in
        let takeProfitHit := ge pnlPercent takeProfitPercent in
        if macdExit || stopLossHit || takeProfitHit then
          let exitReason :=
            reasonOf macdExit stopLossHit [Text "MACD cross down"] pnlPercent in
          leave st currentTrade date price pnlPercent exitReason exitReason
        else st
    end.

Definition momentumScan (data : list OHLCV) (params : StrategyParams) : Run :=
  let fastPeriod := default 12%nat (fastPeriod params) in
  let slowPeriod := default 26%nat (slowPeriod params) in
  let stopLossPercent := default 2 (stopLossPercent params) in
  let takeProfitPercent := default 4 (takeProfitPercent params) in
  let closes := map close data in
  let macd := calculateMACD closes fastPeriod slowPeriod 9 in
  let sma50 := calculateSMA closes 50 in
  let sma200 := calculateSMA closes 200 in
  for_loop (Nat.max slowPeriod 200) (length data)
    (momentumStep data macd sma50 sma200 stopLossPercent takeProfitPercent)
    start.

Definition momentumStrategy (data : list OHLCV) (params : StrategyParams)
    : StrategyResult :=
  closeAtEnd data (momentumScan data params).

(** *** Strategy 3: VWAP bounce *)

Definition vwapBounceStep (data : list OHLCV) (vwap rsi : list float)
    (vwapDeviation stopLossPercent takeProfitPercent : float)
    (i : nat) (st : Run) : Run :=
  let price := close (bar data i) in
  let date := date (bar data i) in
  let currentVWAP := get vwap i in
  if isNaN currentVWAP || isNaN (get rsi i) then st
  else
    let deviation := ((price - currentVWAP) / currentVWAP) * 100 in
    match currentTrade st with
    | None =>
        if lt deviation (- vwapDeviation) && gt (get rsi i) 30
           && lt (get rsi i) 60 then
          enter st date price
            [Text "VWAP Bounce: Price "; Fixed deviation 2;
             Text "% below VWAP, RSI="; Fixed (get rsi i) 1]
        else st
    | Some currentTrade =>
        let entryPrice := entryPrice currentTrade in
        let pnlPercent := pnlPercentOf price entryPrice in
        let vwapReturn := lt (Math_abs deviation) 0.1 in
        let stopLossHit := le pnlPercent (- stopLossPercent) in
        let takeProfitHit := ge pnlPercent takeProfitPercent in
        if vwapReturn || stopLossHit || takeProfitHit then
          let exitReason :=
            reasonOf vwapReturn stopLossHit [Text "Price returned to VWAP"]
              pnlPercent in
          leave st currentTrade date price pnlPercent exitReason exitReason
        else st
    end.

Definition vwapBounceScan (data : list OHLCV) (params : StrategyParams)
    : Run :=
  let vwapDeviation := default 0.5 (vwapDeviation params) in
  let stopLossPercent := default 1.5 (stopLossPercent params) in
  let takeProfitPercent := default 2.5 (takeProfitPercent params) in
  let vwap := calculateVWAP data in
  let closes := map close data in
  let rsi := calculateRSI closes 14 in
  for_loop 20 (length data)
    (vwapBounceStep data vwap rsi vwapDeviation stopLossPercent
       takeProfitPercent)
    start.

Definition vwapBounceStrategy (data : list OHLCV) (params : StrategyParams)
    : StrategyResult :=
  closeAtEnd data (vwapBounceScan data params).

(** *** Strategy 4: RSI *)

Definition rsiStep (data : list OHLCV) (rsi sma50 : list float)
    (rsiOversold rsiOverbought stopLossPercent takeProfitPercent : float)
    (i : nat) (st : Run) : Run :=
  let price := close (bar data i) in
  let date := date (bar data i) in
  if isNaN (get rsi i) || isNaN (get sma50 i) then st
  else
    let rsiCrossUp :=
      gt (get rsi i) rsiOversold && le (get rsi (i - 1)) rsiOversold in
    let aboveSMA := gt price (get sma50 i) in
    match currentTrade st with
    | None =>
        if rsiCrossUp && aboveSMA then
          enter st date price
            [Text "RSI: Crossed above "; Num rsiOversold;
             Text " oversold level, above SMA50"]
        else st
    | Some currentTrade =>
        let entryPrice := entryPrice currentTrade in
        let pnlPercent := pnlPercentOf price entryPrice in
        let rsiExit := gt (get rsi i) rsiOverbought in
        let stopLossHit := le pnlPercent (- stopLossPercent) in
        let takeProfitHit := ge pnlPercent takeProfitPercent in
        if rsiExit || stopLossHit || takeProfitHit then
          let exitReason :=
            reasonOf rsiExit stopLossHit
              [Text "RSI overbought (>"; Num rsiOverbought; Text ")"]
              pnlPercent in
          leave st currentTrade date price pnlPercent exitReason exitReason
        else st
    end.

Definition rsiScan (data : list OHLCV) (params : StrategyParams) : Run :=
  let rsiOversold := default 30 (rsiOversold params) in
  let rsiOverbought := default 70 (rsiOverbought params) in
  let stopLossPercent := default 2 (stopLossPercent params) in
  let takeProfitPercent := default 3 (takeProfitPercent params) in
  let closes := map close data in
  let rsi := calculateRSI closes 14 in
  let sma50 := calculateSMA closes 50 in
  for_loop 50 (length data)
    (rsiStep data rsi sma50 rsiOversold rsiOverbought stopLossPercent
       takeProfitPercent)
    start.

Definition rsiStrategy (data : list OHLCV) (params : StrategyParams)
    : StrategyResult :=
  closeAtEnd data (rsiScan data params).

(** *** Strategy 5: breakout *)

Definition breakoutStep (data : list OHLCV) (lookbackPeriod : nat)
    (stopLossPercent takeProfitPercent : float) (i : nat) (st : Run) : Run :=
  let price := close (bar data i) in
  let high := high (bar data i) in
  let date := date (bar data i) in
  let slice := slice (i - lookbackPeriod) i data in
  let highestHigh := Math_max (map Types.high slice) in
  let lowestLow := Math_min (map low slice) in
  match currentTrade st with
  | None =>
      if gt high highestHigh then
        enter st date price
          [Text "Breakout: Price broke above "; Num (of_nat lookbackPeriod);
           Text "-period high ("; Fixed highestHigh 2; Text ")"]
      else st
  | Some currentTrade =>
      let entryPrice := entryPrice currentTrade in
      let pnlPercent := pnlPercentOf price entryPrice in
      let breakdown := lt price lowestLow in
      let stopLossHit := le pnlPercent (- stopLossPercent) in
      let takeProfitHit := ge pnlPercent takeProfitPercent in
      if breakdown || stopLossHit || takeProfitHit then
        let exitReason :=
          reasonOf breakdown stopLossHit
            [Text "Breakdown: Price below "; Num (of_nat lookbackPeriod);
             Text "-period low"]
            pnlPercent in
        leave st currentTrade date price pnlPercent exitReason exitReason
      else st
  end.

Definition breakoutScan (data : list OHLCV) (params : StrategyParams) : Run :=
  let lookbackPeriod := default 20%nat (lookbackPeriod params) in
  let stopLossPercent := default 2 (stopLossPercent params) in
  let takeProfitPercent := default 4 (takeProfitPercent params) in
  for_loop lookbackPeriod (length data)
    (breakoutStep data lookbackPeriod stopLossPercent takeProfitPercent)
    start.

Definition breakoutStrategy (data : list OHLCV) (params : StrategyParams)
    : StrategyResult :=
  closeAtEnd data (breakoutScan data params).

(** *** Strategy 6: EMA crossover *)

Definition emaCrossoverStep (data : list OHLCV) (fastEMA slowEMA : list float)
    (fastPeriod slowPeriod : nat) (stopLossPercent takeProfitPercent : float)
    (i : nat) (st : Run) : Run :=
  let price := close (bar data i) in
  let date := date (bar data i) in
  if isNaN (get fastEMA i) || isNaN (get slowEMA i) then st
  else
    let crossUp :=
      gt (get fastEMA i) (get slowEMA i)
      && le (get fastEMA (i - 1)) (get slowEMA (i - 1)) in
    let crossDown :=
      lt (get fastEMA i) (get slowEMA i)
      && ge (get fastEMA (i - 1)) (get slowEMA (i - 1)) in
    match currentTrade st with
    | None =>
        if crossUp then
          enter st date price
            [Text "EMA Crossover: EMA("; Num (of_nat fastPeriod);
             Text ") crossed above EMA("; Num (of_nat slowPeriod); Text ")"]
        else st
    | Some currentTrade =>
        let entryPrice := entryPrice currentTrade in
        let pnlPercent := pnlPercentOf price entryPrice in
        let crossExit := crossDown in
        let stopLossHit := le pnlPercent (- stopLossPercent) in
        let takeProfitHit := ge pnlPercent takeProfitPercent in
        if crossExit || stopLossHit || takeProfitHit then
          let exitReason :=
            reasonOf crossExit stopLossHit [Text "EMA cross down"] pnlPercent in
          leave st currentTrade date price pnlPercent exitReason exitReason
        else st
    end.

Definition emaCrossoverScan (data : list OHLCV) (params : StrategyParams)
    : Run :=
  let fastPeriod := default 9%nat (fastPeriod params) in
  let slowPeriod := default 21%nat (slowPeriod params) in
  let stopLossPercent := default 2 (stopLossPercent params) in
  let takeProfitPercent := default 3 (takeProfitPercent params) in
  let closes := map close data in
  let fastEMA := calculateEMA closes fastPeriod in
  let slowEMA := calculateEMA closes slowPeriod in
  for_loop (Nat.max fastPeriod slowPeriod + 1) (length data)
    (emaCrossoverStep data fastEMA slowEMA fastPeriod slowPeriod
       stopLossPercent takeProfitPercent)
    start.

Definition emaCrossoverStrategy (data : list OHLCV) (params : StrategyParams)
    : StrategyResult :=
  closeAtEnd data (emaCrossoverScan data params).

(** *** Strategy 7: stochastic *)

Definition stochasticStep (data : list OHLCV) (stoch : StochasticResult)
    (sma50 : list float) (stopLossPercent takeProfitPercent : float)
    (i : nat) (st : Run) : Run :=
  let price := close (bar data i) in
  let date := date (bar data i) in
  if isNaN (get (k stoch) i) || isNaN (get (d stoch) i) || isNaN (get sma50 i)
  then st
  else
    let kCrossUp :=
      gt (get (k stoch) i) (get (d stoch) i)
      && le (get (k stoch) (i - 1)) (get (d stoch) (i - 1)) in
    let kCrossDown :=
      lt (get (k stoch) i) (get (d stoch) i)
      && ge (get (k stoch) (i - 1)) (get (d stoch) (i - 1)) in
    let oversold := lt (get (k stoch) i) 20 in
    let overbought := gt (get (k stoch) i) 80 in
    let aboveSMA := gt price (get sma50 i) in
    match currentTrade st with
    | None =>
        if kCrossUp && oversold && aboveSMA then
          enter st date price
            [Text "Stochastic: %K crossed above %D in oversold (";
             Fixed (get (k stoch) i) 1; Text ")"]
        else st
    | Some currentTrade =>
        let entryPrice := entryPrice currentTrade in
        let pnlPercent := pnlPercentOf price entryPrice in
        let stochExit := kCrossDown && overbought in
        let stopLossHit := le pnlPercent (- stopLossPercent) in
        let takeProfitHit := ge pnlPercent takeProfitPercent in
        if stochExit || stopLossHit || takeProfitHit then
          let exitReason :=
            reasonOf stochExit stopLossHit
              [Text "Stochastic overbought crossover"] pnlPercent in
          leave st currentTrade date price pnlPercent exitReason exitReason
        else st
    end.

Definition stochasticScan (data : list OHLCV) (params : StrategyParams)
    : Run :=
  let stopLossPercent := default 2 (stopLossPercent params) in
  let takeProfitPercent := default 3 (takeProfitPercent params) in
  let stoch := calculateStochastic data 14 3 in
  let closes := map close data in
  let sma50 := calculateSMA closes 50 in
  for_loop 50 (length data)
    (stochasticStep data stoch sma50 stopLossPercent takeProfitPercent)
    start.

Definition stochasticStrategy (data : list OHLCV) (params : StrategyParams)
    : StrategyResult :=
  closeAtEnd data (stochasticScan data params).

(** *** Strategy 8: ATR trailing stop *)

Definition atrTrailingStopStep (data : list OHLCV) (sma20 atr : list float)
    (atrMultiplier : float) (i : nat) (st : TrailRun) : TrailRun :=
  let price := close (bar data i) in
  let date := date (bar data i) in
  if isNaN (get sma20 i) || isNaN (get atr i) then st
  else
    let aboveSMA := gt price (get sma20 i) in
    let smaRising := gt (get sma20 i) (get sma20 (i - 1)) in
    match currentTrade (run st) with
    | None =>
        if aboveSMA && smaRising then
          {| run :=
               enter (run st) date price
                 [Text "ATR Trailing: Price above rising SMA20, ATR=";
                  Fixed (get atr i) 2];
             highestPrice := price;
             trailingStop := price - get atr i * atrMultiplier |}
        else st
    | Some currentTrade =>
        let st :=
          if gt price (highestPrice st) then
            {| run := run st;
               highestPrice := price;
               trailingStop := price - get atr i * atrMultiplier |}
          else st in
        let stopHit := lt price (trailingStop st) in
        if stopHit then
          let pnlPercent := pnlPercentOf price (entryPrice currentTrade) in
          {| run :=
               leave (run st) currentTrade date price pnlPercent
                 [Text "ATR Trailing Stop hit at "; Fixed (trailingStop st) 2]
                 [Text "ATR Trailing Stop"];
             highestPrice := 0;
             trailingStop := 0 |}
        else st
    end.

Definition atrTrailingStopScan (data : list OHLCV) (params : StrategyParams)
    : TrailRun :=
  let lookbackPeriod := default 14%nat (lookbackPeriod params) in
  let atrMultiplier := default 3 (atrMultiplier params) in
  let closes := map close data in
  let sma20 := calculateSMA closes 20 in
  let atr := atr (calculateATR data lookbackPeriod) in
  for_loop (lookbackPeriod + 20) (length data)
    (atrTrailingStopStep data sma20 atr atrMultiplier)
    {| run := start; highestPrice := 0; trailingStop := 0 |}.

Definition atrTrailingStopStrategy (data : list OHLCV)
    (params : StrategyParams) : StrategyResult :=
  closeAtEnd data (run (atrTrailingStopScan data params)).

(** *** Strategy 9: combined *)

(** [let n = 0; if (c1) n++; ...]. *)
Definition count (conditions : list bool) : nat :=
  List.length (filter (fun c => c) conditions).

Definition combinedStep (data : list OHLCV) (sma20 rsi : list float)
    (bb : BollingerBands) (macd : MACDResult) (stoch : StochasticResult)
    (i : nat) (st : Run) : Run :=
  let price := close (bar data i) in
  let date := date (bar data i) in
  if isNaN (get sma20 i) || isNaN (get rsi i) || isNaN (get (lower bb) i)
  then st
  else
    let bullishSignals :=
      count [gt price (get sma20 i);
             lt (get rsi i) 40;
             lt price (get (lower bb) i);
             gt (get (Indicators.macd macd) i) (get (signal macd) i);
             lt (get (k stoch) i) 30] in
    let bearishSignals :=
      count [gt (get rsi i) 65;
             gt price (get (upper bb) i);
             lt (get (Indicators.macd macd) i) (get (signal macd) i);
             gt (get (k stoch) i) 70] in
    match currentTrade st with
    | None =>
        if (3 <=? bullishSignals)%nat then
          enter st date price
            [Text "Combined: "; Num (of_nat bullishSignals);
             Text "/5 bullish signals (RSI="; Fixed (get rsi i) 1;
             Text ", Stoch="; Fixed (get (k stoch) i) 1; Text ")"]
        else st
    | Some currentTrade =>
        let entryPrice := entryPrice currentTrade in
        let pnlPercent := pnlPercentOf price entryPrice in
        let bearishExit := (3 <=? bearishSignals)%nat in
        let stopLossHit := le pnlPercent (- (2)) in
        let takeProfitHit := ge pnlPercent 4 in
        if bearishExit || stopLossHit || takeProfitHit then
          let exitReason :=
            reasonOf bearishExit stopLossHit
              [Num (of_nat bearishSignals);
               Text "/5 bearish signals triggered"]
              pnlPercent in
          leave st currentTrade date price pnlPercent exitReason exitReason
        else st
    end.

Definition combinedScan (data : list OHLCV) (_params : StrategyParams) : Run :=
  let closes := map close data in
  let sma20 := calculateSMA closes 20 in
  let rsi := calculateRSI closes 14 in
  let bb := calculateBollingerBands Math_pow closes 20 2 in
  let macd := calculateMACD closes 12 26 9 in
  let stoch := calculateStochastic data 14 3 in
  for_loop 50 (length data) (combinedStep data sma20 rsi bb macd stoch) start.

Definition combinedStrategy (data : list OHLCV) (_params : StrategyParams)
    : StrategyResult :=
  closeAtEnd data (combinedScan data _params).

(** *** The runner *)

(** The state of the chosen strategy's scan when its loop ends. *)
Definition scanOf (type : StrategyType) (data : list OHLCV)
    (params : StrategyParams) : Run :=
  match type with
  | mean_reversion => meanReversionScan data params
  | momentum => momentumScan data params
  | vwap_bounce => vwapBounceScan data params
  | rsi => rsiScan data params
  | breakout => breakoutScan data params
  | ema_crossover => emaCrossoverScan data params
  | stochastic => stochasticScan data params
  | atr_trailing => run (atrTrailingStopScan data params)
  | combined => combinedScan data params
  end.

(** The [default] branch of the source's [switch] is unreachable for a
    [StrategyType]. *)
Definition runStrategy (type : StrategyType) (data : list OHLCV)
    (params : StrategyParams) : StrategyResult :=
  match type with
  | mean_reversion => meanReversionStrategy data params
  | momentum => momentumStrategy data params
  | vwap_bounce => vwapBounceStrategy data params
  | rsi => rsiStrategy data params
  | breakout => breakoutStrategy data params
  | ema_crossover => emaCrossoverStrategy data params
  | stochastic => stochasticStrategy data params
  | atr_trailing => atrTrailingStopStrategy data params
  | combined => combinedStrategy data params
  end.

End WithPow.
End Strategies.

(* ================================================================= *)
(** ** backtest.ts *)

Module Backtest.
Import JS Types Indicators Strategies.

Record BacktestResult := {
  bt_trades : list Trade;
  bt_equityCurve : list EquityPoint;
  bt_metrics : PerformanceMetrics;
  bt_signals : list Signal;
  bt_config : BacktestConfig
}.

Definition isClosed (t : Trade) : bool :=
  match status t with CLOSED => true | OPEN => false end.

Definition isOpen (t : Trade) : bool :=
  match status t with OPEN => true | CLOSED => false end.

Definition getEmptyMetrics : PerformanceMetrics :=
  {| totalReturn := 0; annualizedReturn := 0; cagr := 0; sharpeRatio := 0;
     sortinoRatio := 0; maxDrawdown := 0; maxDrawdownDuration := 0;
     calmarRatio := 0; volatility := 0; winRate := 0; profitFactor := 0;
     expectancy := 0; totalTrades := 0; winningTrades := 0;
     losingTrades := 0; avgTradeReturn := 0; avgWinningTrade := 0;
     avgLosingTrade := 0; largestWin := 0; largestLoss := 0;
     avgTradeDuration := 0; grossProfit := 0; grossLoss := 0;
     netProfit := 0; commissionPaid := 0 |}.

(** [equityCurve[i].equity]; only read in range. *)
Definition equityAt (equityCurve : list EquityPoint) (i : nat) : float :=
  match nth_error equityCurve i with
  | Some p => equity p
  | None => nan
  end.

(** [(t.pnl || 0)] and [(t.pnlPercent || 0)]. *)
Definition pnlOrZero (t : Trade) : float := opt_or (pnl t) 0.
Definition pnlPercentOrZero (t : Trade) : float := opt_or (pnlPercent t) 0.

Definition isWinning (t : Trade) : bool := gt (pnlOrZero t) 0.
Definition isLosing (t : Trade) : bool := le (pnlOrZero t) 0.

(** The accumulators of the drawdown loop of [calculateMetrics].  The
    durations are differences of loop indices. *)
Record DrawdownState := {
  dd_maxDrawdown : float;
  dd_maxDrawdownDuration : nat;
  dd_currentDrawdownDuration : nat;
  dd_peakEquity : float;
  dd_drawdownStart : nat
}.

Definition drawdownStep (equityCurve : list EquityPoint) (i : nat)
    (st : DrawdownState) : DrawdownState :=
  if gt (equityAt equityCurve i) (dd_peakEquity st) then
    {| dd_maxDrawdown := dd_maxDrawdown st;
       dd_maxDrawdownDuration := dd_maxDrawdownDuration st;
       dd_currentDrawdownDuration := 0;
       dd_peakEquity := equityAt equityCurve i;
       dd_drawdownStart := i |}
  else
    let currentDrawdownDuration := (i - dd_drawdownStart st)%nat in
    let drawdown :=
      (dd_peakEquity st - equityAt equityCurve i) / dd_peakEquity st in
    if gt drawdown (dd_maxDrawdown st) then
      {| dd_maxDrawdown := drawdown;
         dd_maxDrawdownDuration := currentDrawdownDuration;
         dd_currentDrawdownDuration := currentDrawdownDuration;
         dd_peakEquity := dd_peakEquity st;
         dd_drawdownStart := dd_drawdownStart st |}
    else
      {| dd_maxDrawdown := dd_maxDrawdown st;
         dd_maxDrawdownDuration := dd_maxDrawdownDuration st;
         dd_currentDrawdownDuration := currentDrawdownDuration;
         dd_peakEquity := dd_peakEquity st;
         dd_drawdownStart := dd_drawdownStart st |}.

(** [closedTrades.length * config.initialCapital * config.commission * 2]. *)
Definition commissionPaidOf (closedTrades : list Trade)
    (config : BacktestConfig) : float :=
  of_nat (length closedTrades) * initialCapital config * commission config * 2.

(** [grossLoss > 0 ? grossProfit / grossLoss : grossProfit > 0 ? Infinity : 0]. *)
Definition profitFactorOf (grossProfit grossLoss : float) : float :=
  if gt grossLoss 0 then grossProfit / grossLoss
  else if gt grossProfit 0 then infinity
  else 0.

Definition grossProfitOf (winningTrades : list Trade) : float :=
  fold_left (fun sum t => sum + pnlOrZero t) winningTrades 0.

Definition grossLossOf (losingTrades : list Trade) : float :=
  Math_abs (fold_left (fun sum t => sum + pnlOrZero t) losingTrades 0).

Section WithPow.
Variable Math_pow : float -> float -> float.

Definition calculateMetrics (trades : list Trade)
    (equityCurve : list EquityPoint) (config : BacktestConfig)
    : PerformanceMetrics :=
  if (length trades =? 0)%nat then getEmptyMetrics
  else
    let initialCapital := initialCapital config in
    let closedTrades := filter isClosed trades in
    if (length closedTrades =? 0)%nat then getEmptyMetrics
    else
      (* Trade statistics *)
      let winningTrades := filter isWinning closedTrades in
      let losingTrades := filter isLosing closedTrades in
      let grossProfit := grossProfitOf winningTrades in
      let grossLoss := grossLossOf losingTrades in
      let netProfit := grossProfit - grossLoss in
      let commissionPaid := commissionPaidOf closedTrades config in
      (* Returns *)
      let totalReturn := (netProfit / initialCapital) * 100 in
      let startDate := startDate config in
      let endDate := endDate config in
      let daysInMarket :=
        (of_Z (getTime endDate) - of_Z (getTime startDate))
        / (1000 * 60 * 60 * 24) in
      let yearsInMarket := daysInMarket / 365.25 in
      let annualizedReturn :=
        if gt yearsInMarket 0
        then (Math_pow (1 + totalReturn / 100) (1 / yearsInMarket) - 1) * 100
        else totalReturn in
      let cagr := annualizedReturn in
      (* Daily returns for risk metrics *)
      let dailyReturns :=
        for_loop 1 (length equityCurve)
          (fun i dailyReturns =>
             let dailyReturn :=
               (equityAt equityCurve i - equityAt equityCurve (i - 1))
               / equityAt equityCurve (i - 1) in
             push dailyReturns dailyReturn)
          [] in
      let meanReturn := sum dailyReturns / of_nat (length dailyReturns) in
      let variance :=
        fold_left (fun sum r => sum + Math_pow (r - meanReturn) 2)
          dailyReturns 0
        / of_nat (length dailyReturns) in
      let dailyVolatility := Math_sqrt variance in
      let volatility := dailyVolatility * Math_sqrt 252 * 100 in
      let sharpeRatio :=
        if gt dailyVolatility 0
        then (meanReturn / dailyVolatility) * Math_sqrt 252
        else 0 in
      let downsideReturns := filter (fun r => lt r 0) dailyReturns in
      let downsideDeviation :=
        if (0 <? length downsideReturns)%nat
        then Math_sqrt
               (fold_left (fun sum r => sum + r * r) downsideReturns 0
                / of_nat (length downsideReturns))
        else 0 in
      let sortinoRatio :=
        if gt downsideDeviation 0
        then (meanReturn / downsideDeviation) * Math_sqrt 252
        else 0 in
      (* Max drawdown and duration *)
      let dd :=
        for_loop 0 (length equityCurve) (drawdownStep equityCurve)
          {| dd_maxDrawdown := 0; dd_maxDrawdownDuration := 0;
             dd_currentDrawdownDuration := 0;
             dd_peakEquity := initialCapital; dd_drawdownStart := 0 |} in
      let maxDrawdown := dd_maxDrawdown dd * 100 in
      (* [Math.round] of an index difference is that difference. *)
      let maxDrawdownDuration := of_nat (dd_maxDrawdownDuration dd) in
      let calmarRatio :=
        if gt maxDrawdown 0 then annualizedReturn / maxDrawdown
        else annualizedReturn in
      let winRate :=
        (of_nat (length winningTrades) / of_nat (length closedTrades)) * 100 in
      let profitFactor := profitFactorOf grossProfit grossLoss in
      (* Expectancy *)
      let avgWin :=
        if (0 <? length winningTrades)%nat
        then fold_left (fun sum t => sum + pnlPercentOrZero t) winningTrades 0
             / of_nat (length winningTrades)
        else 0 in
      let avgLoss :=
        if (0 <? length losingTrades)%nat
        then Math_abs
               (fold_left (fun sum t => sum + pnlPercentOrZero t)
                  losingTrades 0)
             / of_nat (length losingTrades)
        else 0 in
      let winProb := of_nat (length winningTrades) / of_nat (length closedTrades) in
      let lossProb := of_nat (length losingTrades) / of_nat (length closedTrades) in
      let expectancy := (winProb * avgWin) - (lossProb * avgLoss) in
      (* Trade metrics *)
      let avgTradeReturn :=
        fold_left (fun sum t => sum + pnlPercentOrZero t) closedTrades 0
        / of_nat (length closedTrades) in
      let largestWin :=
        if (0 <? length winningTrades)%nat
        then Math_max (map pnlOrZero winningTrades) else 0 in
      let largestLoss :=
        if (0 <? length losingTrades)%nat
        then Math_min (map pnlOrZero losingTrades) else 0 in
      let avgTradeDuration :=
        fold_left
          (fun sum t =>
             match exitDate t with
             | Some exitDate =>
                 sum + (of_Z (getTime exitDate) - of_Z (getTime (entryDate t)))
                       / (1000 * 60 * 60)
             | None => sum
             end)
          closedTrades 0
        / of_nat (length closedTrades) in
      {| totalReturn := totalReturn;
         annualizedReturn := annualizedReturn;
         cagr := cagr;
         sharpeRatio := sharpeRatio;
         sortinoRatio := sortinoRatio;
         maxDrawdown := maxDrawdown;
         maxDrawdownDuration := maxDrawdownDuration;
         calmarRatio := calmarRatio;
         volatility := volatility;
         winRate := winRate;
         profitFactor := profitFactor;
         expectancy := expectancy;
         totalTrades := of_nat (length closedTrades);
         winningTrades := of_nat (length winningTrades);
         losingTrades := of_nat (length losingTrades);
         avgTradeReturn := avgTradeReturn;
         avgWinningTrade := avgWin;
         avgLosingTrade :=
           if (0 <? length losingTrades)%nat then - avgLoss else 0;
         largestWin := largestWin;
         largestLoss := largestLoss;
         avgTradeDuration := avgTradeDuration;
         grossProfit := grossProfit;
         grossLoss := grossLoss;
         netProfit := netProfit;
         commissionPaid := commissionPaid |}.

End WithPow.

(** *** The equity curve *)

(** The local variables of [generateEquityCurve]. *)
Record CurveState := {
  equityCurve : list EquityPoint;
  st_equity : float;
  peakEquity : float;
  openTrade : option Trade;
  openTradeEntryValue : float
}.

(** [tradesByDate.get(time) || []]: the trades that have an exit date
    with that time value, in the order of [trades]. *)
Definition exitingTradesAt (trades : list Trade) (time : Z) : list Trade :=
  filter
    (fun t =>
       match exitDate t with
       | Some d => Z.eqb (getTime d) time
       | None => false
       end)
    trades.

(** [trade.exitPrice!]. *)
Definition exitPriceOf (t : Trade) : float :=
  match exitPrice t with Some x => x | None => nan end.

(** The body of [for (const trade of exitingTrades)]. *)
Definition exitStep (config : BacktestConfig) (st : CurveState) (trade : Trade)
    : CurveState :=
  match pnl trade with
  | Some tradePnl =>
      let slippageAmount := exitPriceOf trade * size trade * slippage config in
      let commission := exitPriceOf trade * size trade * commission config in
      let adjustedPnL := tradePnl - slippageAmount - commission in
      let equity := st_equity st + adjustedPnL in
      let peakEquity := if gt equity (peakEquity st) then equity else peakEquity st in
      let same :=
        match openTrade st with
        | Some o => (id o =? id trade)%nat
        | None => false
        end in
      {| equityCurve := equityCurve st;
         st_equity := equity;
         peakEquity := peakEquity;
         openTrade := if same then None else openTrade st;
         openTradeEntryValue := if same then 0 else openTradeEntryValue st |}
  | None => st
  end.

(** The entry check at the head of the loop body. *)
Definition entryStep (trades : list Trade) (config : BacktestConfig)
    (time : Z) (st : CurveState) : CurveState :=
  match find (fun t => Z.eqb (getTime (entryDate t)) time) trades with
  | Some enteringTrade =>
      let commission :=
        entryPrice enteringTrade * size enteringTrade * commission config in
      {| equityCurve := equityCurve st;
         st_equity := st_equity st - commission;
         peakEquity := peakEquity st;
         openTrade := Some enteringTrade;
         openTradeEntryValue := entryPrice enteringTrade * size enteringTrade |}
  | None => st
  end.

(** [unrealizedPnL] as the loop body computes it after the entry check. *)
Definition unrealizedPnLOf (candle : OHLCV) (st : CurveState) : float :=
  match openTrade st with
  | Some openTrade =>
      if isOpen openTrade then
        let currentValue := close candle * size openTrade in
        currentValue - openTradeEntryValue st
      else 0
  | None => 0
  end.

(** [data[0]?.close || 1]. *)
Definition firstPriceOf (data : list OHLCV) : float :=
  opt_or (option_map close (nth_error data 0)) 1.

(** The body of [for (const candle of data)]. *)
Definition curveStep (data : list OHLCV) (trades : list Trade)
    (config : BacktestConfig) (st : CurveState) (candle : OHLCV) : CurveState :=
  let date := date candle in
  let time := getTime date in
  let st := entryStep trades config time st in
  let unrealizedPnL := unrealizedPnLOf candle st in
  let st := fold_left (exitStep config) (exitingTradesAt trades time) st in
  let currentEquity := st_equity st + unrealizedPnL in
  let currentDrawdown :=
    if gt (peakEquity st) 0
    then ((peakEquity st - currentEquity) / peakEquity st) * 100
    else 0 in
  let firstPrice := firstPriceOf data in
  let benchmark := ((close candle - firstPrice) / firstPrice) * 100 in
  {| equityCurve :=
       push (equityCurve st)
         {| point_date := date; equity := currentEquity;
            drawdown := currentDrawdown; benchmark := benchmark |};
     st_equity := st_equity st;
     peakEquity := peakEquity st;
     openTrade := openTrade st;
     openTradeEntryValue := openTradeEntryValue st |}.

Definition curveStart (config : BacktestConfig) : CurveState :=
  {| equityCurve := [];
     st_equity := initialCapital config;
     peakEquity := initialCapital config;
     openTrade := None;
     openTradeEntryValue := 0 |}.

(** The state of the loop of [generateEquityCurve] after the bars of
    [seen], a prefix of [data]. *)
Definition curveAfter (data : list OHLCV) (trades : list Trade)
    (config : BacktestConfig) (seen : list OHLCV) : CurveState :=
  fold_left (curveStep data trades config) seen (curveStart config).

Definition generateEquityCurve (data : list OHLCV) (trades : list Trade)
    (config : BacktestConfig) : list EquityPoint :=
  equityCurve (curveAfter data trades config data).

(** *** The main backtest *)

Section WithPow2.
Variable Math_pow : float -> float -> float.

(** [now] is the value of [new Date()] when the series is empty; the
    timing and the console output are left out. *)
Definition runBacktest (now : Date) (data : list OHLCV)
    (strategyType : StrategyType) (params : StrategyParams)
    (initialCapital commission slippage : float) : BacktestResult :=
  let r := runStrategy Math_pow strategyType data params in
  let config :=
    {| strategy := strategyType;
       params := params;
       initialCapital := initialCapital;
       commission := commission;
       slippage := slippage;
       startDate :=
         match nth_error data 0 with Some b => date b | None => now end;
       endDate :=
         match nth_error data (length data - 1) with
         | Some b => date b
         | None => now
         end |} in
  let equityCurve := generateEquityCurve data (result_trades r) config in
  let metrics := calculateMetrics Math_pow (result_trades r) equityCurve config in
  {| bt_trades := result_trades r;
     bt_equityCurve := equityCurve;
     bt_metrics := metrics;
     bt_signals := result_signals r;
     bt_config := config |}.

End WithPow2.
End Backtest.

(* ================================================================= *)
(** ** backtest.ts: the parameter sweep *)

Module Optimizer.
Import JS Types Backtest.

(** A [Record<string, number>] or a [StrategyParams] object as the sweep
    builds it: the own keys in [Object.keys] order with their values. *)
Inductive Value := VString (s : string) | VNumber (x : float).

Definition Obj := list (string * Value).

(** [o[key] = v]: an existing key keeps its place. *)
Fixpoint set (o : Obj) (key : string) (v : Value) : Obj :=
  match o with
  | [] => [(key, v)]
  | (k, w) :: rest =>
      if String.eqb k key then (k, v) :: rest else (k, w) :: set rest key v
  end.

(** [{ ...a, ...b }]. *)
Definition spread (a b : Obj) : Obj :=
  fold_left (fun o kv => set o (fst kv) (snd kv)) b a.

Record OptimizationResult := {
  opt_params : Obj;
  opt_metrics : PerformanceMetrics;
  score : float
}.

(** What a call inside [try] does: it returns, or it throws. *)
Inductive Outcome (A : Type) :=
| Returned (a : A)
| Thrown.
Arguments Returned {A} a.
Arguments Thrown {A}.

(** [generateCombinations(index, current)], on the keys from [index] on
    with their candidate lists ([paramRanges] lists each key once).  The
    object [current] is shared and mutated, so it is threaded through;
    [combinations] receives a copy at each leaf. *)
Fixpoint generateCombinations (ranges : list (string * list float))
    (current : Obj) (combinations : list Obj) : list Obj * Obj :=
  match ranges with
  | [] => (push combinations current, current)
  | (key, values) :: rest =>
      fold_left
        (fun acc value =>
           generateCombinations rest (set (snd acc) key (VNumber value)) (fst acc))
        values (combinations, current)
  end.

Definition combinationsOf (paramRanges : list (string * list float))
    : list Obj :=
  fst (generateCombinations paramRanges [] []).

(** [SortCompare] of ECMA-262 23.1.3.30.2 for a comparator on values that
    are not [undefined]: a NaN result counts as +0. *)
Definition sortCompare {A} (comparefn : A -> A -> float) (x y : A) : float :=
  let v := comparefn x y in
  if isNaN v then 0 else v.

(** [Array.prototype.sort] is stable: for a consistent comparator every
    conforming engine returns the array that insertion from the right
    builds.  A comparator is not consistent when a NaN score compares
    equal to two scores that differ; ECMA-262 23.1.3.30 then leaves the
    order to the implementation, and insertion from the right gives one
    order.  An array whose neighbours all compare as equal or in order
    is left as it is, here as by the run detection of V8's sort. *)
Fixpoint insert {A} (comparefn : A -> A -> float) (x : A) (l : list A)
    : list A :=
  match l with
  | [] => [x]
  | y :: rest =>
      if gt (sortCompare comparefn x y) 0 then y :: insert comparefn x rest
      else x :: l
  end.

Definition sort {A} (comparefn : A -> A -> float) (l : list A) : list A :=
  fold_right (insert comparefn) [] l.

Definition neutral : OptimizationResult :=
  {| opt_params := []; opt_metrics := getEmptyMetrics; score := 0 |}.

Section Sweep.
(** The callee [runBacktest], with [data], [strategyType] and
    [initialCapital] fixed by the caller: its behaviour on a parameter
    object.  The sweep is verified for every callee. *)
Variable runBacktest : Obj -> Outcome BacktestResult.

(** The body of [for (const combo of combinations)]. *)
Definition testCombination (metricToOptimize : MetricKey)
    (results : list OptimizationResult) (combo : Obj)
    : list OptimizationResult :=
  let params :=
    spread [("name"%string, VString "Optimized");
            ("description"%string, VString "Auto-optimized parameters")]
           combo in
  match runBacktest params with
  | Returned result =>
      let score := metric (bt_metrics result) metricToOptimize in
      push results
        {| opt_params := params; opt_metrics := bt_metrics result;
           score := score |}
  | Thrown => results
  end.

(** [results] when the loop over the combinations ends. *)
Definition sweep (paramRanges : list (string * list float))
    (metricToOptimize : MetricKey) : list OptimizationResult :=
  fold_left (testCombination metricToOptimize) (combinationsOf paramRanges) [].

Definition optimizeStrategy (paramRanges : list (string * list float))
    (metricToOptimize : MetricKey) : OptimizationResult :=
  let results := sweep paramRanges metricToOptimize in
  let results := sort (fun a b => score b - score a) results in
  match results with
  | first :: _ => first
  | [] => neutral
  end.

End Sweep.
End Optimizer.

(* ================================================================= *)
(** ** backtest.ts: the strategy comparison *)

Module Comparison.
Import JS Types Backtest.

(** An element of the [strategies] argument. *)
Record StrategyChoice := {
  choice_type : StrategyType;
  choice_name : string;
  choice_params : StrategyParams
}.

Record StrategyComparison := {
  cmp_strategy : StrategyType;
  strategyName : string;
  cmp_metrics : PerformanceMetrics;
  cmp_trades : list Trade;
  executionTime : float
}.

Section WithClock.
Variable Math_pow : float -> float -> float.
(** [performance.now()] at its n-th call (from 0), and [new Date()] as the
    k-th back-test reads it. *)
Variable performance_now : nat -> float.
Variable now : nat -> Date.

(** The body of [for (const { type, name, params } of strategies)]; the
    state is [results] with the number of clock reads so far.  The call
    of [runBacktest] reads the clock twice. *)
Definition compareStep (data : list OHLCV)
    (initialCapital commission slippage : float)
    (acc : list StrategyComparison * nat) (choice : StrategyChoice)
    : list StrategyComparison * nat :=
  let results := fst acc in
  let calls := snd acc in
  let startTime := performance_now calls in
  let result :=
    runBacktest Math_pow (now (length results)) data (choice_type choice)
      (choice_params choice) initialCapital commission slippage in
  let endTime := performance_now (calls + 3) in
  (push results
     {| cmp_strategy := choice_type choice;
        strategyName := choice_name choice;
        cmp_metrics := bt_metrics result;
        cmp_trades := bt_trades result;
        executionTime := endTime - startTime |},
   (calls + 4)%nat).

(** [results] when the loop ends, before the sort. *)
Definition comparisons (data : list OHLCV) (strategies : list StrategyChoice)
    (initialCapital commission slippage : float) : list StrategyComparison :=
  fst (fold_left (compareStep data initialCapital commission slippage)
         strategies ([], 0%nat)).

Definition compareStrategies (data : list OHLCV)
    (strategies : list StrategyChoice)
    (initialCapital commission slippage : float) : list StrategyComparison :=
  let results := comparisons data strategies initialCapital commission slippage in
  Optimizer.sort
    (fun a b => sharpeRatio (cmp_metrics b) - sharpeRatio (cmp_metrics a))
    results.

End WithClock.
End Comparison.

(* ================================================================= *)
(** * Specification vocabulary and sample inputs *)

Import JS Types.

(** Binary64 values read as integers, for the order facts of [Binary64]. *)
Module Binary64Val.

Definition aligned (s : bool) (m : positive) (e ez : Z) : Z :=
  cond_Zopp s (Zpos (fst (shl_align m e ez))).

(** A valid value that is not NaN, as an integer multiple of 2^-1074; the
    infinities sit beyond every finite value. *)
Definition SFval (x : spec_float) : Z :=
  match x with
  | S754_zero _ => 0
  | S754_infinity s => cond_Zopp s (2 ^ 2100)
  | S754_nan => 0
  | S754_finite s m e => cond_Zopp s (Zpos m * 2 ^ (e + 1074))
  end.

Definition val (a : float) : Z := SFval (Prim2SF a).

End Binary64Val.

(** The life of a trade in a scan. *)
Module Lifecycle.
Import Indicators Strategies.

(** A trade that is CLOSED with all its exit fields present. *)
Definition ClosedTrade (t : Trade) : Prop :=
  status t = CLOSED
  /\ exitDate t <> None
  /\ exitPrice t <> None
  /\ pnl t <> None
  /\ pnlPercent t <> None
  /\ exitReason t <> None.

(** The two transitions of a scan (FLAT to IN_POSITION and back), and
    the bars that change nothing. *)
Inductive advance (st : Run) : Run -> Prop :=
| advance_skip : advance st st
| advance_enter date price reason :
    currentTrade st = None ->
    advance st (enter st date price reason)
| advance_leave t date price pnlPercent exitReason signalReason :
    currentTrade st = Some t ->
    advance st (leave st t date price pnlPercent exitReason signalReason).

(** What holds of the scan's state at every bar of a series [data]. *)
Definition scan_invariant (data : list OHLCV) (st : Run) : Prop :=
  Forall ClosedTrade (trades st)
  /\ (currentTrade st <> None -> (0 < length data)%nat).

End Lifecycle.

Module Breakout.
Import Indicators Strategies.

(** Two bars: the second one's high (11) is above the first one's high
    (10), its close (9.5) is not. *)
Definition two_bars : list OHLCV :=
  [ {| date := {| getTime := 0; toDateString := "Mon Jan 01 2024" |};
       open := 9; high := 10; low := 8; close := 9; volume := 100 |};
    {| date := {| getTime := 60000; toDateString := "Mon Jan 01 2024" |};
       open := 9; high := 11; low := 9; close := 9.5; volume := 100 |} ].

(** The message of the technical exit. *)
Definition breakdownReason (lookbackPeriod : nat) : Message :=
  [Text "Breakdown: Price below "; Num (of_nat lookbackPeriod);
   Text "-period low"].

(** The turn from [st] to [st'] closed the position with that reason. *)
Definition exitedWith (reason : Message) (st st' : Run) : Prop :=
  exists t',
    trades st' = trades st ++ [t']
    /\ exitReason t' = Some reason
    /\ currentTrade st' = None.

(** A position opened at bar 2 and a bar 3 that closes below the low of
    bar 2. *)
Definition three_bars : list OHLCV :=
  two_bars
  ++ [ {| date := {| getTime := 120000; toDateString := "Mon Jan 01 2024" |};
          open := 9; high := 9.5; low := 8; close := 8.5; volume := 100 |} ].

End Breakout.

(** Vocabulary for the RSI properties. *)
Module RSISpec.
Import Indicators.

(** The value [calculateRSI] yields wherever the average loss is zero:
    RS is set to 100, so RSI is 100 - 100 / 101. *)
Definition fallbackRSI : float := 100 - (100 / (1 + 100)).

(** A series whose every value is above the one before. *)
Definition strictlyIncreasing (data : list float) : Prop :=
  forall i, (Datatypes.S i < length data)%nat ->
            lt (get data i) (get data (Datatypes.S i)) = true.

(** The period as a number is positive and [period - 1] is finite, which
    the smoothing step needs to keep a zero average at zero. *)
Definition periodOk (period : nat) : bool :=
  lt 0 (of_nat period) && PrimFloat.is_finite (of_nat period - 1).

(** One turn of the first loop of [calculateRSI]. *)
Definition changeStep (data : list float) (i : nat)
    (gl : list float * list float) : list float * list float :=
  let change := get data i - get data (i - 1) in
  (push (fst gl) (if gt change 0 then change else 0),
   push (snd gl) (if lt change 0 then - change else 0)).

End RSISpec.

(** Vocabulary for the EMA properties. *)
Module EMASpec.
Import Indicators.

(** A loop that pushes [f i result] at turn [i]. *)
Definition pushLoop (f : nat -> list float -> float) (n : nat) : list float :=
  for_loop 0 n (fun i result => push result (f i result)) [].

(** What [calculateEMA] pushes at turn [i]. *)
Definition emaValue (data : list float) (period : nat) (i : nat)
    (result : list float) : float :=
  if (i =? 0)%nat then get data 0
  else if (i <? period - 1)%nat then sum (slice 0 (i + 1) data) / of_nat (i + 1)
  else (get data i - get result (i - 1)) * (2 / (of_nat period + 1))
       + get result (i - 1).

(** Every step of the period-1 recurrence on [x] is computed exactly. *)
Definition exactSteps (x : list float) : Prop :=
  forall i, (1 <= i)%nat -> (i < length x)%nat ->
            (get x i - get x (i - 1)) * 1 + get x (i - 1) = get x i.

End EMASpec.

(** Vocabulary for the metrics properties. *)
Module MetricsSpec.
Import Backtest.

(** A closed trade with the given pnl, appended to a list to count it. *)
Definition breakEven (t : Trade) : Prop :=
  status t = CLOSED /\ exists p, pnl t = Some p /\ eq p 0 = true.

End MetricsSpec.

(** Sample trades and a sample configuration for the concrete instances
    below. *)
Module Samples.

Definition day (n : Z) : Date :=
  {| getTime := n * 86400000; toDateString := "Mon Jan 01 2024" |}.

Definition closedTrade (n : nat) (entry exit : float) : Trade :=
  {| id := n; entryDate := day (Z.of_nat n);
     entryPrice := entry; exitDate := Some (day (Z.of_nat n + 1));
     exitPrice := Some exit; type := LONG; size := 1;
     pnl := Some (exit - entry);
     pnlPercent := Some (((exit - entry) / entry) * 100);
     status := CLOSED; exitReason := Some [Text "End of data"] |}.

Definition winner : Trade := closedTrade 0 10 12.
Definition loser : Trade := closedTrade 1 10 9.
Definition flat : Trade := closedTrade 2 10 10.

Definition noParams : StrategyParams :=
  {| name := ""; description := ""; lookbackPeriod := None;
     stdDevMultiplier := None; stopLossPercent := None;
     takeProfitPercent := None; fastPeriod := None; slowPeriod := None;
     vwapDeviation := None; rsiOversold := None; rsiOverbought := None;
     atrMultiplier := None |}.

Definition config : BacktestConfig :=
  {| strategy := breakout; params := noParams; initialCapital := 100000;
     commission := 0.0005; slippage := 0.001;
     startDate := day 0; endDate := day 3 |}.

(** A stand-in for [Math.pow], exact on the exponent 2 the sources use
    for squares. *)
Definition pow (base exponent : float) : float :=
  if PrimFloat.eqb exponent 2 then base * base else nan.

End Samples.

(** A trade held over the second of three bars, and the trades the equity loop tracks. *)
Module HeldTrade.
Import Backtest.

(** Three daily bars closing at 10, 12 and 11. *)
Definition bars : list OHLCV :=
  [ {| date := Samples.day 0; open := 10; high := 10; low := 10;
       close := 10; volume := 100 |};
    {| date := Samples.day 1; open := 10; high := 12; low := 10;
       close := 12; volume := 100 |};
    {| date := Samples.day 2; open := 12; high := 12; low := 11;
       close := 11; volume := 100 |} ].

(** A trade as [runStrategy] returns it: entered at the first bar's close,
    closed at the third bar's close. *)
Definition held : Trade :=
  {| id := 0; entryDate := Samples.day 0; entryPrice := 10;
     exitDate := Some (Samples.day 2); exitPrice := Some 11; type := LONG;
     size := 1; pnl := Some 1; pnlPercent := Some 10; status := CLOSED;
     exitReason := Some [Text "End of data"] |}.

(** The trade the loop tracks, if any, is a CLOSED one. *)
Definition tracksClosed (st : CurveState) : Prop :=
  forall t, openTrade st = Some t -> status t = CLOSED.

End HeldTrade.

(** Vocabulary for the parameter sweep. *)
Module SweepSpec.
Import Optimizer.

(** The Cartesian product of the candidate lists, in the order of the
    nested loops: the first key varies slowest. *)
Fixpoint cartesian (ranges : list (string * list float))
    : list (list (string * float)) :=
  match ranges with
  | [] => [[]]
  | (key, values) :: rest =>
      flat_map (fun v => map (cons (key, v)) (cartesian rest)) values
  end.

(** A combination as the object [{ key: value, ... }]. *)
Definition toObj (c : list (string * float)) : Obj :=
  map (fun kv => (fst kv, VNumber (snd kv))) c.

(** The parameter object the loop builds for a combination. *)
Definition paramsFor (combo : Obj) : Obj :=
  spread [("name"%string, VString "Optimized");
          ("description"%string, VString "Auto-optimized parameters")]
         combo.

(** The entry a combination contributes to [results]: one if the backtest
    returns, none if it throws. *)
Definition contribution (runBacktest : Obj -> Outcome Backtest.BacktestResult)
    (metricToOptimize : MetricKey) (combo : Obj) : list OptimizationResult :=
  match runBacktest (paramsFor combo) with
  | Returned result =>
      [{| opt_params := paramsFor combo;
          opt_metrics := Backtest.bt_metrics result;
          score := metric (Backtest.bt_metrics result) metricToOptimize |}]
  | Thrown => []
  end.

(** What is left in the shared object [current] of values written by the
    inner loops: entries for a prefix of the keys still to assign. *)
Inductive stale : Obj -> list string -> Prop :=
| stale_nil keys : stale [] keys
| stale_cons key w tail keys :
    stale tail keys -> stale ((key, w) :: tail) (key :: keys).

(** The comparator of the sweep. *)
Definition byScore (a b : OptimizationResult) : float := score b - score a.

(** No entry of the list has a higher score. *)
Definition maximal (best : OptimizationResult) (l : list OptimizationResult)
    : Prop :=
  forall s, In s l -> lt (score best) (score s) = false.

End SweepSpec.

(** Callees for concrete sweeps: [runBacktest] with the breakout strategy
    on a fixed series and capital, as a function of the parameter object
    the sweep builds. *)
Module SweepSample.
Import Optimizer.

Definition lookup (o : Obj) (key : string) : option Value :=
  option_map snd (find (fun kv => String.eqb (fst kv) key) o).

(** [params[key]] of the object built from the two texts and the numbers
    of a combination: a Number, or [undefined]. *)
Definition number (o : Obj) (key : string) : option float :=
  match lookup o key with
  | Some (VNumber v) => Some v
  | _ => None
  end.

(** [for (let i = lookbackPeriod; i < data.length; i++)] on a Number [v].
    When [v] is not below the length (NaN included) the loop never runs,
    as for a look-back of the whole series.  Otherwise the first turn
    reads [data[v]]: a bar when [v] is an index, from which the scan goes
    on over indices; [undefined] when it is not (a fraction, a negative
    number), and [data[v].close] then throws. *)
Definition lookbackOf (data : list OHLCV) (v : float) : Outcome nat :=
  if lt v (of_nat (length data)) then
    match find (fun n => eq (of_nat n) v) (seq 0 (length data)) with
    | Some n => Returned n
    | None => Thrown
    end
  else Returned (length data).

(** [runBacktest(data, 'breakout', params, initialCapital)]: the strategy
    destructures [lookbackPeriod], [stopLossPercent] and
    [takeProfitPercent], with its defaults for the missing ones, and
    nothing else is read from [params]. *)
Definition runBreakoutOn (Math_pow : float -> float -> float)
    (data : list OHLCV) (initialCapital : float) (o : Obj)
    : Outcome Backtest.BacktestResult :=
  let run (lookbackPeriod : option nat) :=
    Returned
      (Backtest.runBacktest Math_pow (Samples.day 0) data breakout
         {| name := "Optimized";
            description := "Auto-optimized parameters";
            lookbackPeriod := lookbackPeriod; stdDevMultiplier := None;
            stopLossPercent := number o "stopLossPercent";
            takeProfitPercent := number o "takeProfitPercent";
            fastPeriod := None; slowPeriod := None;
            vwapDeviation := None; rsiOversold := None;
            rsiOverbought := None; atrMultiplier := None |}
         initialCapital 0.0005 0.001) in
  match number o "lookbackPeriod" with
  | None => run None
  | Some v =>
      match lookbackOf data v with
      | Returned n => run (Some n)
      | Thrown => Thrown
      end
  end.

(** On [Breakout.three_bars] with the default capital. *)
Definition runBreakout : Obj -> Outcome Backtest.BacktestResult :=
  runBreakoutOn Samples.pow Breakout.three_bars 100000.

Definition ranges : list (string * list float) :=
  [("lookbackPeriod"%string, [1; 1.5; 2])].

(** A finite Number with no fractional part, and an odd one. *)
Definition isIntegral (x : float) : bool :=
  match Prim2SF x with
  | S754_zero _ => true
  | S754_finite _ m e =>
      (0 <=? e)%Z || (Z.pos m mod 2 ^ (- e) =? 0)%Z
  | _ => false
  end.

Definition isOddIntegral (x : float) : bool :=
  match Prim2SF x with
  | S754_finite _ m e =>
      if (0 <? e)%Z then false
      else (Z.pos m mod 2 ^ (- e) =? 0)%Z && Z.odd (Z.pos m / 2 ^ (- e))
  | _ => false
  end.

(** [Math.pow], by the numbered steps of Number::exponentiate (ECMA-262
    6.1.6.1.3).  Step 13 leaves the value to the implementation: it is
    the product for a square, which the variance takes, and NaN stands
    for it elsewhere; the sweep below does not get there. *)
Definition pow (base exponent : float) : float :=
  (* 1 *)
  if isNaN exponent then nan
  (* 2 *)
  else if eq exponent 0 then 1
  (* 3 *)
  else if isNaN base then nan
  (* 4 *)
  else if eq base infinity then
    if gt exponent 0 then infinity else 0
  (* 5 *)
  else if eq base neg_infinity then
    if gt exponent 0
    then if isOddIntegral exponent then neg_infinity else infinity
    else if isOddIntegral exponent then neg_zero else 0
  (* 6 *)
  else if is_pos_zero base then
    if gt exponent 0 then 0 else infinity
  (* 7 *)
  else if is_neg_zero base then
    if gt exponent 0
    then if isOddIntegral exponent then neg_zero else 0
    else if isOddIntegral exponent then neg_infinity else infinity
  (* 9 *)
  else if eq exponent infinity then
    if gt (abs base) 1 then infinity
    else if eq (abs base) 1 then nan else 0
  (* 10 *)
  else if eq exponent neg_infinity then
    if gt (abs base) 1 then 0
    else if eq (abs base) 1 then nan else infinity
  (* 12 *)
  else if lt base 0 && negb (isIntegral exponent) then nan
  (* 13 *)
  else if eq exponent 2 then base * base
  else nan.

(** Four daily bars.  A look-back of 1 enters at the second bar's close
    (10100) and leaves at the last bar's close (10000); a look-back of 2
    enters at the third bar's close (10200) and leaves at the last bar's
    close; a look-back of 3 never enters, the last high (10200) being
    below the third (10300). *)
Definition four_bars : list OHLCV :=
  [ {| date := Samples.day 0; open := 9950; high := 10000; low := 9900;
       close := 9950; volume := 100 |};
    {| date := Samples.day 1; open := 10060; high := 10200; low := 10050;
       close := 10100; volume := 100 |};
    {| date := Samples.day 2; open := 10160; high := 10300; low := 10150;
       close := 10200; volume := 100 |};
    {| date := Samples.day 3; open := 10190; high := 10200; low := 9990;
       close := 10000; volume := 100 |} ].

(** On [four_bars] with a capital of 100. *)
Definition runSmallCapital : Obj -> Outcome Backtest.BacktestResult :=
  runBreakoutOn pow four_bars 100.

Definition lookbacks : list (string * list float) :=
  [("lookbackPeriod"%string, [1; 2; 3])].

End SweepSample.

(** Vocabulary for the indicators no strategy calls. *)
Module IndicatorSpec.
Import Indicators.

(** What turn [i] of the second loop of [calculateADX] pushes to [dx]. *)
Definition dxAt (atr sp sm : list float) (i : nat) : float :=
  if isNaN (get atr i) || JS.eq (get atr i) 0 then nan
  else
    let pdi := 100 * get sp i / get atr i in
    let mdi := 100 * get sm i / get atr i in
    100 * Math_abs (pdi - mdi) / (pdi + mdi).

(** What turn [i] of [detectCrossover] pushes. *)
Definition crossAt (fast slow : list float) (i : nat) : float :=
  if (i =? 0)%nat || isNaN (get fast i) || isNaN (get slow i)
     || isNaN (get fast (i - 1)) || isNaN (get slow (i - 1))
  then 0
  else if gt (get fast i) (get slow i)
          && le (get fast (i - 1)) (get slow (i - 1)) then 1
  else if lt (get fast i) (get slow i)
          && ge (get fast (i - 1)) (get slow (i - 1)) then -1
  else 0.

End IndicatorSpec.

(** The trades of a scan as round trips between bars of the series. *)
Module Ledger.
Import Indicators Strategies.

(** The closed trade number [k]: one unit bought at the close of bar [i]
    and sold at the close of bar [j]. *)
Definition roundTrip (data : list OHLCV) (k i j : nat) (reason : Message)
    : Trade :=
  let entry := close (bar data i) in
  let exit := close (bar data j) in
  {| id := k; entryDate := date (bar data i); entryPrice := entry;
     exitDate := Some (date (bar data j)); exitPrice := Some exit;
     type := LONG; size := 1;
     pnl := Some (exit - entry);
     pnlPercent := Some (((exit - entry) / entry) * 100);
     status := CLOSED; exitReason := Some reason |}.

(** The open position number [k], bought at the close of bar [i]. *)
Definition position (data : list OHLCV) (k i : nat) : Trade :=
  {| id := k; entryDate := date (bar data i);
     entryPrice := close (bar data i);
     exitDate := None; exitPrice := None; type := LONG; size := 1;
     pnl := None; pnlPercent := None; status := OPEN; exitReason := None |}.

(** [ledger data first trades free]: the trades are round trips numbered
    from 0 in list order; the first is entered at bar [first] or later,
    each next one at a bar after the exit bar of the one before; a trade
    is sold at a bar after its entry bar, or, for the reason "End of
    data", at the last bar of the series, which may be its entry bar;
    [free] is the first bar after the last exit. *)
Inductive ledger (data : list OHLCV) (first : nat)
    : list Trade -> nat -> Prop :=
| ledger_nil : ledger data first [] first
| ledger_snoc trades free i j reason :
    ledger data first trades free ->
    (free <= i)%nat -> (i <= j)%nat -> (j < length data)%nat ->
    (i < j)%nat
    \/ (j = (length data - 1)%nat /\ reason = [Text "End of data"]) ->
    ledger data first
      (trades ++ [roundTrip data (length trades) i j reason])
      (Datatypes.S j).

(** The transitions of a scan at bar [i]: nothing, a buy at the close of
    the bar, or the sale of the position at the close of the bar. *)
Inductive advanceAt (data : list OHLCV) (i : nat) (st : Run) : Run -> Prop :=
| at_skip : advanceAt data i st st
| at_enter reason :
    currentTrade st = None ->
    advanceAt data i st
      (enter st (date (bar data i)) (close (bar data i)) reason)
| at_leave t exitReason signalReason :
    currentTrade st = Some t ->
    advanceAt data i st
      (leave st t (date (bar data i)) (close (bar data i))
         (pnlPercentOf (close (bar data i)) (entryPrice t))
         exitReason signalReason).

(** What holds of a scan's state before it looks at bar [n]. *)
Definition booked (data : list OHLCV) (first n : nat) (st : Run) : Prop :=
  exists free,
    ledger data first (trades st) free /\ (free <= n)%nat
    /\ match currentTrade st with
       | None => tradeId st = length (trades st)
       | Some t =>
           tradeId st = Datatypes.S (length (trades st))
           /\ exists c, (free <= c)%nat /\ (c < n)%nat
                        /\ (c < length data)%nat
                        /\ t = position data (length (trades st)) c
       end.

(** A signal and the two signals of a trade, as kind, date and price. *)
Definition Mark : Type := SignalType * option Date * option float.

Definition mark (s : Signal) : Mark :=
  (signal_type s, Some (signal_date s), Some (price s)).

Definition buyMark (t : Trade) : Mark :=
  (BUY, Some (entryDate t), Some (entryPrice t)).

Definition exitMark (t : Trade) : Mark := (EXIT, exitDate t, exitPrice t).

(** The signals of a scan's state: a BUY and an EXIT per closed trade,
    and a BUY for the position held. *)
Definition marksOf (st : Run) : list Mark :=
  flat_map (fun t => [buyMark t; exitMark t]) (trades st)
  ++ match currentTrade st with
     | Some t => [buyMark t]
     | None => []
     end.

(** The index of the first bar a strategy looks at. *)
Definition warmup (type : StrategyType) (params : StrategyParams) : nat :=
  match type with
  | mean_reversion => default 20%nat (lookbackPeriod params) + 14
  | momentum => Nat.max (default 26%nat (slowPeriod params)) 200
  | vwap_bounce => 20
  | rsi => 50
  | breakout => default 20%nat (lookbackPeriod params)
  | ema_crossover =>
      Nat.max (default 9%nat (fastPeriod params))
        (default 21%nat (slowPeriod params)) + 1
  | stochastic => 50
  | atr_trailing => default 14%nat (lookbackPeriod params) + 20
  | combined => 50
  end.

End Ledger.

(** Counting the signals of a kind. *)
Module SignalCount.

Definition isBuy (s : Signal) : bool :=
  match signal_type s with BUY => true | _ => false end.

Definition isExit (s : Signal) : bool :=
  match signal_type s with EXIT => true | _ => false end.

(** 1 while a position is held, 0 otherwise. *)
Definition held (st : Strategies.Run) : nat :=
  match Strategies.currentTrade st with Some _ => 1 | None => 0 end.

(** What holds of the signals of a scan's state. *)
Definition signalled (st : Strategies.Run) : Prop :=
  map Ledger.mark (Strategies.signals st) = Ledger.marksOf st
  /\ length (filter isBuy (Strategies.signals st))
     = (length (Strategies.trades st) + held st)%nat
  /\ length (filter isExit (Strategies.signals st))
     = length (Strategies.trades st)
  /\ Forall (fun s => signal_type s <> SELL) (Strategies.signals st).

End SignalCount.

(** Vocabulary for the strategy comparison. *)
Module ComparisonSpec.
Import Backtest Comparison.

(** The entry of the [k]-th strategy (from 0) before the sort: its
    back-test reads [new Date()] as [now k], and the clock reads around
    it are the [4k]-th and the [4k+3]-th. *)
Definition entryOf (Math_pow : float -> float -> float)
    (performance_now : nat -> float) (now : nat -> Date)
    (data : list OHLCV) (initialCapital commission slippage : float)
    (k : nat) (choice : StrategyChoice) : StrategyComparison :=
  let result :=
    runBacktest Math_pow (now k) data (choice_type choice)
      (choice_params choice) initialCapital commission slippage in
  {| cmp_strategy := choice_type choice;
     strategyName := choice_name choice;
     cmp_metrics := bt_metrics result;
     cmp_trades := bt_trades result;
     executionTime := performance_now (4 * k + 3)%nat - performance_now (4 * k)%nat |}.

(** [l.map((a, k) => f(first + k, a))]. *)
Fixpoint mapFrom {A B} (f : nat -> A -> B) (first : nat) (l : list A)
    : list B :=
  match l with
  | [] => []
  | a :: rest => f first a :: mapFrom f (Datatypes.S first) rest
  end.

Definition sharpe (c : StrategyComparison) : float :=
  sharpeRatio (cmp_metrics c).

(** [a] may stand before [b]: [b] has no higher Sharpe ratio. *)
Definition notBelow (a b : StrategyComparison) : Prop :=
  lt (sharpe a) (sharpe b) = false.

End ComparisonSpec.

(** Vocabulary for the RSI of a series that never falls. *)
Module RSIFlat.

(** No value is below the one before (a flat series never falls). *)
Definition neverFalls (data : list float) : Prop :=
  forall i, (Datatypes.S i < length data)%nat ->
            lt (get data (Datatypes.S i)) (get data i) = false.

End RSIFlat.

(** Series that differ only in their opening prices. *)
Module OpenPrices.

(** A bar with its open blanked. *)
Definition strip (b : OHLCV) : OHLCV :=
  {| date := date b; open := nan; high := high b; low := low b;
     close := close b; volume := volume b |}.

(** Same bars, up to the opens. *)
Definition sameButOpen (data data' : list OHLCV) : Prop :=
  map strip data = map strip data'.

End OpenPrices.

(** [Breakout.three_bars] with every open replaced by the bar's close,
    and parameters with a lookback of one bar. *)
Module OpenSample.

Definition reopened : list OHLCV :=
  map (fun b => {| date := date b; open := close b; high := high b;
                   low := low b; close := close b; volume := volume b |})
    Breakout.three_bars.

Definition lookbackOne : StrategyParams :=
  {| name := ""; description := ""; lookbackPeriod := Some 1%nat;
     stdDevMultiplier := None; stopLossPercent := None;
     takeProfitPercent := None; fastPeriod := None; slowPeriod := None;
     vwapDeviation := None; rsiOversold := None; rsiOverbought := None;
     atrMultiplier := None |}.

End OpenSample.

(** The parameters each strategy reads. *)
Module ParamsRead.

(** [p] and [q] agree on every parameter the strategy destructures, once
    its default stands for a missing one. *)
Definition sameFor (type : StrategyType) (p q : StrategyParams) : Prop :=
  match type with
  | mean_reversion =>
      default 20%nat (lookbackPeriod p) = default 20%nat (lookbackPeriod q)
      /\ default 2 (stdDevMultiplier p) = default 2 (stdDevMultiplier q)
      /\ default 2 (stopLossPercent p) = default 2 (stopLossPercent q)
  | momentum =>
      default 12%nat (fastPeriod p) = default 12%nat (fastPeriod q)
      /\ default 26%nat (slowPeriod p) = default 26%nat (slowPeriod q)
      /\ default 2 (stopLossPercent p) = default 2 (stopLossPercent q)
      /\ default 4 (takeProfitPercent p) = default 4 (takeProfitPercent q)
  | vwap_bounce =>
      default 0.5 (vwapDeviation p) = default 0.5 (vwapDeviation q)
      /\ default 1.5 (stopLossPercent p) = default 1.5 (stopLossPercent q)
      /\ default 2.5 (takeProfitPercent p) = default 2.5 (takeProfitPercent q)
  | rsi =>
      default 30 (rsiOversold p) = default 30 (rsiOversold q)
      /\ default 70 (rsiOverbought p) = default 70 (rsiOverbought q)
      /\ default 2 (stopLossPercent p) = default 2 (stopLossPercent q)
      /\ default 3 (takeProfitPercent p) = default 3 (takeProfitPercent q)
  | breakout =>
      default 20%nat (lookbackPeriod p) = default 20%nat (lookbackPeriod q)
      /\ default 2 (stopLossPercent p) = default 2 (stopLossPercent q)
      /\ default 4 (takeProfitPercent p) = default 4 (takeProfitPercent q)
  | ema_crossover =>
      default 9%nat (fastPeriod p) = default 9%nat (fastPeriod q)
      /\ default 21%nat (slowPeriod p) = default 21%nat (slowPeriod q)
      /\ default 2 (stopLossPercent p) = default 2 (stopLossPercent q)
      /\ default 3 (takeProfitPercent p) = default 3 (takeProfitPercent q)
  | stochastic =>
      default 2 (stopLossPercent p) = default 2 (stopLossPercent q)
      /\ default 3 (takeProfitPercent p) = default 3 (takeProfitPercent q)
  | atr_trailing =>
      default 14%nat (lookbackPeriod p) = default 14%nat (lookbackPeriod q)
      /\ default 3 (atrMultiplier p) = default 3 (atrMultiplier q)
  | combined => True
  end.

(** A look-back of one bar with the stop and the target of the breakout
    strategy written out as their defaults, and every parameter that
    strategy does not read set. *)
Definition spelled : StrategyParams :=
  {| name := "spelled out"; description := "breakout defaults written out";
     lookbackPeriod := Some 1%nat; stdDevMultiplier := Some 1;
     stopLossPercent := Some 2; takeProfitPercent := Some 4;
     fastPeriod := Some 3%nat; slowPeriod := Some 5%nat;
     vwapDeviation := Some 1; rsiOversold := Some 10; rsiOverbought := Some 90;
     atrMultiplier := Some 1 |}.

End ParamsRead.

(* ================================================================= *)
(** * Properties *)

(** ** Loops *)

Section Loops.
Context {S : Type}.
Implicit Types (body : nat -> S -> S) (s : S).

Lemma for_loop_done body s from to :
  (to <= from)%nat -> for_loop from to body s = s.
Proof.
  intros H. unfold for_loop.
  replace (to - from)%nat with 0%nat by lia. reflexivity.
Qed.

Lemma for_loop_last body s from to :
  (from <= to)%nat ->
  for_loop from (Datatypes.S to) body s = body to (for_loop from to body s).
Proof.
  intros H. unfold for_loop.
  replace (Datatypes.S to - from)%nat with (Datatypes.S (to - from)) by lia.
  rewrite seq_S, fold_left_app. simpl.
  replace (from + (to - from))%nat with to by lia. reflexivity.
Qed.

(** The invariant rule of the counting loop. *)
Lemma for_loop_invariant (P : S -> Prop) body s from to :
  P s ->
  (forall i s, (from <= i < to)%nat -> P s -> P (body i s)) ->
  P (for_loop from to body s).
Proof.
  intros H0 Hstep.
  destruct (Nat.le_gt_cases to from) as [Hle | Hlt].
  - rewrite for_loop_done by assumption. assumption.
  - induction to as [| to IH]; [lia |].
    destruct (Nat.eq_dec from to) as [-> | Hne].
    + rewrite for_loop_last by lia.
      apply Hstep; [lia |]. rewrite for_loop_done by lia. assumption.
    + rewrite for_loop_last by lia.
      apply Hstep; [lia |]. apply IH; [| lia].
      intros i s' Hi. apply Hstep. lia.
Qed.
End Loops.

(** A loop that pushes one element per turn. *)
Lemma push_length {A} (l : list A) (x : A) : length (push l x) = Datatypes.S (length l).
Proof. unfold push. rewrite length_app. simpl. lia. Qed.

Lemma get_push_lt (l : list float) x i :
  (i < length l)%nat -> get (push l x) i = get l i.
Proof. intros H. unfold get, push. apply app_nth1. assumption. Qed.

Lemma get_push_eq (l : list float) x : get (push l x) (length l) = x.
Proof.
  unfold get, push. rewrite app_nth2 by lia.
  rewrite Nat.sub_diag. reflexivity.
Qed.

(* ================================================================= *)
(** ** Binary64 arithmetic: order and the sign of a difference

    Facts of IEEE 754 arithmetic the properties below rest on, proved from
    the specification of the primitive operations ([SpecFloat],
    [FloatAxioms]). *)

Module Binary64.
Import Binary64Val.
Local Open Scope Z_scope.

Lemma digits2_pos_bounds m :
  2 ^ (Zpos (digits2_pos m) - 1) <= Zpos m < 2 ^ Zpos (digits2_pos m).
Proof.
  induction m as [p IH | p IH |]; simpl digits2_pos.
  - rewrite Pos2Z.inj_succ.
    replace (Z.succ (Zpos (digits2_pos p)) - 1) with (Z.succ (Zpos (digits2_pos p) - 1)) by lia.
    rewrite !Z.pow_succ_r by lia. lia.
  - rewrite Pos2Z.inj_succ.
    replace (Z.succ (Zpos (digits2_pos p)) - 1) with (Z.succ (Zpos (digits2_pos p) - 1)) by lia.
    rewrite !Z.pow_succ_r by lia. lia.
  - simpl. lia.
Qed.

Lemma iter_xO_val m d : Zpos (Pos.iter xO m d) = Zpos m * 2 ^ Zpos d.
Proof.
  induction d as [| d IH] using Pos.peano_ind.
  - simpl. lia.
  - rewrite Pos.iter_succ, Pos2Z.inj_succ, Z.pow_succ_r by lia.
    rewrite Pos2Z.inj_xO, IH. lia.
Qed.

Lemma shl_align_val m e ez :
  ez <= e -> Zpos (fst (shl_align m e ez)) = Zpos m * 2 ^ (e - ez).
Proof.
  intros H. unfold shl_align.
  destruct (ez - e) as [| d | d] eqn:E; try lia.
  - replace (e - ez) with 0 by lia. simpl. lia.
  - simpl. rewrite iter_xO_val. replace (e - ez) with (Zpos d) by lia. reflexivity.
Qed.

(** What validity says of a finite binary64 value. *)
Lemma bounded_facts m e :
  bounded prec emax m e = true ->
  Zpos (digits2_pos m) <= 53 /\ -1074 <= e <= 971
  /\ (-1074 < e -> Zpos (digits2_pos m) = 53).
Proof.
  unfold bounded, canonical_mantissa, fexp, emin, prec, emax.
  intros H. apply andb_prop in H. destruct H as [H1 H2].
  apply Z.eqb_eq in H1. apply Z.leb_le in H2. lia.
Qed.

Lemma SFcompare_aligned sx mx ex sy my ey :
  bounded prec emax mx ex = true ->
  bounded prec emax my ey = true ->
  SFcompare (S754_finite sx mx ex) (S754_finite sy my ey)
  = Some (Z.compare (aligned sx mx ex (Z.min ex ey))
                    (aligned sy my ey (Z.min ex ey))).
Proof.
  intros Hx Hy.
  apply bounded_facts in Hx. destruct Hx as (Hdx & Hex & Hnx).
  apply bounded_facts in Hy. destruct Hy as (Hdy & Hey & Hny).
  pose proof (digits2_pos_bounds mx) as Bx.
  pose proof (digits2_pos_bounds my) as By.
  unfold aligned. rewrite !shl_align_val by lia.
  assert (Hmx : Zpos mx < 2 ^ 53).
  { apply Z.lt_le_trans with (2 ^ Zpos (digits2_pos mx)); [lia |].
    apply Z.pow_le_mono_r; lia. }
  assert (Hmy : Zpos my < 2 ^ 53).
  { apply Z.lt_le_trans with (2 ^ Zpos (digits2_pos my)); [lia |].
    apply Z.pow_le_mono_r; lia. }
  assert (Key : forall a b ea eb, ea < eb -> -1074 <= ea ->
             Zpos a < 2 ^ 53 ->
             (-1074 < eb -> Zpos (digits2_pos b) = 53) ->
             2 ^ (Zpos (digits2_pos b) - 1) <= Zpos b ->
             Zpos a * 2 ^ (ea - Z.min ea eb) < Zpos b * 2 ^ (eb - Z.min ea eb)).
  { intros a b ea eb Hlt Hmin Ha Hb Bb.
    rewrite Z.min_l by lia. rewrite Z.sub_diag. simpl (2 ^ 0).
    rewrite Hb in Bb by lia.
    assert (2 ^ 1 <= 2 ^ (eb - ea)) by (apply Z.pow_le_mono_r; lia).
    change (2 ^ (53 - 1)) with 4503599627370496 in Bb.
    change (2 ^ 53) with 9007199254740992 in Ha.
    change (2 ^ 1) with 2 in H. nia. }
  simpl SFcompare.
  destruct (Z.compare_spec ex ey) as [E | E | E].
  - subst ey. rewrite Z.min_id, Z.sub_diag. simpl (2 ^ 0). rewrite !Z.mul_1_r.
    destruct sx, sy; reflexivity.
  - assert (K := Key mx my ex ey E (proj1 Hex) Hmx Hny (proj1 By)).
    destruct sx, sy; unfold cond_Zopp; f_equal; symmetry.
    + apply Z.compare_gt_iff. lia.
    + apply Z.compare_lt_iff. lia.
    + apply Z.compare_gt_iff. lia.
    + apply Z.compare_lt_iff. lia.
  - assert (K := Key my mx ey ex E (proj1 Hey) Hmy Hnx (proj1 Bx)).
    rewrite Z.min_comm in K.
    destruct sx, sy; unfold cond_Zopp; f_equal; symmetry.
    + apply Z.compare_lt_iff. lia.
    + apply Z.compare_lt_iff. lia.
    + apply Z.compare_gt_iff. lia.
    + apply Z.compare_gt_iff. lia.
Qed.

(** ** Rounding keeps the sign and never reaches zero *)

Lemma shr_1_m r : 0 <= shr_m r -> shr_m (shr_1 r) = shr_m r / 2.
Proof.
  destruct r as [m r s]. simpl. intros H.
  destruct m as [| p | p]; try lia; [reflexivity |].
  destruct p as [q | q |]; simpl.
  - rewrite Pos2Z.inj_xI. apply Z.div_unique with 1; lia.
  - rewrite Pos2Z.inj_xO. apply Z.div_unique with 0; lia.
  - reflexivity.
Qed.

Lemma iter_shr_1_m p : forall r,
  0 <= shr_m r -> shr_m (iter_pos shr_1 p r) = shr_m r / 2 ^ Zpos p.
Proof.
  induction p as [p IH | p IH |]; intros r H; simpl iter_pos.
  - assert (H1 : 0 <= shr_m (shr_1 r)).
    { rewrite shr_1_m by assumption. apply Z.div_pos; lia. }
    assert (H2 : 0 <= shr_m (iter_pos shr_1 p (shr_1 r))).
    { rewrite IH by assumption. apply Z.div_pos; lia. }
    rewrite IH, IH, shr_1_m by assumption.
    rewrite !Z.div_div by lia.
    f_equal.
    replace (Zpos p~1) with (1 + Zpos p + Zpos p) by lia.
    rewrite !Z.pow_add_r by lia. change (2 ^ 1) with 2. lia.
  - assert (H2 : 0 <= shr_m (iter_pos shr_1 p r)).
    { rewrite IH by assumption. apply Z.div_pos; lia. }
    rewrite IH, IH by assumption.
    rewrite !Z.div_div by lia.
    f_equal.
    replace (Zpos p~0) with (Zpos p + Zpos p) by lia.
    rewrite !Z.pow_add_r by lia. lia.
  - rewrite shr_1_m by assumption. reflexivity.
Qed.

Lemma shr_record_of_loc_m m l : shr_m (shr_record_of_loc m l) = m.
Proof. destruct l as [| []]; reflexivity. Qed.

(** Shifting a positive mantissa into the format leaves it positive. *)
Lemma shr_fexp_pos p e l :
  -1074 <= e ->
  0 < shr_m (fst (shr_fexp prec emax (Zpos p) e l))
  /\ -1074 <= snd (shr_fexp prec emax (Zpos p) e l).
Proof.
  intros He. unfold shr_fexp, shr, fexp, emin, prec, emax.
  simpl Zdigits2.
  pose proof (digits2_pos_bounds p) as B.
  set (d := Zpos (digits2_pos p)) in *.
  destruct (Z.max (d + e - 53) (3 - 1024 - 53) - e) as [| n | n] eqn:E; simpl.
  - rewrite shr_record_of_loc_m. lia.
  - rewrite iter_shr_1_m by (rewrite shr_record_of_loc_m; lia).
    rewrite shr_record_of_loc_m.
    assert (Hn : Zpos n = d - 53) by lia.
    split; [| lia].
    apply Z.lt_le_trans with (2 ^ 52); [reflexivity |].
    replace (2 ^ 52) with (2 ^ 52 * 2 ^ Zpos n / 2 ^ Zpos n)
      by (apply Z.div_mul; apply Z.pow_nonzero; lia).
    apply Z.div_le_mono; [apply Z.pow_pos_nonneg; lia |].
    rewrite <- Z.pow_add_r by lia.
    replace (52 + Zpos n) with (d - 1) by lia. lia.
  - rewrite shr_record_of_loc_m. lia.
Qed.

Lemma round_nearest_even_pos m l : 0 < m -> 0 < round_nearest_even m l.
Proof.
  intros H. unfold round_nearest_even.
  destruct l as [| []]; try lia. destruct (Z.even m); lia.
Qed.

(** A positive mantissa at an exponent of the format rounds to a finite
    number or to an infinity of the same sign. *)
Lemma binary_round_aux_pos sx p e l :
  -1074 <= e ->
  (exists m' e', binary_round_aux prec emax sx (Zpos p) e l = S754_finite sx m' e')
  \/ binary_round_aux prec emax sx (Zpos p) e l = S754_infinity sx.
Proof.
  intros He. unfold binary_round_aux.
  destruct (shr_fexp_pos p e l He) as [H1 H2].
  destruct (shr_fexp prec emax (Zpos p) e l) as [mrs' e'] eqn:E1.
  simpl in H1, H2.
  pose proof (round_nearest_even_pos (shr_m mrs') (loc_of_shr_record mrs') H1) as Hr.
  destruct (round_nearest_even (shr_m mrs') (loc_of_shr_record mrs')) as [| q | q];
    try lia.
  destruct (shr_fexp_pos q e' loc_Exact H2) as [H3 _].
  destruct (shr_fexp prec emax (Zpos q) e' loc_Exact) as [mrs'' e''].
  simpl in H3.
  destruct (shr_m mrs'') as [| m | m]; try lia.
  destruct (e'' <=? emax - prec).
  - left. eauto.
  - right. reflexivity.
Qed.

Lemma binary_round_pos sx p e :
  -1074 <= e ->
  (exists m' e', binary_round prec emax sx p e = S754_finite sx m' e')
  \/ binary_round prec emax sx p e = S754_infinity sx.
Proof.
  intros He. unfold binary_round.
  destruct (shl_align p e (fexp prec emax (Zpos (digits2_pos p) + e)))
    as [mz ez] eqn:E.
  apply binary_round_aux_pos.
  unfold shl_align in E.
  destruct (fexp prec emax (Zpos (digits2_pos p) + e) - e) eqn:E2;
    injection E as <- <-; try lia.
  unfold fexp, emin, prec, emax. lia.
Qed.

Lemma binary_normalize_sign z e :
  -1074 <= e -> z <> 0 ->
  SFcompare (binary_normalize prec emax z e false) (S754_zero false)
  = Some (Z.compare z 0).
Proof.
  intros He Hz. destruct z as [| p | p]; [contradiction Hz; reflexivity | |];
    simpl binary_normalize.
  - destruct (binary_round_pos false p e He) as [(m' & e' & ->) | ->]; reflexivity.
  - destruct (binary_round_pos true p e He) as [(m' & e' & ->) | ->]; reflexivity.
Qed.

(** The sign of a difference is the order of its operands. *)
Lemma SFsub_sign x y c :
  valid_binary x = true -> valid_binary y = true ->
  SFcompare x y = Some c -> c <> Eq ->
  SFcompare (SF64sub x y) (S754_zero false) = Some c.
Proof.
  intros Vx Vy Hc Hne.
  destruct x as [sx | sx | | sx mx ex], y as [sy | sy | | sy my ey];
    simpl in Hc; try discriminate Hc;
    try (injection Hc as <-);
    try (contradiction Hne; reflexivity);
    try (destruct sx; reflexivity);
    try (destruct sy; reflexivity);
    try (destruct sx, sy; try reflexivity; contradiction Hne; reflexivity).
  simpl in Vx, Vy.
  pose proof (SFcompare_aligned sx mx ex sy my ey Vx Vy) as K.
  simpl SFcompare in K. injection K as K.
  rewrite K in *. clear K.
  unfold SF64sub, SFsub. cbv zeta.
  fold (aligned sx mx ex (Z.min ex ey)). fold (aligned sy my ey (Z.min ex ey)).
  rewrite binary_normalize_sign.
  - rewrite <- Z.compare_sub. reflexivity.
  - apply bounded_facts in Vx, Vy. lia.
  - intros E. apply Hne. apply Z.compare_eq_iff. lia.
Qed.

Lemma SFsub_eq x y :
  valid_binary x = true -> valid_binary y = true ->
  SFcompare x y = Some Eq ->
  SF64sub x y = S754_nan \/ exists s, SF64sub x y = S754_zero s.
Proof.
  intros Vx Vy Hc.
  destruct x as [sx | sx | | sx mx ex], y as [sy | sy | | sy my ey];
    simpl in Hc; try discriminate Hc;
    try (destruct sx, sy; simpl; eauto; discriminate Hc);
    try (destruct sx; discriminate Hc);
    try (destruct sy; discriminate Hc).
  simpl in Vx, Vy.
  pose proof (SFcompare_aligned sx mx ex sy my ey Vx Vy) as K.
  simpl SFcompare in K. rewrite Hc in K. injection K as K.
  symmetry in K. apply Z.compare_eq_iff in K.
  right. exists false.
  unfold SF64sub, SFsub. cbv zeta.
  fold (aligned sx mx ex (Z.min ex ey)). fold (aligned sy my ey (Z.min ex ey)).
  rewrite K, Z.sub_diag. reflexivity.
Qed.

(** ** The order of binary64 values, read on the integers *)

Lemma finite_val_bounds m e :
  bounded prec emax m e = true ->
  0 < Zpos m * 2 ^ (e + 1074) < 2 ^ 2100.
Proof.
  intros H. apply bounded_facts in H. destruct H as (Hd & He & _).
  pose proof (digits2_pos_bounds m) as B.
  assert (H53 : Zpos m < 2 ^ 53).
  { apply Z.lt_le_trans with (2 ^ Zpos (digits2_pos m)); [lia |].
    apply Z.pow_le_mono_r; lia. }
  assert (Hp : 0 < 2 ^ (e + 1074)) by (apply Z.pow_pos_nonneg; lia).
  assert (Hq : 2 ^ (e + 1074) <= 2 ^ 2045) by (apply Z.pow_le_mono_r; lia).
  split; [lia |].
  assert (Hr : 0 < 2 ^ 2045) by (apply Z.pow_pos_nonneg; lia).
  apply Z.le_lt_trans with (Zpos m * 2 ^ 2045).
  - apply Z.mul_le_mono_nonneg_l; lia.
  - apply Z.lt_le_trans with (2 ^ 53 * 2 ^ 2045).
    + apply Z.mul_lt_mono_pos_r; lia.
    + rewrite <- Z.pow_add_r by lia. apply Z.pow_le_mono_r; lia.
Qed.

Lemma SFcompare_val x y :
  valid_binary x = true -> valid_binary y = true ->
  x <> S754_nan -> y <> S754_nan ->
  SFcompare x y = Some (Z.compare (SFval x) (SFval y)).
Proof.
  intros Vx Vy Nx Ny.
  assert (P2100 : 0 < 2 ^ 2100) by (apply Z.pow_pos_nonneg; lia).
  destruct x as [sx | sx | | sx mx ex], y as [sy | sy | | sy my ey];
    try (contradiction Nx; reflexivity); try (contradiction Ny; reflexivity);
    simpl in Vx, Vy;
    try pose proof (finite_val_bounds mx ex Vx) as Bx;
    try pose proof (finite_val_bounds my ey Vy) as By_;
    try (unfold SFcompare, SFval; f_equal; symmetry;
         try destruct sx; try destruct sy; unfold cond_Zopp;
         first [apply Z.compare_eq_iff; lia | apply Z.compare_lt_iff; lia
               | apply Z.compare_gt_iff; lia]).
  - rewrite SFcompare_aligned by assumption. f_equal.
    pose proof (bounded_facts _ _ Vx) as (_ & Hex & _).
    pose proof (bounded_facts _ _ Vy) as (_ & Hey & _).
    set (ez := Z.min ex ey).
    assert (Hk : 0 < 2 ^ (ez + 1074)) by (apply Z.pow_pos_nonneg; lia).
    assert (Hx : SFval (S754_finite sx mx ex)
                 = aligned sx mx ex ez * 2 ^ (ez + 1074)).
    { unfold SFval, aligned. rewrite shl_align_val by lia.
      replace (ex + 1074) with ((ex - ez) + (ez + 1074)) by lia.
      rewrite Z.pow_add_r by lia. destruct sx; unfold cond_Zopp; lia. }
    assert (Hy : SFval (S754_finite sy my ey)
                 = aligned sy my ey ez * 2 ^ (ez + 1074)).
    { unfold SFval, aligned. rewrite shl_align_val by lia.
      replace (ey + 1074) with ((ey - ez) + (ez + 1074)) by lia.
      rewrite Z.pow_add_r by lia. destruct sy; unfold cond_Zopp; lia. }
    rewrite Hx, Hy.
    destruct (Z.compare_spec (aligned sx mx ex ez) (aligned sy my ey ez))
      as [E | E | E]; symmetry.
    + apply Z.compare_eq_iff. rewrite E. reflexivity.
    + apply Z.compare_lt_iff. apply Z.mul_lt_mono_pos_r; assumption.
    + apply Z.compare_gt_iff. apply Z.mul_lt_mono_pos_r; assumption.
Qed.

(** ** The same facts on primitive floats *)

Local Close Scope Z_scope.
Local Open Scope float_scope.

Lemma SFcompare_refl x :
  valid_binary x = true -> x <> S754_nan -> SFcompare x x = Some Eq.
Proof.
  intros V N. rewrite SFcompare_val by assumption.
  rewrite Z.compare_refl. reflexivity.
Qed.

Lemma is_nan_spec a : PrimFloat.is_nan a = true <-> Prim2SF a = S754_nan.
Proof.
  unfold PrimFloat.is_nan. rewrite eqb_spec. unfold SFeqb.
  split.
  - intros H. destruct (Prim2SF a) eqn:E; try reflexivity;
      rewrite SFcompare_refl in H;
      try discriminate H; try (rewrite <- E; apply Prim2SF_valid);
      discriminate.
  - intros ->. reflexivity.
Qed.

Lemma not_nan_spec a : PrimFloat.is_nan a = false <-> Prim2SF a <> S754_nan.
Proof.
  rewrite <- is_nan_spec. destruct (PrimFloat.is_nan a); split; intros H;
    try reflexivity; try discriminate; try (contradiction H; reflexivity).
Qed.

Lemma compare_val a b :
  PrimFloat.is_nan a = false -> PrimFloat.is_nan b = false ->
  SFcompare (Prim2SF a) (Prim2SF b) = Some (Z.compare (val a) (val b)).
Proof.
  intros Ha Hb. apply SFcompare_val; try apply Prim2SF_valid;
    apply not_nan_spec; assumption.
Qed.

Lemma ltb_val a b :
  PrimFloat.is_nan a = false -> PrimFloat.is_nan b = false ->
  (a <? b) = (val a <? val b)%Z.
Proof.
  intros Ha Hb. rewrite ltb_spec. unfold SFltb.
  rewrite compare_val by assumption. unfold Z.ltb.
  destruct (val a ?= val b)%Z; reflexivity.
Qed.

Lemma leb_val a b :
  PrimFloat.is_nan a = false -> PrimFloat.is_nan b = false ->
  (a <=? b) = (val a <=? val b)%Z.
Proof.
  intros Ha Hb. rewrite leb_spec. unfold SFleb.
  rewrite compare_val by assumption. unfold Z.leb.
  destruct (val a ?= val b)%Z; reflexivity.
Qed.

Lemma eqb_val a b :
  PrimFloat.is_nan a = false -> PrimFloat.is_nan b = false ->
  (a =? b) = (val a =? val b)%Z.
Proof.
  intros Ha Hb. rewrite eqb_spec. unfold SFeqb.
  rewrite compare_val by assumption. rewrite Z.eqb_compare.
  destruct (val a ?= val b)%Z; reflexivity.
Qed.

(** A comparison with NaN is false. *)
Lemma ltb_true_not_nan a b :
  (a <? b) = true -> PrimFloat.is_nan a = false /\ PrimFloat.is_nan b = false.
Proof.
  rewrite ltb_spec. unfold SFltb. intros H.
  split; apply not_nan_spec; intros E; rewrite E in H;
    [| destruct (Prim2SF a)]; discriminate H.
Qed.

Lemma leb_true_not_nan a b :
  (a <=? b) = true -> PrimFloat.is_nan a = false /\ PrimFloat.is_nan b = false.
Proof.
  rewrite leb_spec. unfold SFleb. intros H.
  split; apply not_nan_spec; intros E; rewrite E in H;
    [| destruct (Prim2SF a)]; discriminate H.
Qed.

Lemma val_zero : val 0 = 0%Z.
Proof. reflexivity. Qed.

Lemma SFcompare_zero_swap r c :
  SFcompare r (S754_zero false) = Some c ->
  SFcompare (S754_zero false) r = Some (CompOpp c).
Proof.
  destruct r as [s | s | | s m e]; simpl; intros H;
    try discriminate H; injection H as <-; try destruct s; reflexivity.
Qed.

(** The sign of a computed difference is the order of its operands: the
    subtraction never rounds a difference of distinct values to zero. *)
Lemma sub_sign a b :
  PrimFloat.is_nan a = false -> PrimFloat.is_nan b = false ->
  (0 <? a - b) = (b <? a) /\ (a - b <? 0) = (a <? b).
Proof.
  intros Ha Hb.
  pose proof (compare_val a b Ha Hb) as Hc.
  rewrite (ltb_val b a), (ltb_val a b) by assumption.
  rewrite !ltb_spec, sub_spec. unfold SFltb.
  change (Prim2SF 0) with (S754_zero false).
  rewrite (Z.ltb_compare (val b)), (Z.ltb_compare (val a)).
  rewrite (Z.compare_antisym (val a) (val b)).
  destruct (val a ?= val b)%Z eqn:E.
  - destruct (SFsub_eq _ _ (Prim2SF_valid a) (Prim2SF_valid b) Hc)
      as [-> | [s ->]]; split; reflexivity.
  - pose proof (SFsub_sign _ _ _ (Prim2SF_valid a) (Prim2SF_valid b) Hc
                  ltac:(discriminate)) as Hs.
    rewrite (SFcompare_zero_swap _ _ Hs), Hs. split; reflexivity.
  - pose proof (SFsub_sign _ _ _ (Prim2SF_valid a) (Prim2SF_valid b) Hc
                  ltac:(discriminate)) as Hs.
    rewrite (SFcompare_zero_swap _ _ Hs), Hs. split; reflexivity.
Qed.

(** Zero stays zero through the smoothing arithmetic. *)
Lemma zero_div_pos P : (0 <? P) = true -> 0 / P = 0.
Proof.
  intros H. apply Prim2SF_inj. rewrite div_spec.
  rewrite ltb_spec in H. change (Prim2SF 0) with (S754_zero false) in *.
  unfold SFltb in H.
  destruct (Prim2SF P) as [s | s | | s m e]; simpl in H; try discriminate H;
    destruct s; try discriminate H; reflexivity.
Qed.

Lemma is_finite_spec Q :
  PrimFloat.is_finite Q = true ->
  (exists s, Prim2SF Q = S754_zero s) \/ (exists s m e, Prim2SF Q = S754_finite s m e).
Proof.
  unfold PrimFloat.is_finite, PrimFloat.is_infinity. intros H.
  apply negb_true_iff in H. apply orb_false_iff in H. destruct H as [H1 H2].
  apply not_nan_spec in H1.
  rewrite eqb_spec, abs_spec in H2.
  change (Prim2SF infinity) with (S754_infinity false) in H2.
  destruct (Prim2SF Q) as [s | s | | s m e]; eauto.
  - simpl in H2. discriminate H2.
  - contradiction H1; reflexivity.
Qed.

Lemma zero_mul_add_zero Q : PrimFloat.is_finite Q = true -> 0 * Q + 0 = 0.
Proof.
  intros H. apply Prim2SF_inj. rewrite add_spec, mul_spec.
  change (Prim2SF 0) with (S754_zero false).
  destruct (is_finite_spec Q H) as [[s ->] | (s & m & e & ->)];
    destruct s; reflexivity.
Qed.

Lemma eqb_true_not_nan a b :
  (a =? b) = true -> PrimFloat.is_nan a = false /\ PrimFloat.is_nan b = false.
Proof.
  rewrite eqb_spec. unfold SFeqb. intros H.
  split; apply not_nan_spec; intros E; rewrite E in H;
    [| destruct (Prim2SF a)]; discriminate H.
Qed.

(** A value that equals zero is not above zero. *)
Lemma eqb_zero_not_gt x : (x =? 0) = true -> (0 <? x) = false.
Proof.
  intros H. destruct (eqb_true_not_nan _ _ H) as [Nx N0].
  rewrite eqb_val in H by assumption. rewrite ltb_val by assumption.
  apply Z.eqb_eq in H. apply Z.ltb_ge. lia.
Qed.

(** Away from NaN, "at most zero" is the negation of "above zero". *)
Lemma leb_zero_negb_gt x :
  PrimFloat.is_nan x = false -> (x <=? 0) = negb (0 <? x).
Proof.
  intros Nx. rewrite leb_val, ltb_val by (assumption || reflexivity).
  rewrite Z.leb_antisym. reflexivity.
Qed.

(** Adding +0 does not change the magnitude. *)
Lemma abs_add_zero s : abs (s + 0) = abs s.
Proof.
  apply Prim2SF_inj. rewrite !abs_spec, add_spec.
  change (Prim2SF 0) with (S754_zero false).
  destruct (Prim2SF s) as [b | b | | b m e]; try destruct b; reflexivity.
Qed.

(** ** Whole numbers as binary64 values *)

Local Open Scope Z_scope.

Lemma digits_le m k : 0 <= k -> Zpos m < 2 ^ k -> Zpos (digits2_pos m) <= k.
Proof.
  intros Hk H. pose proof (digits2_pos_bounds m) as B.
  assert (2 ^ (Zpos (digits2_pos m) - 1) < 2 ^ k) by lia.
  apply Z.pow_lt_mono_r_iff in H0; lia.
Qed.

Lemma digits_iter_xO m k :
  Zpos (digits2_pos (Pos.iter xO m k)) = Zpos (digits2_pos m) + Zpos k.
Proof.
  induction k as [| k IH] using Pos.peano_ind.
  - simpl. lia.
  - rewrite Pos.iter_succ. simpl digits2_pos. rewrite Pos2Z.inj_succ, IH. lia.
Qed.

(** The shift into the format, with the size of what it leaves. *)
Lemma shr_fexp_bounds p e l :
  -1074 <= e ->
  exists m' r s e',
    shr_fexp prec emax (Zpos p) e l = (Build_shr_record (Zpos m') r s, e')
    /\ -1074 <= e'
    /\ e' <= Z.max e (Zpos (digits2_pos p) + e - 53)
    /\ Zpos (digits2_pos m') + e' <= Zpos (digits2_pos p) + e.
Proof.
  intros He. unfold shr_fexp, shr, fexp, emin, prec, emax.
  simpl Zdigits2.
  pose proof (digits2_pos_bounds p) as B.
  set (d := Zpos (digits2_pos p)) in *.
  destruct (Z.max (d + e - 53) (3 - 1024 - 53) - e) as [| n | n] eqn:E.
  - subst d. destruct l as [| []]; simpl; do 4 eexists;
      (split; [reflexivity |]); lia.
  - assert (Hn : Zpos n = d - 53) by lia.
    pose proof (iter_shr_1_m n (shr_record_of_loc (Zpos p) l)) as Hm.
    rewrite shr_record_of_loc_m in Hm. specialize (Hm ltac:(lia)).
    destruct (iter_pos shr_1 n (shr_record_of_loc (Zpos p) l)) as [m r s].
    cbn [shr_m] in Hm.
    assert (Hlo : 2 ^ 52 <= m).
    { rewrite Hm.
      replace (2 ^ 52) with (2 ^ 52 * 2 ^ Zpos n / 2 ^ Zpos n)
        by (apply Z.div_mul; apply Z.pow_nonzero; lia).
      apply Z.div_le_mono; [apply Z.pow_pos_nonneg; lia |].
      rewrite <- Z.pow_add_r by lia.
      replace (52 + Zpos n) with (d - 1) by lia. lia. }
    assert (Hhi : m < 2 ^ 53).
    { rewrite Hm.
      apply Z.div_lt_upper_bound; [apply Z.pow_pos_nonneg; lia |].
      rewrite <- Z.pow_add_r by lia.
      replace (Zpos n + 53) with d by lia. lia. }
    clear Hm.
    destruct m as [| m' | m'];
      try (change (2 ^ 52) with 4503599627370496 in Hlo; lia).
    exists m', r, s, (e + Zpos n). split; [reflexivity |].
    pose proof (digits_le m' 53 ltac:(lia) Hhi). subst d. lia.
  - subst d. destruct l as [| []]; simpl; do 4 eexists;
      (split; [reflexivity |]); lia.
Qed.

Lemma round_nearest_even_bounds m l :
  exists m2, round_nearest_even (Zpos m) l = Zpos m2
             /\ Zpos (digits2_pos m2) <= Zpos (digits2_pos m) + 1.
Proof.
  pose proof (digits2_pos_bounds m) as B.
  assert (Hup : forall q, Zpos q <= Zpos m + 1 ->
                          Zpos (digits2_pos q) <= Zpos (digits2_pos m) + 1).
  { intros q Hq. apply digits_le; [lia |].
    rewrite Z.pow_add_r by lia. change (2 ^ 1) with 2. lia. }
  unfold round_nearest_even.
  destruct l as [| [| |]]; try (exists m; split; [reflexivity | lia]).
  - destruct (Z.even (Zpos m)); [exists m; split; [reflexivity | lia] |].
    destruct (Zpos m + 1) as [| q | q] eqn:E; try lia.
    exists q. split; [reflexivity | apply Hup; lia].
  - destruct (Zpos m + 1) as [| q | q] eqn:E; try lia.
    exists q. split; [reflexivity | apply Hup; lia].
Qed.

(** A mantissa well inside the range rounds to a finite value. *)
Lemma binary_round_aux_finite sx p e l :
  -1074 <= e <= 971 -> Zpos (digits2_pos p) + e <= 1022 ->
  exists m2 e2,
    binary_round_aux prec emax sx (Zpos p) e l = S754_finite sx m2 e2
    /\ -1074 <= e2
    /\ Zpos (digits2_pos m2) + e2 <= Zpos (digits2_pos p) + e + 1.
Proof.
  intros He Hd. unfold binary_round_aux.
  destruct (shr_fexp_bounds p e l ltac:(lia))
    as (m' & r & s & e' & -> & He' & Hle' & Hd').
  cbn [shr_m].
  destruct (round_nearest_even_bounds m'
              (loc_of_shr_record (Build_shr_record (Zpos m') r s)))
    as (m2 & -> & Hd2).
  destruct (shr_fexp_bounds m2 e' loc_Exact He')
    as (m3 & r3 & s3 & e3 & -> & He3 & Hle3 & Hd3).
  cbn [shr_m].
  replace (e3 <=? emax - prec) with true
    by (symmetry; apply Z.leb_le; unfold emax, prec; lia).
  exists m3, e3. split; [reflexivity |]. lia.
Qed.

Lemma binary_round_finite sx p e :
  -1074 <= e <= 971 -> Zpos (digits2_pos p) + e <= 1022 ->
  exists m2 e2,
    binary_round prec emax sx p e = S754_finite sx m2 e2
    /\ -1074 <= e2
    /\ Zpos (digits2_pos m2) + e2 <= Zpos (digits2_pos p) + e + 1.
Proof.
  intros He Hd. unfold binary_round, shl_align.
  destruct (fexp prec emax (Zpos (digits2_pos p) + e) - e) as [| k | k] eqn:E.
  - apply binary_round_aux_finite; assumption.
  - apply binary_round_aux_finite; assumption.
  - unfold fexp, emin, prec, emax in E.
    destruct (binary_round_aux_finite sx (Pos.iter xO p k)
                (fexp prec emax (Zpos (digits2_pos p) + e)) loc_Exact)
      as (m2 & e2 & H & He2 & Hd2).
    + unfold fexp, emin, prec, emax. lia.
    + rewrite digits_iter_xO. unfold fexp, emin, prec, emax. lia.
    + exists m2, e2. split; [exact H |]. split; [assumption |].
      rewrite digits_iter_xO in Hd2.
      unfold fexp, emin, prec, emax in Hd2. lia.
Qed.

Local Close Scope Z_scope.
Local Open Scope float_scope.

(** A positive whole number below 2^63 converts to a positive finite
    value of at most 64 bits. *)
Lemma of_uint63_finite q :
  (Zpos q < 2 ^ 63)%Z ->
  exists m e,
    Prim2SF (of_uint63 (Uint63.of_Z (Zpos q))) = S754_finite false m e
    /\ (-1074 <= e)%Z /\ (Zpos (digits2_pos m) + e <= 64)%Z.
Proof.
  intros Hq. rewrite of_uint63_spec.
  replace (Uint63Axioms.to_Z (Uint63.of_Z (Zpos q))) with (Zpos q).
  - simpl binary_normalize.
    pose proof (digits_le q 63 ltac:(lia) Hq) as Hd.
    destruct (binary_round_finite false q 0 ltac:(lia) ltac:(lia))
      as (m & e & -> & He & Hm).
    exists m, e. split; [reflexivity |]. lia.
  - symmetry. rewrite Uint63.of_Z_spec. apply Z.mod_small.
    change Uint63.wB with (2 ^ 63)%Z. lia.
Qed.

Lemma is_finite_of_spec Q :
  (exists s, Prim2SF Q = S754_zero s)
  \/ (exists s m e, Prim2SF Q = S754_finite s m e) ->
  PrimFloat.is_finite Q = true.
Proof.
  intros H. unfold PrimFloat.is_finite, PrimFloat.is_infinity.
  apply negb_true_iff. apply orb_false_iff. split.
  - apply not_nan_spec. destruct H as [[s ->] | (s & m & e & ->)]; discriminate.
  - rewrite eqb_spec, abs_spec.
    destruct H as [[s ->] | (s & m & e & ->)]; reflexivity.
Qed.

(** Subtracting 1 from such a value gives zero or a finite value. *)
Lemma sub_one_finite P m e :
  Prim2SF P = S754_finite false m e ->
  (-1074 <= e)%Z -> (Zpos (digits2_pos m) + e <= 64)%Z ->
  PrimFloat.is_finite (P - 1) = true.
Proof.
  intros HP He Hm. apply is_finite_of_spec.
  rewrite sub_spec, HP.
  change (Prim2SF 1) with (S754_finite false 4503599627370496 (-52)).
  unfold SF64sub, SFsub. cbv zeta.
  set (ez := Z.min e (-52)).
  assert (Hez : (-1074 <= ez <= -52)%Z) by (unfold ez; lia).
  rewrite !shl_align_val by (unfold ez; lia).
  unfold cond_Zopp.
  set (a := (Zpos m * 2 ^ (e - ez))%Z).
  set (b := (4503599627370496 * 2 ^ (-52 - ez))%Z).
  assert (Ha : (0 < a < 2 ^ (64 - ez))%Z).
  { unfold a. pose proof (digits2_pos_bounds m) as B.
    assert (0 < 2 ^ (e - ez))%Z by (apply Z.pow_pos_nonneg; unfold ez; lia).
    split; [lia |].
    apply Z.lt_le_trans
      with (2 ^ Zpos (digits2_pos m) * 2 ^ (e - ez))%Z.
    - apply Z.mul_lt_mono_pos_r; lia.
    - rewrite <- Z.pow_add_r by (unfold ez; lia).
      apply Z.pow_le_mono_r; lia. }
  assert (Hb : (0 < b < 2 ^ (64 - ez))%Z).
  { unfold b. change 4503599627370496%Z with (2 ^ 52)%Z.
    rewrite <- Z.pow_add_r by lia.
    split; [apply Z.pow_pos_nonneg; lia |].
    apply Z.pow_lt_mono_r; lia. }
  destruct (a - b)%Z as [| q | q] eqn:E; simpl binary_normalize.
  - left. eauto.
  - assert (Hq : (Zpos q < 2 ^ (64 - ez))%Z) by lia.
    pose proof (digits_le q (64 - ez) ltac:(lia) Hq) as Hd.
    destruct (binary_round_finite false q ez ltac:(lia) ltac:(lia))
      as (m2 & e2 & -> & _). right. eauto.
  - assert (Hq : (Zpos q < 2 ^ (64 - ez))%Z) by lia.
    pose proof (digits_le q (64 - ez) ltac:(lia) Hq) as Hd.
    destruct (binary_round_finite true q ez ltac:(lia) ltac:(lia))
      as (m2 & e2 & -> & _). right. eauto.
Qed.

End Binary64.

(* ================================================================= *)
(** ** The equity curve has one point per bar *)

Section EquityCurve.
Import Backtest.
Variables (data : list OHLCV) (trades : list Trade) (config : BacktestConfig).

Lemma exitStep_curve st trade :
  equityCurve (exitStep config st trade) = equityCurve st.
Proof. unfold exitStep. destruct (pnl trade); reflexivity. Qed.

Lemma exits_curve exiting st :
  equityCurve (fold_left (exitStep config) exiting st) = equityCurve st.
Proof.
  revert st. induction exiting as [| t exiting IH]; intros st; simpl.
  - reflexivity.
  - rewrite IH. apply exitStep_curve.
Qed.

Lemma entryStep_curve time st :
  equityCurve (entryStep trades config time st) = equityCurve st.
Proof. unfold entryStep. destruct (find _ trades); reflexivity. Qed.

(** One turn of the loop pushes exactly one point, dated as the bar. *)
Lemma curveStep_pushes st candle :
  exists p,
    equityCurve (curveStep data trades config st candle)
    = push (equityCurve st) p
    /\ point_date p = date candle.
Proof.
  unfold curveStep. cbv zeta. simpl equityCurve.
  rewrite exits_curve, entryStep_curve.
  eexists. split; [reflexivity | reflexivity].
Qed.

Lemma curve_dates seen st :
  map point_date (equityCurve (fold_left (curveStep data trades config) seen st))
  = map point_date (equityCurve st) ++ map date seen.
Proof.
  revert st. induction seen as [| candle seen IH]; intros st; simpl.
  - rewrite app_nil_r. reflexivity.
  - rewrite IH.
    destruct (curveStep_pushes st candle) as (p & -> & Hp).
    unfold push. rewrite map_app. simpl. rewrite Hp, <- app_assoc.
    reflexivity.
Qed.
End EquityCurve.

(** C3: [generateEquityCurve] returns exactly one [EquityPoint] per input
    bar, in bar order (the i-th point carries the date of the i-th bar), so
    the length of the curve is the number of bars; for the empty series the
    curve is empty. *)
Theorem generateEquityCurve_one_point_per_bar :
  forall (data : list OHLCV) (trades : list Trade) (config : BacktestConfig),
    length (Backtest.generateEquityCurve data trades config) = length data
    /\ map point_date (Backtest.generateEquityCurve data trades config)
       = map date data
    /\ Backtest.generateEquityCurve [] trades config = [].
Proof.
  intros data trades config.
  assert (Hd : map point_date (Backtest.generateEquityCurve data trades config)
               = map date data).
  { unfold Backtest.generateEquityCurve, Backtest.curveAfter.
    rewrite curve_dates. reflexivity. }
  split; [| split].
  - rewrite <- (length_map point_date), Hd. apply length_map.
  - exact Hd.
  - reflexivity.
Qed.

(* ================================================================= *)
(** ** Every returned trade is closed *)

Module TradeLifecycle.
Import Lifecycle.
Import Indicators Strategies.

Create HintDb lifecycle.
#[local] Hint Constructors advance : lifecycle.

Lemma closed_ClosedTrade t date price pnl pnlPercent exitReason :
  ClosedTrade (closed t date price pnl pnlPercent exitReason).
Proof. unfold ClosedTrade; simpl. repeat split; discriminate. Qed.

Lemma advance_invariant data st st' :
  (0 < length data)%nat ->
  scan_invariant data st -> advance st st' -> scan_invariant data st'.
Proof.
  intros Hlen [Hall Hcur] Hadv.
  destruct Hadv; unfold scan_invariant; simpl.
  - split; assumption.
  - split; [assumption | intros _; assumption].
  - split; [| intros _; assumption].
    unfold push. apply Forall_app. split; [assumption |].
    constructor; [apply closed_ClosedTrade | constructor].
Qed.

Lemma start_invariant data : scan_invariant data start.
Proof.
  split; [constructor | simpl; intros H; contradiction H; reflexivity].
Qed.

(** A scan whose every turn is a transition keeps the invariant. *)
Lemma scan_keeps_invariant data from (step : nat -> Run -> Run) :
  (forall i st, advance st (step i st)) ->
  scan_invariant data (for_loop from (length data) step start).
Proof.
  intros Hstep. apply for_loop_invariant.
  - apply start_invariant.
  - intros i st Hi Hinv. apply advance_invariant with (st := st).
    + lia.
    + assumption.
    + apply Hstep.
Qed.

(** Unfolds a step and splits on its guards, outermost first. *)
Ltac split_step :=
  cbv zeta;
  repeat match goal with
    | |- advance _ (if ?c then _ else _) => destruct c
    | |- advance ?st (match currentTrade ?st with _ => _ end) =>
        let E := fresh "E" in destruct (currentTrade st) eqn:E
    end;
  eauto with lifecycle.

Section WithPow.
Variable Math_pow : float -> float -> float.

Lemma meanReversionStep_advance data bb rsi sl i st :
  advance st (meanReversionStep data bb rsi sl i st).
Proof. unfold meanReversionStep. split_step. Qed.

Lemma momentumStep_advance data macd sma50 sma200 sl tp i st :
  advance st (momentumStep data macd sma50 sma200 sl tp i st).
Proof. unfold momentumStep. split_step. Qed.

Lemma vwapBounceStep_advance data vwap rsi dev sl tp i st :
  advance st (vwapBounceStep data vwap rsi dev sl tp i st).
Proof. unfold vwapBounceStep. split_step. Qed.

Lemma rsiStep_advance data rsi sma50 lo hi sl tp i st :
  advance st (Strategies.rsiStep data rsi sma50 lo hi sl tp i st).
Proof. unfold Strategies.rsiStep. split_step. Qed.

Lemma breakoutStep_advance data n sl tp i st :
  advance st (breakoutStep data n sl tp i st).
Proof. unfold breakoutStep. split_step. Qed.

Lemma emaCrossoverStep_advance data fast slow nf ns sl tp i st :
  advance st (emaCrossoverStep data fast slow nf ns sl tp i st).
Proof. unfold emaCrossoverStep. split_step. Qed.

Lemma stochasticStep_advance data stoch sma50 sl tp i st :
  advance st (stochasticStep data stoch sma50 sl tp i st).
Proof. unfold stochasticStep. split_step. Qed.

Lemma combinedStep_advance data sma20 rsi bb macd stoch i st :
  advance st (combinedStep data sma20 rsi bb macd stoch i st).
Proof. unfold combinedStep. split_step. Qed.

(** The ATR scan moves its embedded [Run] by the same transitions. *)
Lemma atrTrailingStopStep_advance data sma20 atr mult i st :
  advance (run st) (run (atrTrailingStopStep data sma20 atr mult i st)).
Proof.
  unfold atrTrailingStopStep. cbv zeta.
  destruct (isNaN (get sma20 i) || isNaN (get atr i)); [constructor |].
  destruct (currentTrade (run st)) eqn:E.
  - destruct (gt (close (bar data i)) (highestPrice st)); simpl;
      match goal with |- context [if ?c then _ else _] => destruct c end;
      simpl; eauto with lifecycle.
  - destruct (_ && _); simpl; eauto with lifecycle.
Qed.

Lemma atr_scan_invariant data from step :
  (forall i st, advance (run st) (run (step i st))) ->
  forall st0, scan_invariant data (run st0) ->
  scan_invariant data (run (for_loop from (length data) step st0)).
Proof.
  intros Hstep st0 H0.
  apply (for_loop_invariant (fun st => scan_invariant data (run st)));
    [assumption |].
  intros i st Hi Hinv. apply advance_invariant with (st := run st).
  - lia.
  - assumption.
  - apply Hstep.
Qed.

Lemma scanOf_invariant type data params :
  scan_invariant data (scanOf Math_pow type data params).
Proof.
  destruct type; simpl.
  - apply scan_keeps_invariant. intros; apply meanReversionStep_advance.
  - apply scan_keeps_invariant. intros; apply momentumStep_advance.
  - apply scan_keeps_invariant. intros; apply vwapBounceStep_advance.
  - apply scan_keeps_invariant. intros; apply rsiStep_advance.
  - apply scan_keeps_invariant. intros; apply breakoutStep_advance.
  - apply scan_keeps_invariant. intros; apply emaCrossoverStep_advance.
  - apply scan_keeps_invariant. intros; apply stochasticStep_advance.
  - apply atr_scan_invariant.
    + intros; apply atrTrailingStopStep_advance.
    + apply start_invariant.
  - apply scan_keeps_invariant. intros; apply combinedStep_advance.
Qed.

Lemma runStrategy_closeAtEnd type data params :
  runStrategy Math_pow type data params
  = closeAtEnd data (scanOf Math_pow type data params).
Proof. destruct type; reflexivity. Qed.

End WithPow.
End TradeLifecycle.

(** C1: whatever the strategy, the bars and the parameters, every trade in
    the list [runStrategy] returns is CLOSED, with its exit date, exit
    price, pnl and pnlPercent present, so none is OPEN; the list is the
    trades closed during the scan, followed, when a position is still open
    after the last bar, by that position closed at the last bar: its id,
    entry, type and size are kept, its exit date is the last bar's date,
    its exit price the last bar's close, its pnl that close less the entry
    price, its pnlPercent that difference over the entry price times 100,
    its status CLOSED and its exit reason "End of data". *)
Theorem runStrategy_all_closed :
  forall (Math_pow : float -> float -> float) (strategyType : StrategyType)
         (data : list OHLCV) (params : StrategyParams),
    let scan := Strategies.scanOf Math_pow strategyType data params in
    let returned :=
      Strategies.result_trades
        (Strategies.runStrategy Math_pow strategyType data params) in
    Forall Lifecycle.ClosedTrade returned
    /\ (forall t, In t returned -> status t <> OPEN)
    /\ (Strategies.currentTrade scan = None ->
        returned = Strategies.trades scan)
    /\ (forall t, Strategies.currentTrade scan = Some t ->
        exists last,
          nth_error data (length data - 1) = Some last
          /\ returned
             = Strategies.trades scan
               ++ [{| id := id t;
                      entryDate := entryDate t;
                      entryPrice := entryPrice t;
                      exitDate := Some (date last);
                      exitPrice := Some (close last);
                      type := type t;
                      size := size t;
                      pnl := Some (close last - entryPrice t);
                      pnlPercent :=
                        Some (((close last - entryPrice t) / entryPrice t)
                              * 100);
                      status := CLOSED;
                      exitReason := Some [Text "End of data"] |}]).
Proof.
  intros Math_pow type data params scan returned.
  pose proof (TradeLifecycle.scanOf_invariant Math_pow type data params)
    as [Hall Hcur].
  fold scan in Hall, Hcur.
  assert (Hret : returned
                 = Strategies.result_trades (Strategies.closeAtEnd data scan)).
  { unfold returned. rewrite TradeLifecycle.runStrategy_closeAtEnd. reflexivity. }
  assert (Hclosed : Forall Lifecycle.ClosedTrade returned).
  { rewrite Hret. unfold Strategies.closeAtEnd.
    destruct (Strategies.currentTrade scan); simpl; [| assumption].
    unfold push. apply Forall_app. split; [assumption |].
    constructor; [apply TradeLifecycle.closed_ClosedTrade | constructor]. }
  split; [exact Hclosed | split; [| split]].
  - intros t Hin. rewrite Forall_forall in Hclosed.
    destruct (Hclosed t Hin) as [Hs _]. rewrite Hs. discriminate.
  - intros Hnone. rewrite Hret. unfold Strategies.closeAtEnd.
    rewrite Hnone. reflexivity.
  - intros t Hsome.
    assert (Hlen : (0 < length data)%nat).
    { apply Hcur. rewrite Hsome. discriminate. }
    destruct (nth_error data (length data - 1)) as [last |] eqn:Hlast.
    + exists last. split; [reflexivity |].
      rewrite Hret. unfold Strategies.closeAtEnd. rewrite Hsome. simpl.
      unfold Indicators.bar.
      rewrite (nth_error_nth _ _ _ Hlast). reflexivity.
    + apply nth_error_None in Hlast. lia.
Qed.

(* ================================================================= *)
(** ** The breakout strategy: entry on the high, exit on the close *)

(** C4, as stated, fails: scanning the second of [two_bars] while flat
    with a lookback of one bar, the strategy enters although the close
    (9.5) does not exceed the highest high of the preceding bar (10). *)
Lemma breakout_enters_without_close_above_high :
  Strategies.currentTrade
    (Strategies.breakoutStep Breakout.two_bars 1 2 4 1 Strategies.start)
  <> None
  /\ gt (close (Indicators.bar Breakout.two_bars 1))
        (Math_max (map high (slice (1 - 1) 1 Breakout.two_bars)))
     = false
  /\ map entryPrice
       (Strategies.result_trades
          (Strategies.breakoutStrategy Breakout.two_bars
             {| name := ""; description := ""; lookbackPeriod := Some 1%nat;
                stdDevMultiplier := None; stopLossPercent := None;
                takeProfitPercent := None; fastPeriod := None;
                slowPeriod := None; vwapDeviation := None;
                rsiOversold := None; rsiOverbought := None;
                atrMultiplier := None |}))
     = [9.5].
Proof.
  split; [| split].
  - vm_compute. discriminate.
  - vm_compute. reflexivity.
  - vm_compute. reflexivity.
Qed.

(** C4, amended: at every bar [i] the breakout scan visits, with
    [highestHigh] and [lowestLow] taken over the [lookbackPeriod] bars
    before [i]: while flat, a trade is entered at that bar exactly when the
    bar's high exceeds [highestHigh], and it is entered at the bar's close;
    while in position, the position is closed with the breakdown reason
    exactly when the bar's close is below [lowestLow]. *)
Theorem breakoutStep_entry_and_technical_exit :
  forall (data : list OHLCV) (lookbackPeriod : nat)
         (stopLossPercent takeProfitPercent : float) (i : nat)
         (st : Strategies.Run),
    let window := slice (i - lookbackPeriod) i data in
    let highestHigh := Math_max (map high window) in
    let lowestLow := Math_min (map low window) in
    let st' :=
      Strategies.breakoutStep data lookbackPeriod stopLossPercent
        takeProfitPercent i st in
    (Strategies.currentTrade st = None ->
       (Strategies.currentTrade st' <> None
        <-> gt (high (Indicators.bar data i)) highestHigh = true)
       /\ (forall t, Strategies.currentTrade st' = Some t ->
             entryPrice t = close (Indicators.bar data i)
             /\ entryDate t = date (Indicators.bar data i)
             /\ status t = OPEN))
    /\ (Strategies.currentTrade st <> None ->
          (Breakout.exitedWith (Breakout.breakdownReason lookbackPeriod) st st'
           <-> lt (close (Indicators.bar data i)) lowestLow = true)).
Proof.
  intros data n sl tp i st window highestHigh lowestLow st'.
  subst st'. unfold Strategies.breakoutStep. cbv zeta.
  fold window. fold highestHigh. fold lowestLow.
  split.
  - intros Hflat. rewrite Hflat.
    destruct (gt (high (Indicators.bar data i)) highestHigh) eqn:Hgt.
    + split.
      * split; [reflexivity | simpl; discriminate].
      * simpl. intros t Ht. injection Ht as <-. simpl. auto.
    + split.
      * rewrite Hflat. split; [intros H; contradiction H; reflexivity
                              | discriminate].
      * rewrite Hflat. discriminate.
  - intros Hin.
    destruct (Strategies.currentTrade st) as [t |] eqn:Hcur;
      [clear Hin | contradiction Hin; reflexivity].
    destruct (lt (close (Indicators.bar data i)) lowestLow) eqn:Hlt.
    + simpl. split; [reflexivity | intros _].
      eexists. split; [reflexivity |]. split; reflexivity.
    + split; [| discriminate].
      intros (t' & Htr & Hreason & _). exfalso.
      simpl in Htr.
      destruct (_ || _) eqn:Hexit.
      * simpl in Htr. unfold push in Htr. apply app_inv_head in Htr.
        injection Htr as <-. simpl in Hreason.
        unfold Strategies.reasonOf in Hreason.
        destruct (le _ _); discriminate Hreason.
      * rewrite <- (app_nil_r (Strategies.trades st)) in Htr at 1.
        apply app_inv_head in Htr. discriminate Htr.
Qed.

(** The amended C4 at concrete bars: flat before the second of
    [two_bars], in position before the third of [three_bars]. *)
Lemma breakoutStep_entry_and_technical_exit_witness :
  (Strategies.currentTrade
     (Strategies.breakoutStep Breakout.two_bars 1 2 4 1 Strategies.start)
   <> None
   <-> gt (high (Indicators.bar Breakout.two_bars 1))
          (Math_max (map high (slice (1 - 1) 1 Breakout.two_bars)))
       = true)
  /\ (Breakout.exitedWith (Breakout.breakdownReason 1)
        (Strategies.breakoutStep Breakout.three_bars 1 2 4 1 Strategies.start)
        (Strategies.breakoutStep Breakout.three_bars 1 2 4 2
           (Strategies.breakoutStep Breakout.three_bars 1 2 4 1 Strategies.start))
      <-> lt (close (Indicators.bar Breakout.three_bars 2))
             (Math_min (map low (slice (2 - 1) 2 Breakout.three_bars)))
          = true).
Proof.
  split.
  - apply (breakoutStep_entry_and_technical_exit
             Breakout.two_bars 1 2 4 1 Strategies.start).
    reflexivity.
  - apply (breakoutStep_entry_and_technical_exit
             Breakout.three_bars 1 2 4 2
             (Strategies.breakoutStep Breakout.three_bars 1 2 4 1
                Strategies.start)).
    vm_compute. discriminate.
Defined.

(* ================================================================= *)
(** ** RSI: the warm-up and the zero-loss fallback *)

Module RSIFacts.
Import RSISpec.
Import Indicators.

(** Every period from 1 to below 2^63 qualifies. *)
Lemma periodOk_whole period :
  (1 <= period)%nat -> (Z.of_nat period < 2 ^ 63)%Z -> periodOk period = true.
Proof.
  intros H1 H2. unfold periodOk, of_nat, of_Z, lt.
  destruct (Z.of_nat period) as [| q | q] eqn:E; try lia.
  destruct (Binary64.of_uint63_finite q H2) as (m & e & Hm & He & Hd).
  apply andb_true_intro. split.
  - rewrite ltb_spec, Hm. reflexivity.
  - apply (Binary64.sub_one_finite _ m e); assumption.
Qed.

Lemma rsiStep_pushes gains losses period i st :
  exists v, rsi_result (rsiStep gains losses period i st)
            = push (rsi_result st) v.
Proof.
  unfold rsiStep.
  destruct (i =? 0)%nat; [eexists; reflexivity |].
  destruct (i <? period)%nat; [eexists; reflexivity |].
  destruct (i =? period)%nat; eexists; reflexivity.
Qed.

Lemma rsiLoop_succ data period n :
  rsiLoop data period (Datatypes.S n)
  = rsiStep (fst (rsiChanges data)) (snd (rsiChanges data)) period n
      (rsiLoop data period n).
Proof. unfold rsiLoop. cbv zeta. apply for_loop_last. lia. Qed.

Lemma rsiLoop_length data period n :
  length (rsi_result (rsiLoop data period n)) = n.
Proof.
  induction n as [| n IH]; [reflexivity |].
  rewrite rsiLoop_succ.
  destruct (rsiStep_pushes (fst (rsiChanges data)) (snd (rsiChanges data))
              period n (rsiLoop data period n)) as [v ->].
  rewrite push_length, IH. reflexivity.
Qed.

(** Later turns leave the entries already pushed alone. *)
Lemma rsiLoop_stable data period i n :
  (i < n)%nat ->
  get (rsi_result (rsiLoop data period n)) i
  = get (rsi_result (rsiLoop data period (Datatypes.S i))) i.
Proof.
  intros Hi. induction n as [| n IH]; [lia |].
  destruct (Nat.eq_dec i n) as [-> | Hne]; [reflexivity |].
  rewrite <- IH by lia.
  rewrite rsiLoop_succ.
  destruct (rsiStep_pushes (fst (rsiChanges data)) (snd (rsiChanges data))
              period n (rsiLoop data period n)) as [v ->].
  apply get_push_lt. rewrite rsiLoop_length. lia.
Qed.

Lemma calculateRSI_length data period :
  length (calculateRSI data period) = length data.
Proof. apply rsiLoop_length. Qed.

(** The entry of index [i] is the one turn [i] pushes. *)
Lemma calculateRSI_at data period i :
  (i < length data)%nat ->
  exists v,
    rsi_result (rsiLoop data period (Datatypes.S i))
    = push (rsi_result (rsiLoop data period i)) v
    /\ get (calculateRSI data period) i = v.
Proof.
  intros Hi. unfold calculateRSI.
  rewrite (rsiLoop_stable data period i (length data) Hi).
  rewrite rsiLoop_succ.
  destruct (rsiStep_pushes (fst (rsiChanges data)) (snd (rsiChanges data))
              period i (rsiLoop data period i)) as [v Hv].
  exists v. split; [exact Hv |].
  rewrite Hv.
  rewrite <- (rsiLoop_length data period i) at 2.
  apply get_push_eq.
Qed.

Lemma calculateRSI_warmup data period i :
  (i < period)%nat -> get (calculateRSI data period) i = nan.
Proof.
  intros Hi.
  destruct (Nat.lt_ge_cases i (length data)) as [Hlt | Hge].
  - destruct (calculateRSI_at data period i Hlt) as (v & Hv & ->).
    rewrite rsiLoop_succ in Hv. unfold rsiStep in Hv.
    destruct (i =? 0)%nat.
    + simpl in Hv. unfold push in Hv. apply app_inv_head in Hv.
      injection Hv as <-. reflexivity.
    + apply Nat.ltb_lt in Hi. rewrite Hi in Hv.
      simpl in Hv. unfold push in Hv. apply app_inv_head in Hv.
      injection Hv as <-. reflexivity.
  - unfold get. apply nth_overflow. rewrite calculateRSI_length. lia.
Qed.

(** From the period on, a zero average loss gives the fallback value. *)
Lemma calculateRSI_zero_loss data period i :
  (1 <= period)%nat -> (period <= i)%nat -> (i < length data)%nat ->
  eq (avgLoss (rsiLoop data period (Datatypes.S i))) 0 = true ->
  get (calculateRSI data period) i = fallbackRSI.
Proof.
  intros Hp Hpi Hi Hzero.
  destruct (calculateRSI_at data period i Hi) as (v & Hv & ->).
  rewrite rsiLoop_succ in Hv, Hzero. unfold rsiStep in Hv, Hzero.
  assert (E0 : (i =? 0)%nat = false) by (apply Nat.eqb_neq; lia).
  assert (E1 : (i <? period)%nat = false) by (apply Nat.ltb_ge; lia).
  rewrite E0, E1 in Hv, Hzero.
  destruct (i =? period)%nat; cbv zeta in Hv, Hzero; simpl in Hv, Hzero;
    rewrite Hzero in Hv; unfold push in Hv; apply app_inv_head in Hv;
    injection Hv as <-; reflexivity.
Qed.

End RSIFacts.

Module RSIIncreasing.
Import RSISpec.
Import Indicators RSIFacts.

Lemma rsiChanges_unfold data :
  rsiChanges data = for_loop 1 (length data) (changeStep data) ([], []).
Proof. reflexivity. Qed.

Lemma losses_length data n :
  length (snd (for_loop 1 n (changeStep data) ([], []))) = (n - 1)%nat.
Proof.
  induction n as [| n IH]; [reflexivity |].
  destruct n as [| n]; [reflexivity |].
  rewrite for_loop_last by lia. unfold changeStep at 1. cbv zeta.
  simpl snd. rewrite push_length, IH. lia.
Qed.

(** On a strictly increasing series no turn records a loss. *)
Lemma increasing_no_loss data :
  strictlyIncreasing data ->
  Forall (fun x => x = 0) (snd (rsiChanges data)).
Proof.
  intros Hinc. rewrite rsiChanges_unfold.
  apply (for_loop_invariant (fun gl => Forall (fun x => x = 0) (snd gl))).
  - constructor.
  - intros i gl Hi Hall. unfold changeStep. cbv zeta. simpl snd.
    unfold push. apply Forall_app. split; [assumption |].
    constructor; [| constructor].
    assert (Hlt : lt (get data (i - 1)) (get data i) = true).
    { specialize (Hinc (i - 1)%nat).
      replace (Datatypes.S (i - 1)) with i in Hinc by lia.
      apply Hinc. lia. }
    unfold lt in *.
    destruct (Binary64.ltb_true_not_nan _ _ Hlt) as [Na Nb].
    destruct (Binary64.sub_sign (get data i) (get data (i - 1)) Nb Na)
      as [_ Hneg].
    rewrite Hneg.
    rewrite Binary64.ltb_val in Hlt |- * by assumption.
    apply Z.ltb_lt in Hlt.
    replace (Binary64Val.val (get data i) <? Binary64Val.val (get data (i - 1)))%Z
      with false by (symmetry; apply Z.ltb_ge; lia).
    reflexivity.
Qed.

Lemma sum_zeros l : Forall (fun x => x = 0) l -> sum l = 0.
Proof.
  unfold sum. induction 1 as [| x l Hx _ IH]; [reflexivity |].
  simpl. subst x. exact IH.
Qed.

Lemma firstn_zeros n l :
  Forall (fun x => x = 0) l -> Forall (fun x => x = 0) (firstn n l).
Proof.
  intros H. revert n. induction H as [| x l Hx _ IH]; intros [| n]; simpl;
    try constructor; auto.
Qed.

Lemma get_zeros l i :
  Forall (fun x => x = 0) l -> (i < length l)%nat -> get l i = 0.
Proof.
  intros Hall Hi. rewrite Forall_forall in Hall.
  apply Hall. unfold get. apply nth_In. assumption.
Qed.

(** With no loss recorded the smoothed average loss is zero from the
    period on. *)
Lemma avgLoss_zero data period i :
  (1 <= period)%nat -> periodOk period = true -> strictlyIncreasing data ->
  (period <= i)%nat -> (i < length data)%nat ->
  avgLoss (rsiLoop data period (Datatypes.S i)) = 0.
Proof.
  intros Hp Hok Hinc Hpi Hi.
  unfold periodOk in Hok. apply andb_prop in Hok. destruct Hok as [Hpos Hfin].
  pose proof (increasing_no_loss data Hinc) as Hzero.
  induction i as [| i IH]; [lia |].
  rewrite rsiLoop_succ. unfold rsiStep.
  assert (E0 : (Datatypes.S i =? 0)%nat = false) by reflexivity.
  assert (E1 : (Datatypes.S i <? period)%nat = false) by (apply Nat.ltb_ge; lia).
  rewrite E0, E1.
  destruct (Datatypes.S i =? period)%nat eqn:E2; cbv zeta; simpl avgLoss.
  - rewrite sum_zeros.
    + apply Binary64.zero_div_pos. exact Hpos.
    + unfold slice. rewrite skipn_O. apply firstn_zeros. assumption.
  - apply Nat.eqb_neq in E2.
    rewrite IH by lia.
    rewrite get_zeros.
    + rewrite Binary64.zero_mul_add_zero by assumption.
      apply Binary64.zero_div_pos. exact Hpos.
    + assumption.
    + rewrite rsiChanges_unfold, losses_length. lia.
Qed.

End RSIIncreasing.

(** C5, as stated, fails: on the strictly increasing series 1, 2, 3, 4
    with period 2, at index 2 the average loss is 0 and the average gain is
    positive, and the RSI returned is 100 - 100/101, not 100. *)
Lemma calculateRSI_zero_loss_is_not_100 :
  eq (Indicators.avgLoss (Indicators.rsiLoop [1; 2; 3; 4] 2 3)) 0 = true
  /\ gt (Indicators.avgGain (Indicators.rsiLoop [1; 2; 3; 4] 2 3)) 0 = true
  /\ get (Indicators.calculateRSI [1; 2; 3; 4] 2) 2 = 100 - 100 / 101
  /\ eq (get (Indicators.calculateRSI [1; 2; 3; 4] 2) 2) 100 = false.
Proof. vm_compute. repeat split; reflexivity. Qed.

(** C5, amended: [calculateRSI] returns the undefined marker NaN at every
    index below the period; from the period on (period at least 1), at
    every index where the Wilder-smoothed average loss is 0, whatever the
    average gain, the value returned is 100 - 100/(1 + 100), about 99.01,
    which is what the RS = 100 fallback yields; in particular this is the
    value at every index from the period on of a strictly increasing
    series (for a period below 2^53, the whole numbers a Number holds
    exactly). *)
Theorem calculateRSI_warmup_and_fallback :
  forall (data : list float) (period : nat),
    (forall i, (i < period)%nat ->
       get (Indicators.calculateRSI data period) i = nan)
    /\ (forall i, (1 <= period)%nat -> (period <= i)%nat ->
          (i < length data)%nat ->
          eq (Indicators.avgLoss
                (Indicators.rsiLoop data period (Datatypes.S i))) 0 = true ->
          get (Indicators.calculateRSI data period) i = RSISpec.fallbackRSI)
    /\ ((1 <= period)%nat -> (Z.of_nat period < 2 ^ 53)%Z ->
        RSISpec.strictlyIncreasing data ->
        forall i, (period <= i)%nat -> (i < length data)%nat ->
          get (Indicators.calculateRSI data period) i = RSISpec.fallbackRSI)
    /\ RSISpec.fallbackRSI = 100 - 100 / 101.
Proof.
  intros data period. split; [| split; [| split]].
  - intros i Hi. apply RSIFacts.calculateRSI_warmup. assumption.
  - intros i Hp Hpi Hi Hz. apply RSIFacts.calculateRSI_zero_loss; assumption.
  - intros Hp Hsmall Hinc i Hpi Hi.
    apply RSIFacts.calculateRSI_zero_loss; try assumption.
    rewrite RSIIncreasing.avgLoss_zero; try assumption; [reflexivity |].
    apply RSIFacts.periodOk_whole; [assumption | lia].
  - reflexivity.
Qed.

(** The amended C5 on the series 1, 2, 3, 4 with period 2: NaN at index
    1, the fallback value at index 3. *)
Lemma calculateRSI_warmup_and_fallback_witness :
  get (Indicators.calculateRSI [1; 2; 3; 4] 2) 1 = nan
  /\ get (Indicators.calculateRSI [1; 2; 3; 4] 2) 3 = RSISpec.fallbackRSI.
Proof.
  destruct (calculateRSI_warmup_and_fallback [1; 2; 3; 4] 2)
    as (Hwarm & _ & Hinc & _).
  split.
  - apply Hwarm. lia.
  - apply Hinc.
    + lia.
    + reflexivity.
    + intros i Hi. simpl in Hi.
      destruct i as [| [| [| i]]]; try reflexivity. lia.
    + lia.
    + simpl. lia.
Defined.

(* ================================================================= *)
(** ** EMA: the seed, the running mean and the recurrence *)

Module EMAFacts.
Import EMASpec.
Import Indicators.

Lemma for_loop_ext {S} (f g : nat -> S -> S) from to s :
  (forall i s, f i s = g i s) -> for_loop from to f s = for_loop from to g s.
Proof.
  intros H. unfold for_loop. revert s.
  induction (seq from (to - from)) as [| i l IH]; intros s; simpl.
  - reflexivity.
  - rewrite H. apply IH.
Qed.

Lemma calculateEMA_pushLoop data period :
  calculateEMA data period = pushLoop (emaValue data period) (length data).
Proof.
  unfold calculateEMA, pushLoop. cbv zeta. apply for_loop_ext.
  intros i result. unfold emaValue.
  destruct (i =? 0)%nat; [reflexivity |].
  destruct (i <? period - 1)%nat; reflexivity.
Qed.

Lemma pushLoop_succ f n :
  pushLoop f (Datatypes.S n) = push (pushLoop f n) (f n (pushLoop f n)).
Proof. unfold pushLoop. rewrite for_loop_last by lia. reflexivity. Qed.

Lemma pushLoop_length f n : length (pushLoop f n) = n.
Proof.
  induction n as [| n IH]; [reflexivity |].
  rewrite pushLoop_succ, push_length, IH. reflexivity.
Qed.

Lemma pushLoop_stable f i n j :
  (j < i)%nat -> (i <= n)%nat -> get (pushLoop f n) j = get (pushLoop f i) j.
Proof.
  intros Hj Hi. induction n as [| n IH]; [lia |].
  destruct (Nat.eq_dec i (Datatypes.S n)) as [-> | Hne]; [reflexivity |].
  rewrite <- IH by lia. rewrite pushLoop_succ.
  apply get_push_lt. rewrite pushLoop_length. lia.
Qed.

Lemma pushLoop_get f n i :
  (i < n)%nat -> get (pushLoop f n) i = f i (pushLoop f i).
Proof.
  intros Hi.
  rewrite (pushLoop_stable f (Datatypes.S i) n i) by lia.
  rewrite pushLoop_succ.
  pose proof (get_push_eq (pushLoop f i) (f i (pushLoop f i))) as H.
  rewrite pushLoop_length in H. exact H.
Qed.

Lemma firstn_succ_get (x : list float) n :
  (n < length x)%nat -> firstn (Datatypes.S n) x = push (firstn n x) (get x n).
Proof.
  revert n. induction x as [| a x IH]; intros n Hn; simpl in Hn; [lia |].
  destruct n as [| n]; [reflexivity |].
  specialize (IH n ltac:(lia)). unfold push, get in *.
  simpl. rewrite <- IH. reflexivity.
Qed.

Lemma get_firstn (x : list float) n j :
  (j < n)%nat -> get (firstn n x) j = get x j.
Proof.
  unfold get. revert n j. induction x as [| a x IH]; intros n j Hj.
  - rewrite firstn_nil. reflexivity.
  - destruct n as [| n]; [lia |]. destruct j as [| j]; [reflexivity |].
    simpl. apply IH. lia.
Qed.

(** With exact steps the period-1 EMA rebuilds the series prefix by
    prefix. *)
Lemma ema1_prefix x n :
  exactSteps x -> (n <= length x)%nat ->
  pushLoop (emaValue x 1) n = firstn n x.
Proof.
  intros Hex. induction n as [| n IH]; intros Hn; [reflexivity |].
  rewrite pushLoop_succ, IH by lia.
  rewrite firstn_succ_get by lia. f_equal.
  unfold emaValue.
  destruct n as [| n]; [reflexivity |].
  simpl (Datatypes.S n =? 0)%nat. simpl (Datatypes.S n <? 1 - 1)%nat. cbv iota.
  rewrite get_firstn by lia.
  change (2 / (of_nat 1 + 1)) with 1.
  apply Hex; lia.
Qed.

End EMAFacts.

(** C6, as stated, fails in its last sentence: with period 1 the second
    entry for the series -0.1, 0.3 is (0.3 - -0.1) * 1 + -0.1, which is
    0.30000000000000004 in binary64 and not 0.3. *)
Lemma calculateEMA_period_1_is_not_identity :
  Indicators.calculateEMA [-0.1; 0.3] 1 = [-0.1; 0.30000000000000004]
  /\ Indicators.calculateEMA [-0.1; 0.3] 1 <> [-0.1; 0.3]
  /\ eq (get (Indicators.calculateEMA [-0.1; 0.3] 1) 1) 0.3 = false.
Proof.
  split; [| split].
  - vm_compute. reflexivity.
  - intros H.
    apply (f_equal (fun l => PrimFloat.eqb (get l 1) 0.3)) in H.
    vm_compute in H. discriminate H.
  - vm_compute. reflexivity.
Qed.

(** C6, amended: for every series x and period p >= 1, [calculateEMA]
    returns a series of the same length with result[0] = x[0], result[i] =
    the running mean (x[0] + ... + x[i]) / (i + 1) for 1 <= i <= p - 2 (a
    value computed from the data, not the NaN marker), and result[i] =
    (x[i] - result[i-1]) * alpha + result[i-1] with alpha = 2 / (p + 1) for
    every i >= 1 with i >= p - 1.  For p = 1, alpha is exactly 1, and
    calculateEMA(x, 1) = x whenever every step (x[i] - x[i-1]) * 1 + x[i-1]
    is computed without rounding error. *)
Theorem calculateEMA_seed_mean_recurrence :
  forall (x : list float) (p : nat),
    (1 <= p)%nat ->
    let result := Indicators.calculateEMA x p in
    length result = length x
    /\ ((0 < length x)%nat -> get result 0 = get x 0)
    /\ (forall i, (1 <= i)%nat -> (i + 2 <= p)%nat -> (i < length x)%nat ->
          get result i = sum (slice 0 (i + 1) x) / of_nat (i + 1))
    /\ (forall i, (1 <= i)%nat -> (p - 1 <= i)%nat -> (i < length x)%nat ->
          get result i
          = (get x i - get result (i - 1)) * (2 / (of_nat p + 1))
            + get result (i - 1))
    /\ 2 / (of_nat 1 + 1) = 1
    /\ (EMASpec.exactSteps x -> Indicators.calculateEMA x 1 = x).
Proof.
  intros x p Hp result. subst result.
  rewrite EMAFacts.calculateEMA_pushLoop.
  split; [| split; [| split; [| split; [| split]]]].
  - apply EMAFacts.pushLoop_length.
  - intros Hlen. rewrite EMAFacts.pushLoop_get by assumption. reflexivity.
  - intros i H1 H2 Hi. rewrite EMAFacts.pushLoop_get by assumption.
    unfold EMASpec.emaValue.
    replace (i =? 0)%nat with false by (symmetry; apply Nat.eqb_neq; lia).
    replace (i <? p - 1)%nat with true by (symmetry; apply Nat.ltb_lt; lia).
    reflexivity.
  - intros i H1 H2 Hi. rewrite EMAFacts.pushLoop_get by assumption.
    unfold EMASpec.emaValue.
    replace (i =? 0)%nat with false by (symmetry; apply Nat.eqb_neq; lia).
    replace (i <? p - 1)%nat with false by (symmetry; apply Nat.ltb_ge; lia).
    rewrite (EMAFacts.pushLoop_stable _ i (length x) (i - 1)) by lia.
    reflexivity.
  - reflexivity.
  - intros Hex. rewrite EMAFacts.calculateEMA_pushLoop.
    rewrite EMAFacts.ema1_prefix by (assumption || lia).
    apply firstn_all.
Qed.

(** The amended C6 on the series 1, 2, 4 with period 3, and its last part
    on a series whose period-1 steps are exact. *)
Lemma calculateEMA_seed_mean_recurrence_witness :
  (length (Indicators.calculateEMA [1; 2; 4] 3) = length [1; 2; 4]
   /\ get (Indicators.calculateEMA [1; 2; 4] 3) 1
      = sum (slice 0 (1 + 1) [1; 2; 4]) / of_nat (1 + 1))
  /\ Indicators.calculateEMA [1; 2; 4] 1 = [1; 2; 4].
Proof.
  split.
  - destruct (calculateEMA_seed_mean_recurrence [1; 2; 4] 3 ltac:(lia))
      as (Hlen & _ & Hmean & _).
    split; [exact Hlen |]. apply Hmean; simpl; lia.
  - destruct (calculateEMA_seed_mean_recurrence [1; 2; 4] 1 ltac:(lia))
      as (_ & _ & _ & _ & _ & Hid).
    apply Hid. intros i H1 H2.
    destruct i as [| [| [| i]]]; try lia; try reflexivity.
    simpl in H2. lia.
Defined.

(* ================================================================= *)
(** ** The metrics report *)

Module MetricsFacts.
Import MetricsSpec.
Import Backtest.

Lemma length_zero_nil {A} (l : list A) : (length l =? 0)%nat = true -> l = [].
Proof. destruct l; [reflexivity | discriminate]. Qed.

(** The field values of the report when a closed trade exists. *)
Lemma calculateMetrics_fields Math_pow trades equityCurve config :
  filter isClosed trades <> [] ->
  let closedTrades := filter isClosed trades in
  let winning := filter isWinning closedTrades in
  let losing := filter isLosing closedTrades in
  let m := calculateMetrics Math_pow trades equityCurve config in
  totalTrades m = of_nat (length closedTrades)
  /\ winningTrades m = of_nat (length winning)
  /\ losingTrades m = of_nat (length losing)
  /\ winRate m = (of_nat (length winning) / of_nat (length closedTrades)) * 100
  /\ grossProfit m = grossProfitOf winning
  /\ grossLoss m = grossLossOf losing
  /\ profitFactor m = profitFactorOf (grossProfitOf winning) (grossLossOf losing)
  /\ commissionPaid m = commissionPaidOf closedTrades config.
Proof.
  intros Hne closedTrades winning losing m. subst m.
  unfold calculateMetrics.
  destruct (length trades =? 0)%nat eqn:E1.
  { apply length_zero_nil in E1. subst trades. contradiction Hne. reflexivity. }
  fold closedTrades.
  destruct (length closedTrades =? 0)%nat eqn:E2.
  { apply length_zero_nil in E2. contradiction. }
  cbv zeta. repeat split; reflexivity.
Qed.

Lemma calculateMetrics_no_closed Math_pow trades equityCurve config :
  filter isClosed trades = [] ->
  calculateMetrics Math_pow trades equityCurve config = getEmptyMetrics.
Proof.
  intros H. unfold calculateMetrics.
  destruct (length trades =? 0)%nat; [reflexivity |].
  rewrite H. reflexivity.
Qed.

(** [(t.pnl || 0)] is never NaN. *)
Lemma pnlOrZero_not_nan t : PrimFloat.is_nan (pnlOrZero t) = false.
Proof.
  unfold pnlOrZero, opt_or, or_else, truthy.
  destruct (pnl t) as [p |]; [| reflexivity].
  destruct (PrimFloat.is_nan p) eqn:E; simpl; [reflexivity |].
  destruct (PrimFloat.is_zero p); simpl; [reflexivity | assumption].
Qed.

Lemma isLosing_negb_isWinning t : isLosing t = negb (isWinning t).
Proof.
  unfold isLosing, isWinning, le, gt.
  apply Binary64.leb_zero_negb_gt. apply pnlOrZero_not_nan.
Qed.

Lemma winners_and_losers (l : list Trade) :
  (length (filter isWinning l) + length (filter isLosing l))%nat = length l.
Proof.
  induction l as [| t l IH]; [reflexivity |].
  simpl. rewrite isLosing_negb_isWinning.
  destruct (isWinning t); simpl; lia.
Qed.

Lemma breakEven_pnlOrZero t : breakEven t -> pnlOrZero t = 0.
Proof.
  intros (_ & p & Hp & Hz). unfold pnlOrZero, opt_or, or_else, truthy.
  rewrite Hp. unfold PrimFloat.is_zero. unfold eq in Hz.
  change zero with 0. rewrite Hz. rewrite orb_true_r. reflexivity.
Qed.

Lemma breakEven_loses t :
  breakEven t -> isWinning t = false /\ isLosing t = true.
Proof.
  intros H. rewrite isLosing_negb_isWinning.
  unfold isWinning. rewrite (breakEven_pnlOrZero t H). split; reflexivity.
Qed.

End MetricsFacts.

(** C7: [calculateMetrics] is total; for an empty trade list, or a list
    with no CLOSED trade, it returns the canonical record, all of whose
    fields are 0; otherwise its profitFactor is grossProfit / grossLoss
    when grossLoss > 0, Infinity when grossLoss = 0 and grossProfit > 0,
    and 0 when grossProfit = 0 and grossLoss = 0. *)
Theorem calculateMetrics_degenerate_and_profitFactor :
  forall (Math_pow : float -> float -> float) (trades : list Trade)
         (equityCurve : list EquityPoint) (config : BacktestConfig),
    let m := Backtest.calculateMetrics Math_pow trades equityCurve config in
    (trades = [] -> m = Backtest.getEmptyMetrics)
    /\ (filter Backtest.isClosed trades = [] -> m = Backtest.getEmptyMetrics)
    /\ (forall k, metric Backtest.getEmptyMetrics k = 0)
    /\ (filter Backtest.isClosed trades <> [] ->
        (gt (grossLoss m) 0 = true ->
           profitFactor m = grossProfit m / grossLoss m)
        /\ (eq (grossLoss m) 0 = true -> gt (grossProfit m) 0 = true ->
              profitFactor m = infinity)
        /\ (eq (grossProfit m) 0 = true -> eq (grossLoss m) 0 = true ->
              profitFactor m = 0)).
Proof.
  intros Math_pow trades equityCurve config m.
  split; [| split; [| split]].
  - intros ->. reflexivity.
  - intros H. apply MetricsFacts.calculateMetrics_no_closed. assumption.
  - intros k. destruct k; reflexivity.
  - intros Hne.
    destruct (MetricsFacts.calculateMetrics_fields Math_pow trades equityCurve
                config Hne) as (_ & _ & _ & _ & Hgp & Hgl & Hpf & _).
    fold m in Hgp, Hgl, Hpf. rewrite Hpf, <- Hgp, <- Hgl.
    unfold Backtest.profitFactorOf.
    split; [| split].
    + intros ->. reflexivity.
    + intros Hz Hp. unfold eq, gt in *.
      rewrite (Binary64.eqb_zero_not_gt _ Hz), Hp. reflexivity.
    + intros Hp Hl. unfold eq, gt in *.
      rewrite (Binary64.eqb_zero_not_gt _ Hl), (Binary64.eqb_zero_not_gt _ Hp).
      reflexivity.
Qed.

(** C7 on concrete lists: no trade; a winner and a loser (grossLoss > 0);
    a winner alone (grossLoss = 0 < grossProfit); a break-even trade alone
    (both 0). *)
Lemma calculateMetrics_degenerate_and_profitFactor_witness :
  Backtest.calculateMetrics Samples.pow [] [] Samples.config
  = Backtest.getEmptyMetrics
  /\ profitFactor
       (Backtest.calculateMetrics Samples.pow [Samples.winner; Samples.loser] []
          Samples.config)
     = 2 / 1
  /\ profitFactor
       (Backtest.calculateMetrics Samples.pow [Samples.winner] [] Samples.config)
     = infinity
  /\ profitFactor
       (Backtest.calculateMetrics Samples.pow [Samples.flat] [] Samples.config)
     = 0.
Proof.
  split; [| split; [| split]].
  - apply (calculateMetrics_degenerate_and_profitFactor
             Samples.pow [] [] Samples.config). reflexivity.
  - destruct (calculateMetrics_degenerate_and_profitFactor
                Samples.pow [Samples.winner; Samples.loser] [] Samples.config)
      as (_ & _ & _ & H).
    destruct H as (H & _ & _); [discriminate |].
    rewrite H; reflexivity.
  - destruct (calculateMetrics_degenerate_and_profitFactor
                Samples.pow [Samples.winner] [] Samples.config)
      as (_ & _ & _ & H).
    destruct H as (_ & H & _); [discriminate |].
    apply H; reflexivity.
  - destruct (calculateMetrics_degenerate_and_profitFactor
                Samples.pow [Samples.flat] [] Samples.config)
      as (_ & _ & _ & H).
    destruct H as (_ & _ & H); [discriminate |].
    apply H; reflexivity.
Defined.

Lemma closed_count_by_status (trades trades' : list Trade) :
  map status trades' = map status trades ->
  length (filter Backtest.isClosed trades')
  = length (filter Backtest.isClosed trades).
Proof.
  revert trades. induction trades' as [| t' l' IH]; intros [| t l] H;
    try discriminate H; [reflexivity |].
  simpl in H. injection H as Hs Hl.
  assert (Hc : Backtest.isClosed t' = Backtest.isClosed t).
  { unfold Backtest.isClosed. rewrite Hs. reflexivity. }
  cbn [filter]. rewrite Hc.
  destruct (Backtest.isClosed t); cbn [length]; rewrite (IH l Hl); reflexivity.
Qed.

(** C8: when the list has a CLOSED trade, commissionPaid is (number of
    CLOSED trades) * initialCapital * commission * 2; the value is the same
    for any other trade list with the same statuses, whatever its prices
    and its pnl. *)
Theorem commissionPaid_by_closed_count :
  forall (Math_pow : float -> float -> float) (trades : list Trade)
         (equityCurve : list EquityPoint) (config : BacktestConfig),
    filter Backtest.isClosed trades <> [] ->
    commissionPaid (Backtest.calculateMetrics Math_pow trades equityCurve config)
    = of_nat (length (filter Backtest.isClosed trades))
      * initialCapital config * commission config * 2
    /\ forall (trades' : list Trade) (equityCurve' : list EquityPoint),
         map status trades' = map status trades ->
         commissionPaid
           (Backtest.calculateMetrics Math_pow trades' equityCurve' config)
         = commissionPaid
             (Backtest.calculateMetrics Math_pow trades equityCurve config).
Proof.
  intros Math_pow trades equityCurve config Hne.
  destruct (MetricsFacts.calculateMetrics_fields Math_pow trades equityCurve
              config Hne) as (_ & _ & _ & _ & _ & _ & _ & Hc).
  split; [exact Hc |].
  intros trades' equityCurve' Hs.
  pose proof (closed_count_by_status trades trades' Hs) as Hlen.
  assert (Hne' : filter Backtest.isClosed trades' <> []).
  { intros E. rewrite E in Hlen. simpl in Hlen.
    destruct (filter Backtest.isClosed trades); [contradiction Hne; reflexivity
                                                | discriminate Hlen]. }
  destruct (MetricsFacts.calculateMetrics_fields Math_pow trades' equityCurve'
              config Hne') as (_ & _ & _ & _ & _ & _ & _ & Hc').
  rewrite Hc, Hc'. unfold Backtest.commissionPaidOf. rewrite Hlen. reflexivity.
Qed.

(** C8 on two closed trades: 2 * 100000 * 0.0005 * 2, and the same for the
    same trades at other prices. *)
Lemma commissionPaid_by_closed_count_witness :
  commissionPaid
    (Backtest.calculateMetrics Samples.pow [Samples.winner; Samples.loser] []
       Samples.config)
  = of_nat 2 * 100000 * 0.0005 * 2
  /\ commissionPaid
       (Backtest.calculateMetrics Samples.pow
          [Samples.closedTrade 0 500 700; Samples.closedTrade 1 3 2] []
          Samples.config)
     = commissionPaid
         (Backtest.calculateMetrics Samples.pow [Samples.winner; Samples.loser]
            [] Samples.config).
Proof.
  destruct (commissionPaid_by_closed_count Samples.pow
              [Samples.winner; Samples.loser] [] Samples.config)
    as [H1 H2]; [discriminate |].
  split; [exact H1 | apply H2; reflexivity].
Defined.

Lemma filter_closed_snoc trades t0 :
  status t0 = CLOSED ->
  filter Backtest.isClosed (trades ++ [t0])
  = filter Backtest.isClosed trades ++ [t0].
Proof.
  intros H. rewrite filter_app. simpl. unfold Backtest.isClosed at 2.
  rewrite H. reflexivity.
Qed.

(** C10: a closed trade is winning exactly when its pnl (a missing pnl
    counting as 0) is above 0 and losing exactly when it is at most 0, and
    it is one or the other, so winningTrades + losingTrades = totalTrades;
    a break-even trade (pnl 0) is a losing one that adds 0 to the sum
    behind grossLoss: appending it leaves winningTrades, grossProfit and
    grossLoss as they were, raises losingTrades and totalTrades by one,
    and winRate becomes winning / (total + 1) * 100. *)
Theorem winning_losing_classification :
  forall (Math_pow : float -> float -> float) (trades : list Trade)
         (equityCurve : list EquityPoint) (config : BacktestConfig),
    let closedTrades := filter Backtest.isClosed trades in
    let w := length (filter Backtest.isWinning closedTrades) in
    let l := length (filter Backtest.isLosing closedTrades) in
    let m := Backtest.calculateMetrics Math_pow trades equityCurve config in
    (forall t, Backtest.isWinning t = gt (Backtest.pnlOrZero t) 0
               /\ Backtest.isLosing t = le (Backtest.pnlOrZero t) 0
               /\ Backtest.isLosing t = negb (Backtest.isWinning t))
    /\ (forall t p, pnl t = Some p -> PrimFloat.is_nan p = false ->
          Backtest.isWinning t = gt p 0 /\ Backtest.isLosing t = le p 0)
    /\ (w + l)%nat = length closedTrades
    /\ (closedTrades <> [] ->
        winningTrades m = of_nat w
        /\ losingTrades m = of_nat l
        /\ totalTrades m = of_nat (w + l)
        /\ winRate m = (of_nat w / of_nat (w + l)) * 100)
    /\ (forall t0, MetricsSpec.breakEven t0 ->
        let m' :=
          Backtest.calculateMetrics Math_pow (trades ++ [t0]) equityCurve config in
        Backtest.isWinning t0 = false
        /\ Backtest.isLosing t0 = true
        /\ Backtest.pnlOrZero t0 = 0
        /\ winningTrades m' = of_nat w
        /\ losingTrades m' = of_nat (Datatypes.S l)
        /\ totalTrades m' = of_nat (Datatypes.S (w + l))
        /\ winRate m' = (of_nat w / of_nat (Datatypes.S (w + l))) * 100
        /\ grossProfit m'
           = Backtest.grossProfitOf (filter Backtest.isWinning closedTrades)
        /\ grossLoss m'
           = Backtest.grossLossOf (filter Backtest.isLosing closedTrades)).
Proof.
  intros Math_pow trades equityCurve config closedTrades w l m.
  pose proof (MetricsFacts.winners_and_losers closedTrades) as Hwl.
  fold w l in Hwl.
  split; [| split; [| split; [| split]]].
  - intros t. split; [reflexivity | split; [reflexivity |]].
    apply MetricsFacts.isLosing_negb_isWinning.
  - intros t p Hp Hnan.
    unfold Backtest.isWinning, Backtest.isLosing, Backtest.pnlOrZero,
      opt_or, or_else, truthy. rewrite Hp, Hnan. simpl.
    destruct (PrimFloat.is_zero p) eqn:Hz; simpl; [| split; reflexivity].
    unfold PrimFloat.is_zero in Hz. change zero with 0 in Hz.
    unfold gt, le.
    rewrite (Binary64.eqb_zero_not_gt p Hz).
    rewrite (Binary64.leb_zero_negb_gt p Hnan).
    rewrite (Binary64.eqb_zero_not_gt p Hz). split; reflexivity.
  - exact Hwl.
  - intros Hne.
    destruct (MetricsFacts.calculateMetrics_fields Math_pow trades equityCurve
                config Hne) as (Ht & Hw & Hl & Hr & _).
    fold closedTrades in Ht, Hw, Hl, Hr. fold w in Hw, Hr. fold l in Hl.
    fold m in Ht, Hw, Hl, Hr. rewrite Hwl. auto.
  - intros t0 Hbe m'.
    destruct (MetricsFacts.breakEven_loses t0 Hbe) as [Hnw Hlose].
    pose proof (MetricsFacts.breakEven_pnlOrZero t0 Hbe) as Hzero.
    destruct Hbe as [Hclosed _].
    assert (Hf : filter Backtest.isClosed (trades ++ [t0]) = closedTrades ++ [t0])
      by (apply filter_closed_snoc; assumption).
    assert (Hne : filter Backtest.isClosed (trades ++ [t0]) <> []).
    { rewrite Hf. destruct closedTrades; discriminate. }
    destruct (MetricsFacts.calculateMetrics_fields Math_pow (trades ++ [t0])
                equityCurve config Hne) as (Ht & Hw & Hl & Hr & Hgp & Hgl & _).
    fold m' in Ht, Hw, Hl, Hr, Hgp, Hgl.
    rewrite Hf in Ht, Hw, Hl, Hr, Hgp, Hgl.
    assert (Hfw : filter Backtest.isWinning (closedTrades ++ [t0])
                  = filter Backtest.isWinning closedTrades).
    { rewrite filter_app. simpl. rewrite Hnw. apply app_nil_r. }
    assert (Hfl : filter Backtest.isLosing (closedTrades ++ [t0])
                  = filter Backtest.isLosing closedTrades ++ [t0]).
    { rewrite filter_app. simpl. rewrite Hlose. reflexivity. }
    rewrite Hfw in Hw, Hr, Hgp. rewrite Hfl in Hl, Hgl.
    rewrite length_app in Ht, Hl, Hr. simpl length in Ht, Hl, Hr.
    fold w in Hw, Hr. fold l in Hl.
    replace (length closedTrades + 1)%nat with (Datatypes.S (w + l)) in Ht, Hr
      by lia.
    replace (l + 1)%nat with (Datatypes.S l) in Hl by lia.
    repeat split; try assumption.
    rewrite Hgl. unfold Backtest.grossLossOf.
    rewrite fold_left_app. simpl. rewrite Hzero.
    apply Binary64.abs_add_zero.
Qed.

(** C10 on a winner and a loser, then with a break-even trade appended. *)
Lemma winning_losing_classification_witness :
  (winningTrades
     (Backtest.calculateMetrics Samples.pow [Samples.winner; Samples.loser] []
        Samples.config) = of_nat 1
   /\ losingTrades
        (Backtest.calculateMetrics Samples.pow [Samples.winner; Samples.loser] []
           Samples.config) = of_nat 1)
  /\ (losingTrades
        (Backtest.calculateMetrics Samples.pow
           ([Samples.winner; Samples.loser] ++ [Samples.flat]) []
           Samples.config) = of_nat 2
      /\ winRate
           (Backtest.calculateMetrics Samples.pow
              ([Samples.winner; Samples.loser] ++ [Samples.flat]) []
              Samples.config) = (of_nat 1 / of_nat 3) * 100).
Proof.
  destruct (winning_losing_classification Samples.pow
              [Samples.winner; Samples.loser] [] Samples.config)
    as (_ & _ & _ & H1 & H2).
  split.
  - destruct H1 as (Hw & Hl & _); [discriminate |]. split; assumption.
  - destruct (H2 Samples.flat) as (_ & _ & _ & _ & Hl & _ & Hr & _).
    + split; [reflexivity |]. exists 0. split; reflexivity.
    + split; assumption.
Defined.

(* ================================================================= *)
(** ** The equity curve between the entry and the exit of a trade *)

Module Unrealized.
Import HeldTrade.
Import Backtest.

Lemma exitStep_tracksClosed config st trade :
  tracksClosed st -> tracksClosed (exitStep config st trade).
Proof.
  unfold tracksClosed, exitStep. intros H t.
  destruct (pnl trade); [| apply H]. simpl.
  destruct (openTrade st) as [o |]; [| discriminate].
  destruct (id o =? id trade)%nat; [discriminate |].
  intros Ht. apply H. assumption.
Qed.

Lemma exits_tracksClosed config exiting st :
  tracksClosed st -> tracksClosed (fold_left (exitStep config) exiting st).
Proof.
  revert st. induction exiting as [| t exiting IH]; intros st H; simpl.
  - assumption.
  - apply IH. apply exitStep_tracksClosed. assumption.
Qed.

Lemma entryStep_tracksClosed trades config time st :
  Forall (fun t => status t = CLOSED) trades ->
  tracksClosed st -> tracksClosed (entryStep trades config time st).
Proof.
  unfold tracksClosed, entryStep. intros Hall H t.
  destruct (find _ trades) as [e |] eqn:E; [| apply H]. simpl.
  intros Ht. injection Ht as <-.
  apply find_some in E. destruct E as [Hin _].
  rewrite Forall_forall in Hall. apply Hall. assumption.
Qed.

Lemma curveStep_tracksClosed data trades config st candle :
  Forall (fun t => status t = CLOSED) trades ->
  tracksClosed st -> tracksClosed (curveStep data trades config st candle).
Proof.
  intros Hall H. unfold curveStep. cbv zeta. unfold tracksClosed. simpl openTrade.
  apply exits_tracksClosed. apply entryStep_tracksClosed; assumption.
Qed.

Lemma curveAfter_tracksClosed data trades config seen :
  Forall (fun t => status t = CLOSED) trades ->
  tracksClosed (curveAfter data trades config seen).
Proof.
  intros Hall. unfold curveAfter.
  assert (H0 : tracksClosed (curveStart config)) by (intros t H; discriminate H).
  revert H0. generalize (curveStart config).
  induction seen as [| candle seen IH]; intros st H; simpl.
  - assumption.
  - apply IH. apply curveStep_tracksClosed; assumption.
Qed.

Lemma unrealized_zero candle st :
  tracksClosed st -> unrealizedPnLOf candle st = 0.
Proof.
  unfold tracksClosed, unrealizedPnLOf. intros H.
  destruct (openTrade st) as [t |]; [| reflexivity].
  unfold isOpen. rewrite (H t eq_refl). reflexivity.
Qed.

End Unrealized.

(** C2 does not hold of the code: the unrealized P&L is only computed for
    a tracked trade whose [status] field is 'OPEN', and the trades
    [runStrategy] returns are all CLOSED.  For a trade list in which every
    trade is CLOSED the unrealized P&L is 0 at every bar, whatever the bar
    and the trade held; on the bars closing at 10, 12, 11 with one trade
    entered at the first bar (at 10) and exited at the third, the equity
    reported at the second bar is the cash balance 99999.995, not the cash
    balance plus the unrealized 12 * 1 - 10. *)
Theorem generateEquityCurve_no_unrealized_for_closed_trades :
  (forall (data : list OHLCV) (trades : list Trade) (config : BacktestConfig)
          (seen : list OHLCV) (candle : OHLCV),
      Forall (fun t => status t = CLOSED) trades ->
      Backtest.unrealizedPnLOf candle
        (Backtest.entryStep trades config (getTime (date candle))
           (Backtest.curveAfter data trades config seen))
      = 0)
  /\ (let st :=
        Backtest.curveAfter HeldTrade.bars [HeldTrade.held] Samples.config
          (firstn 2 HeldTrade.bars) in
      Backtest.openTrade st = Some HeldTrade.held
      /\ Backtest.st_equity st = 100000 - 10 * 1 * 0.0005
      /\ map equity
           (Backtest.generateEquityCurve HeldTrade.bars [HeldTrade.held]
              Samples.config)
         = [100000 - 10 * 1 * 0.0005;
            100000 - 10 * 1 * 0.0005;
            100000 - 10 * 1 * 0.0005 + (1 - 11 * 1 * 0.001 - 11 * 1 * 0.0005)]
      /\ eq (Backtest.equityAt
               (Backtest.generateEquityCurve HeldTrade.bars [HeldTrade.held]
                  Samples.config) 1)
            (Backtest.st_equity st + (12 * 1 - 10 * 1))
         = false).
Proof.
  split.
  - intros data trades config seen candle Hall.
    apply Unrealized.unrealized_zero.
    apply Unrealized.entryStep_tracksClosed; [assumption |].
    apply Unrealized.curveAfter_tracksClosed. assumption.
  - vm_compute. repeat split; reflexivity.
Qed.

(* ================================================================= *)
(** ** The parameter sweep *)

Module SweepFacts.
Import SweepSpec.
Import Optimizer.

Lemma set_skip pre l key v :
  ~ In key (map fst pre) -> set (pre ++ l) key v = pre ++ set l key v.
Proof.
  induction pre as [| [k w] pre IH]; intros Hn; simpl; [reflexivity |].
  simpl in Hn.
  destruct (String.eqb k key) eqn:E.
  - apply String.eqb_eq in E. subst k. contradiction Hn. left. reflexivity.
  - rewrite IH; [reflexivity |]. intros H. apply Hn. right. assumption.
Qed.

(** Assigning the first pending key writes over the stale entry, if any. *)
Lemma set_stale st key keys v :
  stale st (key :: keys) ->
  exists tail, set st key v = (key, v) :: tail /\ stale tail keys.
Proof.
  intros H. inversion H as [| k w tail ks Htail]; subst.
  - exists []. split; [reflexivity | constructor].
  - exists tail. split; [| assumption].
    simpl. rewrite String.eqb_refl. reflexivity.
Qed.

Lemma generateCombinations_spec ranges :
  NoDup (map fst ranges) ->
  forall pre st combinations,
    (forall key, In key (map fst ranges) -> ~ In key (map fst pre)) ->
    stale st (map fst ranges) ->
    exists st',
      generateCombinations ranges (pre ++ st) combinations
      = (combinations ++ map (fun c => pre ++ toObj c) (cartesian ranges),
         pre ++ st')
      /\ stale st' (map fst ranges).
Proof.
  induction ranges as [| [key values] rest IH]; intros Hnd pre st combinations
    Hpre Hst.
  - inversion Hst; subst. exists []. simpl. rewrite !app_nil_r.
    split; [reflexivity | constructor].
  - simpl map in *. inversion Hnd as [| k ks Hk Hnd']; subst.
    assert (Hkey : ~ In key (map fst pre)) by (apply Hpre; left; reflexivity).
    assert (Hrest : forall k, In k (map fst rest) -> ~ In k (map fst pre))
      by (intros k Hin; apply Hpre; right; assumption).
    clear Hpre Hnd.
    simpl generateCombinations. simpl cartesian.
    revert st combinations Hst.
    induction values as [| v values IHv]; intros st combinations Hst.
    + exists st. simpl. rewrite app_nil_r. split; [reflexivity | assumption].
    + simpl fold_left.
      rewrite set_skip by assumption.
      destruct (set_stale st key (map fst rest) (VNumber v) Hst)
        as (tail & -> & Htail).
      assert (Hpre' : forall k, In k (map fst rest) ->
                                ~ In k (map fst (pre ++ [(key, VNumber v)]))).
      { intros k Hin. rewrite map_app, in_app_iff. simpl.
        intros [H | [H | []]].
        - apply (Hrest k); assumption.
        - subst k. contradiction. }
      destruct (IH Hnd' (pre ++ [(key, VNumber v)]) tail combinations
                  Hpre' Htail) as (tail' & Hgen & Htail').
      replace (pre ++ (key, VNumber v) :: tail)
        with ((pre ++ [(key, VNumber v)]) ++ tail)
        by (rewrite <- app_assoc; reflexivity).
      rewrite Hgen. simpl fst. simpl snd.
      replace ((pre ++ [(key, VNumber v)]) ++ tail')
        with (pre ++ (key, VNumber v) :: tail')
        by (rewrite <- app_assoc; reflexivity).
      destruct (IHv ((key, VNumber v) :: tail')
                  (combinations
                   ++ map (fun c => (pre ++ [(key, VNumber v)]) ++ toObj c)
                        (cartesian rest)))
        as (st' & Hfold & Hst').
      { constructor. assumption. }
      exists st'. split; [| assumption].
      eapply eq_trans; [exact Hfold |]. f_equal.
      rewrite <- app_assoc. f_equal.
      simpl flat_map. rewrite map_app, map_map. f_equal.
      apply map_ext. intros c. simpl. rewrite <- app_assoc. reflexivity.
Qed.

Lemma combinationsOf_cartesian ranges :
  NoDup (map fst ranges) ->
  combinationsOf ranges = map toObj (cartesian ranges).
Proof.
  intros Hnd. unfold combinationsOf.
  destruct (generateCombinations_spec ranges Hnd [] [] [])
    as (st' & H & _).
  - intros key _ [].
  - constructor.
  - simpl in H. rewrite H. reflexivity.
Qed.

Section Sweep.
Variable runBacktest : Obj -> Outcome Backtest.BacktestResult.
Variable metricToOptimize : MetricKey.

Lemma testCombination_contribution results combo :
  testCombination runBacktest metricToOptimize results combo
  = results ++ contribution runBacktest metricToOptimize combo.
Proof.
  unfold testCombination, contribution, paramsFor. cbv zeta.
  destruct (runBacktest _); [reflexivity | rewrite app_nil_r; reflexivity].
Qed.

Lemma sweep_contributions_from combos results :
  fold_left (testCombination runBacktest metricToOptimize) combos results
  = results ++ flat_map (contribution runBacktest metricToOptimize) combos.
Proof.
  revert results. induction combos as [| c combos IH]; intros results; simpl.
  - rewrite app_nil_r. reflexivity.
  - rewrite IH, testCombination_contribution, <- app_assoc. reflexivity.
Qed.

Lemma sweep_contributions ranges :
  sweep runBacktest ranges metricToOptimize
  = flat_map (contribution runBacktest metricToOptimize) (combinationsOf ranges).
Proof. unfold sweep. apply sweep_contributions_from. Qed.

End Sweep.

Lemma insert_In {A} (cmp : A -> A -> float) x l y :
  In y (insert cmp x l) <-> y = x \/ In y l.
Proof.
  induction l as [| h l IH]; simpl.
  - intuition auto.
  - destruct (gt (sortCompare cmp x h) 0); simpl; rewrite ?IH; intuition auto.
Qed.

Lemma sort_In {A} (cmp : A -> A -> float) l y :
  In y (sort cmp l) <-> In y l.
Proof.
  induction l as [| x l IH]; simpl; [reflexivity |].
  rewrite insert_In, IH. intuition auto.
Qed.

Lemma sort_nil_iff {A} (cmp : A -> A -> float) l : sort cmp l = [] <-> l = [].
Proof.
  split; [| intros ->; reflexivity].
  destruct l as [| x l]; [reflexivity |]. simpl.
  destruct (sort cmp l) as [| h r]; simpl; [discriminate |].
  destruct (gt (sortCompare cmp x h) 0); discriminate.
Qed.

(** The comparator puts [x] after [h] exactly when [h] scores higher. *)
Lemma byScore_after x h :
  PrimFloat.is_nan (score x) = false -> PrimFloat.is_nan (score h) = false ->
  gt (sortCompare byScore x h) 0 = lt (score x) (score h).
Proof.
  intros Nx Nh. unfold sortCompare, byScore, gt, lt, isNaN.
  destruct (Binary64.sub_sign (score h) (score x) Nh Nx) as [Hpos _].
  destruct (PrimFloat.is_nan (score h - score x)) eqn:E.
  - rewrite <- Hpos.
    destruct (0 <? score h - score x) eqn:F; [| reflexivity].
    destruct (Binary64.ltb_true_not_nan _ _ F) as [_ N]. congruence.
  - exact Hpos.
Qed.

(** The first entry of the sorted results is one of them and none of them
    scores higher. *)
Lemma sort_head_maximal l :
  Forall (fun s => PrimFloat.is_nan (score s) = false) l ->
  match sort byScore l with
  | [] => l = []
  | best :: _ => In best l /\ maximal best l
  end.
Proof.
  induction 1 as [| x l Nx Hall IH]; [reflexivity |].
  simpl sort.
  assert (Hxx : lt (score x) (score x) = false).
  { unfold lt. rewrite Binary64.ltb_val by assumption. apply Z.ltb_irrefl. }
  destruct (sort byScore l) as [| h r] eqn:E.
  - subst l. simpl. split; [left; reflexivity |].
    intros s [<- | []]. assumption.
  - destruct IH as [Hin Hmax].
    assert (Nh : PrimFloat.is_nan (score h) = false).
    { rewrite Forall_forall in Hall. apply Hall. assumption. }
    simpl insert. rewrite byScore_after by assumption.
    destruct (lt (score x) (score h)) eqn:Hlt.
    + split; [right; assumption |].
      intros s [<- | Hs]; [| apply Hmax; assumption].
      unfold lt in *. rewrite Binary64.ltb_val in Hlt |- * by assumption.
      apply Z.ltb_lt in Hlt. apply Z.ltb_ge. lia.
    + split; [left; reflexivity |].
      intros s [<- | Hs]; [assumption |].
      assert (Ns : PrimFloat.is_nan (score s) = false).
      { rewrite Forall_forall in Hall. apply Hall. assumption. }
      specialize (Hmax s Hs).
      unfold lt in *. rewrite Binary64.ltb_val in Hlt, Hmax |- * by assumption.
      apply Z.ltb_ge in Hlt, Hmax. apply Z.ltb_ge. lia.
Qed.

End SweepFacts.

Lemma cartesian_length ranges :
  length (SweepSpec.cartesian ranges)
  = fold_right Nat.mul 1%nat (map (fun kv => length (snd kv)) ranges).
Proof.
  induction ranges as [| [key values] rest IH]; [reflexivity |].
  simpl. rewrite <- IH. clear IH.
  induction values as [| v values IHv]; [reflexivity |].
  simpl. rewrite length_app, length_map, IHv. reflexivity.
Qed.

(** C9: for parameter ranges that list each key once, [optimizeStrategy]
    tries every combination of the Cartesian product of the candidate
    lists, in order; the ranked results hold one entry for each combination
    whose backtest returns and none for one whose backtest throws, the
    sweep going on over the rest; if no combination succeeds the neutral
    result (no parameters, the all-zero metrics, score 0) is returned;
    otherwise the result returned is one of the surviving entries and,
    when no score is NaN, none of them has a higher score. *)
Theorem optimizeStrategy_sweeps_product_and_picks_max :
  forall (runBacktest : Optimizer.Obj -> Optimizer.Outcome Backtest.BacktestResult)
         (paramRanges : list (string * list float))
         (metricToOptimize : MetricKey),
    NoDup (map fst paramRanges) ->
    let combinations := Optimizer.combinationsOf paramRanges in
    let results := Optimizer.sweep runBacktest paramRanges metricToOptimize in
    let best :=
      Optimizer.optimizeStrategy runBacktest paramRanges metricToOptimize in
    combinations = map SweepSpec.toObj (SweepSpec.cartesian paramRanges)
    /\ length combinations
       = fold_right Nat.mul 1%nat
           (map (fun kv => length (snd kv)) paramRanges)
    /\ results
       = flat_map (SweepSpec.contribution runBacktest metricToOptimize)
           combinations
    /\ (results = [] ->
        best = Optimizer.neutral
        /\ Optimizer.opt_metrics best = Backtest.getEmptyMetrics
        /\ Optimizer.score best = 0)
    /\ (results <> [] ->
        In best results
        /\ (Forall (fun s => PrimFloat.is_nan (Optimizer.score s) = false)
              results ->
            SweepSpec.maximal best results)).
Proof.
  intros runBacktest paramRanges metricToOptimize Hnd combinations results best.
  assert (Hc : combinations
               = map SweepSpec.toObj (SweepSpec.cartesian paramRanges))
    by (apply SweepFacts.combinationsOf_cartesian; assumption).
  split; [exact Hc | split; [| split; [| split]]].
  - rewrite Hc, length_map. apply cartesian_length.
  - apply SweepFacts.sweep_contributions.
  - intros Hnil. unfold best, Optimizer.optimizeStrategy. cbv zeta.
    fold results. rewrite Hnil. simpl. repeat split; reflexivity.
  - intros Hne. unfold best, Optimizer.optimizeStrategy. cbv zeta.
    fold results. fold SweepSpec.byScore.
    destruct (Optimizer.sort SweepSpec.byScore results) as [| first rest] eqn:E.
    + apply SweepFacts.sort_nil_iff in E. contradiction.
    + split.
      * apply (SweepFacts.sort_In SweepSpec.byScore). rewrite E. left.
        reflexivity.
      * intros Hall.
        pose proof (SweepFacts.sort_head_maximal results Hall) as H.
        rewrite E in H. apply H.
Qed.

(** C9 on a sweep of the breakout lookback over 1, 1.5 and 2 by net
    profit: three combinations, the fractional one throws and is left out,
    and the lookback of 2 (no trade, score 0) beats the lookback of 1 (one
    losing trade). *)
Lemma optimizeStrategy_sweeps_product_and_picks_max_witness :
  length (Optimizer.combinationsOf SweepSample.ranges) = 3%nat
  /\ map Optimizer.score
       (Optimizer.sweep SweepSample.runBreakout SweepSample.ranges K_netProfit)
     = [-1; 0]
  /\ SweepSpec.maximal
       (Optimizer.optimizeStrategy SweepSample.runBreakout SweepSample.ranges
          K_netProfit)
       (Optimizer.sweep SweepSample.runBreakout SweepSample.ranges K_netProfit).
Proof.
  destruct (optimizeStrategy_sweeps_product_and_picks_max
              SweepSample.runBreakout SweepSample.ranges K_netProfit)
    as (_ & Hlen & Hres & _ & Hbest).
  - repeat constructor. intros [].
  - split; [exact Hlen | split].
    + rewrite Hres. vm_compute. reflexivity.
    + destruct Hbest as [_ Hmax].
      * rewrite Hres. vm_compute. discriminate.
      * apply Hmax. rewrite Hres. vm_compute.
        repeat constructor.
Defined.

(** C9 as worded fails when a surviving score is NaN.  The sweep of the
    breakout look-back over 1, 2 and 3 on [SweepSample.four_bars], with a
    capital of 100 and annualizedReturn as the metric, has three surviving
    runs: the look-back of 1 loses the whole capital and scores -100, the
    look-back of 2 loses twice the capital and scores NaN (a negative base
    to a fractional power), the look-back of 3 never trades and scores 0.
    Every comparison with the NaN score is NaN, which the sort takes as
    equal: the three entries stay in place and the look-back of 1 is
    returned with its score of -100, below the 0 of the look-back of 3. *)
Lemma optimizeStrategy_returns_a_lower_score :
  let results :=
    Optimizer.sweep SweepSample.runSmallCapital SweepSample.lookbacks
      K_annualizedReturn in
  let best :=
    Optimizer.optimizeStrategy SweepSample.runSmallCapital
      SweepSample.lookbacks K_annualizedReturn in
  map (fun r => SweepSample.number (Optimizer.opt_params r) "lookbackPeriod")
    results
  = [Some 1; Some 2; Some 3]
  /\ map (fun r => netProfit (Optimizer.opt_metrics r)) results
     = [-100; -200; 0]
  /\ map Optimizer.score results = [-100; nan; 0]
  /\ Optimizer.sort SweepSpec.byScore results = results
  /\ nth_error results 0 = Some best
  /\ Optimizer.score best = -100
  /\ (exists s, In s results /\ lt (Optimizer.score best) (Optimizer.score s) = true)
  /\ ~ SweepSpec.maximal best results.
Proof.
  cbv zeta.
  assert (Hscores :
            map Optimizer.score
              (Optimizer.sweep SweepSample.runSmallCapital
                 SweepSample.lookbacks K_annualizedReturn)
            = [-100; nan; 0]) by (vm_compute; reflexivity).
  assert (Hbest :
            Optimizer.score
              (Optimizer.optimizeStrategy SweepSample.runSmallCapital
                 SweepSample.lookbacks K_annualizedReturn)
            = -100) by (vm_compute; reflexivity).
  assert (Hhigher :
            exists s,
              In s (Optimizer.sweep SweepSample.runSmallCapital
                      SweepSample.lookbacks K_annualizedReturn)
              /\ lt (Optimizer.score
                       (Optimizer.optimizeStrategy SweepSample.runSmallCapital
                          SweepSample.lookbacks K_annualizedReturn))
                    (Optimizer.score s) = true).
  { destruct (Optimizer.sweep SweepSample.runSmallCapital
                SweepSample.lookbacks K_annualizedReturn)
      as [| a [| b [| c rest]]] eqn:E; try discriminate Hscores.
    exists c. split; [right; right; left; reflexivity |].
    rewrite Hbest. injection Hscores as _ _ Hc _. rewrite Hc.
    vm_compute. reflexivity. }
  refine (conj _ (conj _ (conj Hscores (conj _ (conj _
            (conj Hbest (conj Hhigher _))))))).
  - vm_compute. reflexivity.
  - vm_compute. reflexivity.
  - vm_compute. reflexivity.
  - vm_compute. reflexivity.
  - intros Hmax. destruct Hhigher as (s & Hin & Hlt).
    pose proof (Hmax s Hin) as Hle. congruence.
Qed.

(* ================================================================= *)
(** * Further properties *)

(** ** Loops that push one value per turn *)

Section PushLoops.
Context {St : Type}.

Lemma for_loop_congr (f g : nat -> St -> St) from to s :
  (forall i s, (from <= i < to)%nat -> f i s = g i s) ->
  for_loop from to f s = for_loop from to g s.
Proof.
  intros H. unfold for_loop.
  assert (Hl : forall l s,
             (forall i, In i l -> (from <= i < to)%nat) ->
             fold_left (fun s i => f i s) l s
             = fold_left (fun s i => g i s) l s).
  { induction l as [| a l IH]; simpl; intros s0 Hin; [reflexivity |].
    rewrite H by (apply Hin; left; reflexivity).
    apply IH. intros i Hi. apply Hin. right. assumption. }
  apply Hl. intros i Hi. apply in_seq in Hi. lia.
Qed.

(** A loop whose every turn adds one to a measure of the state. *)
Lemma for_loop_measure (m : St -> nat) (body : nat -> St -> St) s n :
  (forall i s, m (body i s) = Datatypes.S (m s)) ->
  m (for_loop 0 n body s) = (n + m s)%nat.
Proof.
  intros H. induction n as [| n IH].
  - rewrite for_loop_done by lia. reflexivity.
  - rewrite for_loop_last by lia. rewrite H, IH. reflexivity.
Qed.

(** A field of the state to which turn [i] pushes [f i], whatever the
    state. *)
Lemma for_loop_field {A} (proj : St -> list A) (f : nat -> A)
    (body : nat -> St -> St) s n :
  proj s = [] ->
  (forall i s, proj (body i s) = push (proj s) (f i)) ->
  proj (for_loop 0 n body s) = map f (seq 0 n).
Proof.
  intros H0 H. induction n as [| n IH].
  - rewrite for_loop_done by lia. assumption.
  - rewrite for_loop_last by lia. rewrite H, IH, seq_S, map_app.
    reflexivity.
Qed.

End PushLoops.

Lemma get_map_seq (f : nat -> float) n i :
  (i < n)%nat -> get (map f (seq 0 n)) i = f i.
Proof.
  intros H. unfold get.
  rewrite (nth_indep _ nan (f 0%nat)) by (rewrite length_map, length_seq; lia).
  rewrite map_nth, seq_nth by lia. reflexivity.
Qed.

Lemma push_if {A} (c : bool) (l : list A) (x y : A) :
  (if c then push l x else push l y) = push l (if c then x else y).
Proof. destruct c; reflexivity. Qed.

(** The indicators whose turn [i] pushes a value of the input alone. *)
Module Windows.
Import Indicators.

Lemma calculateSMA_map data period :
  calculateSMA data period
  = map (fun i => if (i <? period - 1)%nat then nan
                  else sum (slice (i + 1 - period) (i + 1) data)
                       / of_nat period)
      (seq 0 (length data)).
Proof.
  unfold calculateSMA.
  apply (for_loop_field (fun l => l)); [reflexivity |].
  intros i s. cbv zeta. apply push_if.
Qed.

Lemma calculateWMA_map data period :
  calculateWMA data period
  = map (fun i =>
           if (i <? period - 1)%nat then nan
           else for_loop 0 period
                  (fun j sum =>
                     sum + get data (i - j) * (of_nat period - of_nat j)) 0
                / ((of_nat period * (of_nat period + 1)) / 2))
      (seq 0 (length data)).
Proof.
  unfold calculateWMA. cbv zeta.
  apply (for_loop_field (fun l => l)); [reflexivity |].
  intros i s. apply push_if.
Qed.

Lemma calculateStdDev_map Math_pow data period :
  calculateStdDev Math_pow data period
  = map (fun i =>
           if (i <? period - 1)%nat then nan
           else
             let slice := slice (i + 1 - period) (i + 1) data in
             let mean := sum slice / of_nat period in
             Math_sqrt
               (fold_left (fun sum val => sum + Math_pow (val - mean) 2)
                  slice 0
                / of_nat period))
      (seq 0 (length data)).
Proof.
  unfold calculateStdDev.
  apply (for_loop_field (fun l => l)); [reflexivity |].
  intros i s. cbv zeta. apply push_if.
Qed.

Lemma calculateROC_map data period :
  calculateROC data period
  = map (fun i =>
           if (i <? period)%nat then nan
           else ((get data i - get data (i - period)) / get data (i - period))
                * 100)
      (seq 0 (length data)).
Proof.
  unfold calculateROC.
  apply (for_loop_field (fun l => l)); [reflexivity |].
  intros i s. apply push_if.
Qed.

Lemma calculateMomentum_map data period :
  calculateMomentum data period
  = map (fun i => if (i <? period)%nat then nan
                  else get data i - get data (i - period))
      (seq 0 (length data)).
Proof.
  unfold calculateMomentum.
  apply (for_loop_field (fun l => l)); [reflexivity |].
  intros i s. apply push_if.
Qed.

Lemma calculateCorrelation_map data1 data2 period :
  calculateCorrelation data1 data2 period
  = map (fun i => if (i <? period - 1)%nat then nan
                  else correlationAt data1 data2 period i)
      (seq 0 (length data1)).
Proof.
  unfold calculateCorrelation.
  apply (for_loop_field (fun l => l)); [reflexivity |].
  intros i s. apply push_if.
Qed.

Lemma detectCrossover_map fast slow :
  detectCrossover fast slow
  = map (fun i =>
           if (i =? 0)%nat || isNaN (get fast i) || isNaN (get slow i)
              || isNaN (get fast (i - 1)) || isNaN (get slow (i - 1))
           then 0
           else if gt (get fast i) (get slow i)
                   && le (get fast (i - 1)) (get slow (i - 1)) then 1
           else if lt (get fast i) (get slow i)
                   && ge (get fast (i - 1)) (get slow (i - 1)) then -1
           else 0)
      (seq 0 (length fast)).
Proof.
  unfold detectCrossover.
  apply (for_loop_field (fun l => l)); [reflexivity |].
  intros i s. cbv zeta. apply push_if.
Qed.

End Windows.

(* ================================================================= *)
(** ** Every indicator is aligned with its input *)

Module Aligned.
Import Indicators.

Lemma calculateEMA_length data period :
  length (calculateEMA data period) = length data.
Proof.
  unfold calculateEMA. cbv zeta.
  rewrite (for_loop_measure (@length float)); [simpl; lia |].
  intros i s. destruct (i =? 0)%nat; [apply push_length |].
  destruct (i <? period - 1)%nat; apply push_length.
Qed.

Lemma rsi_one_per_value data period :
  length (calculateRSI data period) = length data.
Proof.
  unfold calculateRSI, rsiLoop. cbv zeta.
  rewrite (for_loop_measure (fun st => length (rsi_result st))); [simpl; lia |].
  intros i s. unfold rsiStep. cbv zeta.
  destruct (i =? 0)%nat; [apply push_length |].
  destruct (i <? period)%nat; [apply push_length |].
  destruct (i =? period)%nat; apply push_length.
Qed.

Lemma tr_length data period :
  length (tr (calculateATR data period)) = length data.
Proof.
  unfold calculateATR. cbv zeta. simpl tr.
  rewrite (for_loop_measure (@length float)); [simpl; lia |].
  intros i s. destruct (i =? 0)%nat; apply push_length.
Qed.

Lemma atr_length data period :
  length (atr (calculateATR data period)) = length data.
Proof.
  pose proof (tr_length data period) as H.
  unfold calculateATR in *. cbv zeta in *. simpl in *.
  rewrite calculateEMA_length. assumption.
Qed.

Lemma bollinger_lengths Math_pow data period stdDev :
  let bb := calculateBollingerBands Math_pow data period stdDev in
  length (upper bb) = length data /\ length (lower bb) = length data
  /\ length (bandwidth bb) = length data
  /\ length (percentB bb) = length data.
Proof.
  unfold calculateBollingerBands. cbv zeta.
  repeat split.
  - rewrite (for_loop_measure (fun bb => length (upper bb))); [simpl; lia |].
    intros i s. destruct (_ || _); apply push_length.
  - rewrite (for_loop_measure (fun bb => length (lower bb))); [simpl; lia |].
    intros i s. destruct (_ || _); apply push_length.
  - rewrite (for_loop_measure (fun bb => length (bandwidth bb))); [simpl; lia |].
    intros i s. destruct (_ || _); apply push_length.
  - rewrite (for_loop_measure (fun bb => length (percentB bb))); [simpl; lia |].
    intros i s. destruct (_ || _); apply push_length.
Qed.

Lemma bollinger_middle Math_pow data period stdDev :
  middle (calculateBollingerBands Math_pow data period stdDev)
  = calculateSMA data period.
Proof.
  unfold calculateBollingerBands. cbv zeta.
  apply (for_loop_invariant
           (fun bb => middle bb = calculateSMA data period)).
  - reflexivity.
  - intros i s _ _. destruct (_ || _); reflexivity.
Qed.

Lemma macd_lengths data fastPeriod slowPeriod signalPeriod :
  let r := calculateMACD data fastPeriod slowPeriod signalPeriod in
  length (macd r) = length data /\ length (signal r) = length data
  /\ length (histogram r) = length data.
Proof.
  unfold calculateMACD. cbv zeta. simpl.
  assert (H : forall f : nat -> float,
             length (for_loop 0 (length data)
                       (fun i l => push l (f i)) []) = length data).
  { intros f. rewrite (for_loop_measure (@length float)); [simpl; lia |].
    intros; apply push_length. }
  repeat split.
  - apply (H (fun i => _)).
  - rewrite calculateEMA_length. apply (H (fun i => _)).
  - apply (H (fun i => _)).
Qed.

Lemma k_length data kPeriod dPeriod :
  length (k (calculateStochastic data kPeriod dPeriod)) = length data.
Proof.
  unfold calculateStochastic. cbv zeta. simpl k.
  rewrite (for_loop_measure (@length float)); [simpl; lia |].
  intros i s. destruct (i <? kPeriod - 1)%nat; [apply push_length |].
  destruct (JS.eq _ _); apply push_length.
Qed.

Lemma d_length data kPeriod dPeriod :
  length (d (calculateStochastic data kPeriod dPeriod)) = length data.
Proof.
  pose proof (k_length data kPeriod dPeriod) as H.
  unfold calculateStochastic in *. cbv zeta in *. simpl in *.
  rewrite Windows.calculateSMA_map, length_map, length_seq. assumption.
Qed.

Lemma calculateVWAP_length data : length (calculateVWAP data) = length data.
Proof.
  unfold calculateVWAP.
  rewrite (for_loop_measure (fun st => length (vwap_result st)));
    [simpl; lia |].
  intros i s. unfold vwapStep. cbv zeta. simpl vwap_result.
  destruct (negb _); simpl; destruct (gt _ 0); apply push_length.
Qed.

Lemma obv_length data : length (obv (calculateOBV data)) = length data.
Proof.
  unfold calculateOBV. cbv zeta. simpl obv.
  rewrite (for_loop_measure (@length float)); [simpl; lia |].
  intros i s. unfold obvStep.
  destruct (i =? 0)%nat; [apply push_length |].
  destruct (gt _ _); [apply push_length |].
  destruct (lt _ _); apply push_length.
Qed.

Lemma adx_loop_lengths atr sp sm n :
  let di := for_loop 0 n (adxStep atr sp sm)
              {| loop_plusDI := []; loop_minusDI := []; loop_dx := [] |} in
  length (loop_plusDI di) = n /\ length (loop_minusDI di) = n
  /\ length (loop_dx di) = n.
Proof.
  cbv zeta. repeat split.
  - rewrite (for_loop_measure (fun st => length (loop_plusDI st)));
      [simpl; lia |].
    intros i s. unfold adxStep. destruct (_ || _); apply push_length.
  - rewrite (for_loop_measure (fun st => length (loop_minusDI st)));
      [simpl; lia |].
    intros i s. unfold adxStep. destruct (_ || _); apply push_length.
  - rewrite (for_loop_measure (fun st => length (loop_dx st)));
      [simpl; lia |].
    intros i s. unfold adxStep. destruct (_ || _); apply push_length.
Qed.

Lemma ichimoku_lengths data n :
  let r := for_loop 0 n (ichimokuStep data)
             {| tenkanSen := []; kijunSen := []; senkouSpanA := [];
                senkouSpanB := []; chikouSpan := [] |} in
  length (tenkanSen r) = n /\ length (kijunSen r) = n
  /\ length (senkouSpanA r) = n /\ length (senkouSpanB r) = n
  /\ length (chikouSpan r) = n.
Proof.
  cbv zeta. repeat split.
  - rewrite (for_loop_measure (fun st => length (tenkanSen st)));
      [simpl; lia |].
    intros i s. unfold ichimokuStep. cbv zeta. simpl tenkanSen.
    destruct (i <? 8)%nat; apply push_length.
  - rewrite (for_loop_measure (fun st => length (kijunSen st)));
      [simpl; lia |].
    intros i s. unfold ichimokuStep. cbv zeta. simpl kijunSen.
    destruct (i <? 25)%nat; apply push_length.
  - rewrite (for_loop_measure (fun st => length (senkouSpanA st)));
      [simpl; lia |].
    intros i s. unfold ichimokuStep. cbv zeta. simpl senkouSpanA.
    destruct (_ || _); apply push_length.
  - rewrite (for_loop_measure (fun st => length (senkouSpanB st)));
      [simpl; lia |].
    intros i s. unfold ichimokuStep. cbv zeta. simpl senkouSpanB.
    destruct (i <? 51)%nat; apply push_length.
  - rewrite (for_loop_measure (fun st => length (chikouSpan st)));
      [simpl; lia |].
    intros i s. unfold ichimokuStep. cbv zeta. simpl chikouSpan.
    apply push_length.
Qed.

Lemma pivot_lengths data n :
  let r := for_loop 0 n (pivotStep data)
             {| pivot := []; r1 := []; r2 := []; r3 := [];
                s1 := []; s2 := []; s3 := [] |} in
  length (pivot r) = n /\ length (r1 r) = n /\ length (r2 r) = n
  /\ length (r3 r) = n /\ length (s1 r) = n /\ length (s2 r) = n
  /\ length (s3 r) = n.
Proof.
  cbv zeta.
  repeat split;
    match goal with
    | |- length (?p _) = _ =>
        rewrite (for_loop_measure (fun st => length (p st))); [simpl; lia |];
        intros i s; unfold pivotStep; destruct (i =? 0)%nat; apply push_length
    end.
Qed.

End Aligned.

(** X1: every indicator computed from a series of numbers returns one
    value per input value: the moving averages, the standard deviation,
    the Bollinger bands, RSI, MACD, ROC, momentum and the correlation;
    [detectCrossover] returns one value per value of [fast]. *)
Theorem number_series_indicators_aligned :
  forall (Math_pow : float -> float -> float) (data data2 : list float)
         (period fastPeriod slowPeriod signalPeriod : nat) (stdDev : float),
    length (Indicators.calculateSMA data period) = length data
    /\ length (Indicators.calculateEMA data period) = length data
    /\ length (Indicators.calculateWMA data period) = length data
    /\ length (Indicators.calculateStdDev Math_pow data period) = length data
    /\ (let bb := Indicators.calculateBollingerBands Math_pow data period
                    stdDev in
        length (Indicators.upper bb) = length data
        /\ length (Indicators.middle bb) = length data
        /\ length (Indicators.lower bb) = length data
        /\ length (Indicators.bandwidth bb) = length data
        /\ length (Indicators.percentB bb) = length data)
    /\ length (Indicators.calculateRSI data period) = length data
    /\ (let r := Indicators.calculateMACD data fastPeriod slowPeriod
                   signalPeriod in
        length (Indicators.macd r) = length data
        /\ length (Indicators.signal r) = length data
        /\ length (Indicators.histogram r) = length data)
    /\ length (Indicators.calculateROC data period) = length data
    /\ length (Indicators.calculateMomentum data period) = length data
    /\ length (Indicators.detectCrossover data data2) = length data
    /\ length (Indicators.calculateCorrelation data data2 period)
       = length data.
Proof.
  intros Math_pow data data2 period fastPeriod slowPeriod signalPeriod stdDev.
  assert (Hsma : length (Indicators.calculateSMA data period) = length data)
    by (rewrite Windows.calculateSMA_map, length_map, length_seq; reflexivity).
  split; [exact Hsma |].
  split; [apply Aligned.calculateEMA_length |].
  split; [rewrite Windows.calculateWMA_map, length_map, length_seq;
          reflexivity |].
  split; [rewrite Windows.calculateStdDev_map, length_map, length_seq;
          reflexivity |].
  split.
  { cbv zeta.
    destruct (Aligned.bollinger_lengths Math_pow data period stdDev)
      as (Hu & Hl & Hb & Hp).
    rewrite Aligned.bollinger_middle. auto. }
  split; [apply Aligned.rsi_one_per_value |].
  split; [apply Aligned.macd_lengths |].
  split; [rewrite Windows.calculateROC_map, length_map, length_seq;
          reflexivity |].
  split; [rewrite Windows.calculateMomentum_map, length_map, length_seq;
          reflexivity |].
  split; [rewrite Windows.detectCrossover_map, length_map, length_seq;
          reflexivity |].
  rewrite Windows.calculateCorrelation_map, length_map, length_seq.
  reflexivity.
Qed.

(** X2: every indicator computed from a series of bars returns one value
    per bar in each of its arrays: ATR and the true range, the stochastic
    %K and %D, VWAP, OBV and its average, the volume RSI, ADX with both
    directional indices, the five Ichimoku lines and the seven pivot
    levels. *)
Theorem bar_indicators_aligned :
  forall (data : list OHLCV) (period kPeriod dPeriod : nat),
    (let r := Indicators.calculateATR data period in
     length (Indicators.atr r) = length data
     /\ length (Indicators.tr r) = length data)
    /\ (let r := Indicators.calculateStochastic data kPeriod dPeriod in
        length (Indicators.k r) = length data
        /\ length (Indicators.d r) = length data)
    /\ length (Indicators.calculateVWAP data) = length data
    /\ (let r := Indicators.calculateOBV data in
        length (Indicators.obv r) = length data
        /\ length (Indicators.obvEMA r) = length data)
    /\ length (Indicators.calculateVolumeRSI data period) = length data
    /\ (let r := Indicators.calculateADX data period in
        length (Indicators.adx r) = length data
        /\ length (Indicators.plusDI r) = length data
        /\ length (Indicators.minusDI r) = length data)
    /\ (let r := Indicators.calculateIchimoku data in
        length (Indicators.tenkanSen r) = length data
        /\ length (Indicators.kijunSen r) = length data
        /\ length (Indicators.senkouSpanA r) = length data
        /\ length (Indicators.senkouSpanB r) = length data
        /\ length (Indicators.chikouSpan r) = length data)
    /\ (let r := Indicators.calculatePivotPoints data in
        length (Indicators.pivot r) = length data
        /\ length (Indicators.r1 r) = length data
        /\ length (Indicators.r2 r) = length data
        /\ length (Indicators.r3 r) = length data
        /\ length (Indicators.s1 r) = length data
        /\ length (Indicators.s2 r) = length data
        /\ length (Indicators.s3 r) = length data).
Proof.
  intros data period kPeriod dPeriod.
  split; [split; [apply Aligned.atr_length | apply Aligned.tr_length] |].
  split; [split; [apply Aligned.k_length | apply Aligned.d_length] |].
  split; [apply Aligned.calculateVWAP_length |].
  split.
  { cbv zeta. pose proof (Aligned.obv_length data) as H.
    unfold Indicators.calculateOBV in *. cbv zeta in *. simpl in *.
    rewrite Aligned.calculateEMA_length. auto. }
  split.
  { unfold Indicators.calculateVolumeRSI. cbv zeta.
    rewrite Aligned.rsi_one_per_value. apply length_map. }
  split.
  { cbv zeta. unfold Indicators.calculateADX. cbv zeta. simpl.
    match goal with
    | |- context [for_loop 0 (length data) (Indicators.adxStep ?a ?p ?m) _] =>
        destruct (Aligned.adx_loop_lengths a p m (length data))
          as (H1 & H2 & H3)
    end.
    rewrite Aligned.calculateEMA_length. auto. }
  split; [apply Aligned.ichimoku_lengths | apply Aligned.pivot_lengths].
Qed.

(* ================================================================= *)
(** ** Windows, warm-up and the degenerate period *)

Module WindowFacts.
Import Indicators.

Lemma slice_length {A} (l : list A) from to :
  (to <= length l)%nat -> length (slice from to l) = (to - from)%nat.
Proof.
  intros H. unfold slice. rewrite length_firstn, length_skipn. lia.
Qed.

Lemma slice_get (l : list float) from to j :
  (j < to - from)%nat -> get (slice from to l) j = get l (from + j).
Proof.
  intros H. unfold get, slice.
  rewrite nth_firstn.
  destruct (Nat.ltb_spec j (to - from)); [| lia].
  apply nth_skipn.
Qed.

Lemma slice_empty {A} (l : list A) n : slice n n l = [].
Proof. unfold slice. rewrite Nat.sub_diag. reflexivity. Qed.

Lemma bollinger_fields Math_pow data period stdDev :
  let bb := calculateBollingerBands Math_pow data period stdDev in
  let m := get (calculateSMA data period) in
  let sd := get (calculateStdDev Math_pow data period) in
  let blank i := isNaN (m i) || isNaN (sd i) in
  let up i := m i + stdDev * sd i in
  let low i := m i - stdDev * sd i in
  upper bb = map (fun i => if blank i then nan else up i) (seq 0 (length data))
  /\ lower bb
     = map (fun i => if blank i then nan else low i) (seq 0 (length data))
  /\ bandwidth bb
     = map (fun i => if blank i then nan else (up i - low i) / m i)
         (seq 0 (length data))
  /\ percentB bb
     = map (fun i => if blank i then nan
                     else (get data i - low i) / (up i - low i))
         (seq 0 (length data)).
Proof.
  unfold calculateBollingerBands. cbv zeta.
  repeat split.
  - apply (for_loop_field (fun bb => upper bb)); [reflexivity |].
    intros i s. destruct (_ || _); reflexivity.
  - apply (for_loop_field (fun bb => lower bb)); [reflexivity |].
    intros i s. destruct (_ || _); reflexivity.
  - apply (for_loop_field (fun bb => bandwidth bb)); [reflexivity |].
    intros i s. destruct (_ || _); reflexivity.
  - apply (for_loop_field (fun bb => percentB bb)); [reflexivity |].
    intros i s. destruct (_ || _); reflexivity.
Qed.

End WindowFacts.

(** X3: at an index [i] of the input, [calculateSMA], [calculateWMA] and
    [calculateStdDev] return NaN while [i < period - 1]; from
    [i = period - 1] on they return the mean, the linearly weighted mean
    (weight [period] on the newest value) and the population standard
    deviation of the window [data.slice(i - period + 1, i + 1)], which for
    a period of at least 1 holds exactly the last [period] values up to
    [data[i]].  [calculateROC] and [calculateMomentum] lag by one more
    value: they return NaN while [i < period]; from [i = period] on,
    momentum is [data[i] - data[i - period]] and ROC is that difference
    relative to [data[i - period]], in percent. *)
Theorem moving_windows_warmup_and_value :
  forall (Math_pow : float -> float -> float) (data : list float)
         (period i : nat),
    (i < length data)%nat ->
    let window := slice (i + 1 - period) (i + 1) data in
    ((i < period - 1)%nat ->
     get (Indicators.calculateSMA data period) i = nan
     /\ get (Indicators.calculateWMA data period) i = nan
     /\ get (Indicators.calculateStdDev Math_pow data period) i = nan)
    /\ ((period - 1 <= i)%nat ->
        get (Indicators.calculateSMA data period) i
        = sum window / of_nat period
        /\ get (Indicators.calculateWMA data period) i
           = for_loop 0 period
               (fun j sum =>
                  sum + get data (i - j) * (of_nat period - of_nat j)) 0
             / ((of_nat period * (of_nat period + 1)) / 2)
        /\ get (Indicators.calculateStdDev Math_pow data period) i
           = Math_sqrt
               (fold_left
                  (fun acc val =>
                     acc + Math_pow (val - sum window / of_nat period) 2)
                  window 0
                / of_nat period))
    /\ ((1 <= period)%nat -> (period - 1 <= i)%nat ->
        length window = period
        /\ forall j, (j < period)%nat ->
                     get window j = get data (i + 1 - period + j))
    /\ ((i < period)%nat ->
        get (Indicators.calculateROC data period) i = nan
        /\ get (Indicators.calculateMomentum data period) i = nan)
    /\ ((period <= i)%nat ->
        get (Indicators.calculateMomentum data period) i
        = get data i - get data (i - period)
        /\ get (Indicators.calculateROC data period) i
           = (get (Indicators.calculateMomentum data period) i
              / get data (i - period)) * 100).
Proof.
  intros Math_pow data period i Hi window.
  rewrite Windows.calculateSMA_map, Windows.calculateWMA_map,
    Windows.calculateStdDev_map, Windows.calculateROC_map,
    Windows.calculateMomentum_map.
  rewrite !get_map_seq by assumption. cbv zeta.
  split; [| split; [| split; [| split]]].
  - intros Hlt. apply Nat.ltb_lt in Hlt. rewrite Hlt. auto.
  - intros Hge. apply Nat.ltb_ge in Hge. rewrite Hge. auto.
  - intros Hp Hge. split.
    + unfold window. rewrite WindowFacts.slice_length by lia. lia.
    + intros j Hj. unfold window. apply WindowFacts.slice_get. lia.
  - intros Hlt. apply Nat.ltb_lt in Hlt. rewrite Hlt. auto.
  - intros Hge. apply Nat.ltb_ge in Hge. rewrite Hge. auto.
Qed.

(** X3 on the series 1, 2, 3, 4 with period 2 at index 2. *)
Lemma moving_windows_warmup_and_value_witness :
  get (Indicators.calculateSMA [1; 2; 3; 4] 2) 2 = 2.5
  /\ slice 1 3 [1; 2; 3; 4] = [2; 3]
  /\ get (Indicators.calculateMomentum [1; 2; 3; 4] 2) 2 = 2.
Proof.
  destruct (moving_windows_warmup_and_value Samples.pow [1; 2; 3; 4] 2 2)
    as (_ & Hval & _ & _ & Hlag).
  - simpl. lia.
  - destruct Hval as (Hsma & _); [simpl; lia |].
    destruct Hlag as (Hmom & _); [lia |].
    split; [rewrite Hsma; reflexivity |].
    split; [reflexivity | rewrite Hmom; reflexivity].
Defined.

(** X4: with a period of 0 nothing throws and nothing is skipped: the
    window is empty, so [calculateSMA], [calculateWMA] and
    [calculateStdDev] return NaN (0/0) at every index, while
    [calculateCorrelation] returns 0 at every index. *)
Theorem period_zero_windows :
  forall (Math_pow : float -> float -> float) (data data2 : list float)
         (i : nat),
    (i < length data)%nat ->
    get (Indicators.calculateSMA data 0) i = nan
    /\ get (Indicators.calculateWMA data 0) i = nan
    /\ get (Indicators.calculateStdDev Math_pow data 0) i = nan
    /\ get (Indicators.calculateCorrelation data data2 0) i = 0.
Proof.
  intros Math_pow data data2 i Hi.
  rewrite Windows.calculateSMA_map, Windows.calculateWMA_map,
    Windows.calculateStdDev_map, Windows.calculateCorrelation_map.
  rewrite !get_map_seq by assumption. cbv zeta.
  unfold Indicators.correlationAt.
  replace (i + 1 - 0)%nat with (i + 1)%nat by lia.
  rewrite !WindowFacts.slice_empty.
  repeat split; reflexivity.
Qed.

(** X4 on a series of two values. *)
Lemma period_zero_windows_witness :
  Indicators.calculateSMA [1; 2] 0 = [nan; nan]
  /\ get (Indicators.calculateCorrelation [1; 2] [3; 4] 0) 1 = 0.
Proof.
  destruct (period_zero_windows Samples.pow [1; 2] [3; 4] 1) as (_ & _ & _ & H).
  - simpl. lia.
  - split; [reflexivity | exact H].
Defined.

(** X6: the middle Bollinger band is the SMA; at an index where the SMA or
    the standard deviation is NaN (in particular during the warm-up,
    [i < period - 1]) the other four arrays hold NaN, and elsewhere
    upper = middle + k * sd, lower = middle - k * sd,
    bandwidth = (upper - lower) / middle and
    %B = (price - lower) / (upper - lower). *)
Theorem bollinger_bands_pointwise :
  forall (Math_pow : float -> float -> float) (data : list float)
         (period : nat) (stdDev : float) (i : nat),
    (i < length data)%nat ->
    let bb := Indicators.calculateBollingerBands Math_pow data period stdDev in
    let m := get (Indicators.calculateSMA data period) i in
    let sd := get (Indicators.calculateStdDev Math_pow data period) i in
    Indicators.middle bb = Indicators.calculateSMA data period
    /\ ((i < period - 1)%nat -> isNaN m = true)
    /\ (isNaN m || isNaN sd = true ->
        get (Indicators.upper bb) i = nan
        /\ get (Indicators.lower bb) i = nan
        /\ get (Indicators.bandwidth bb) i = nan
        /\ get (Indicators.percentB bb) i = nan)
    /\ (isNaN m || isNaN sd = false ->
        get (Indicators.upper bb) i = m + stdDev * sd
        /\ get (Indicators.lower bb) i = m - stdDev * sd
        /\ get (Indicators.bandwidth bb) i
           = (get (Indicators.upper bb) i - get (Indicators.lower bb) i) / m
        /\ get (Indicators.percentB bb) i
           = (get data i - get (Indicators.lower bb) i)
             / (get (Indicators.upper bb) i - get (Indicators.lower bb) i)).
Proof.
  intros Math_pow data period stdDev i Hi bb m sd.
  destruct (WindowFacts.bollinger_fields Math_pow data period stdDev)
    as (Hu & Hl & Hb & Hp).
  fold bb in Hu, Hl, Hb, Hp. rewrite Hu, Hl, Hb, Hp.
  rewrite !get_map_seq by assumption. fold m sd.
  split; [apply Aligned.bollinger_middle |].
  split; [| split].
  - intros Hlt. unfold m. rewrite Windows.calculateSMA_map.
    rewrite get_map_seq by assumption.
    apply Nat.ltb_lt in Hlt. rewrite Hlt. reflexivity.
  - intros ->. auto.
  - intros ->. auto.
Qed.

(** X6 on the series 1, 2, 3 with period 2 and two deviations. *)
Lemma bollinger_bands_pointwise_witness :
  get (Indicators.upper
         (Indicators.calculateBollingerBands Samples.pow [1; 2; 3] 2 2)) 1
  = 2.5
  /\ get (Indicators.lower
            (Indicators.calculateBollingerBands Samples.pow [1; 2; 3] 2 2)) 0
     = nan.
Proof.
  destruct (bollinger_bands_pointwise Samples.pow [1; 2; 3] 2 2 1)
    as (_ & _ & _ & H1); [simpl; lia |].
  destruct (bollinger_bands_pointwise Samples.pow [1; 2; 3] 2 2 0)
    as (_ & _ & H0 & _); [simpl; lia |].
  destruct H1 as (Hu & _); [reflexivity |].
  destruct H0 as (_ & Hl & _); [reflexivity |].
  split; [rewrite Hu; reflexivity | exact Hl].
Defined.

(* ================================================================= *)
(** ** More binary64 facts: NaN, zero and the order *)

Module FloatFacts.
Import Binary64Val Binary64.

Lemma nan_is_nan : PrimFloat.is_nan nan = true.
Proof. reflexivity. Qed.

Lemma add_nan_l a b :
  PrimFloat.is_nan a = true -> PrimFloat.is_nan (a + b) = true.
Proof.
  intros H. apply is_nan_spec in H. apply is_nan_spec.
  rewrite add_spec, H. reflexivity.
Qed.

Lemma add_nan_r a b :
  PrimFloat.is_nan b = true -> PrimFloat.is_nan (a + b) = true.
Proof.
  intros H. apply is_nan_spec in H. apply is_nan_spec.
  rewrite add_spec, H. destruct (Prim2SF a); reflexivity.
Qed.

Lemma sub_nan_l a b :
  PrimFloat.is_nan a = true -> PrimFloat.is_nan (a - b) = true.
Proof.
  intros H. apply is_nan_spec in H. apply is_nan_spec.
  rewrite sub_spec, H. reflexivity.
Qed.

Lemma sub_nan_r a b :
  PrimFloat.is_nan b = true -> PrimFloat.is_nan (a - b) = true.
Proof.
  intros H. apply is_nan_spec in H. apply is_nan_spec.
  rewrite sub_spec, H. destruct (Prim2SF a); reflexivity.
Qed.

Lemma mul_nan_l a b :
  PrimFloat.is_nan a = true -> PrimFloat.is_nan (a * b) = true.
Proof.
  intros H. apply is_nan_spec in H. apply is_nan_spec.
  rewrite mul_spec, H. reflexivity.
Qed.

Lemma div_nan_l a b :
  PrimFloat.is_nan a = true -> PrimFloat.is_nan (a / b) = true.
Proof.
  intros H. apply is_nan_spec in H. apply is_nan_spec.
  rewrite div_spec, H. reflexivity.
Qed.

(** A sum that meets a NaN is NaN. *)
Lemma fold_add_nan l : forall acc,
  PrimFloat.is_nan acc = true ->
  PrimFloat.is_nan (fold_left add l acc) = true.
Proof.
  induction l as [| x l IH]; intros acc H; simpl; [assumption |].
  apply IH. apply add_nan_l. assumption.
Qed.

Lemma sum_nan l :
  Exists (fun x => PrimFloat.is_nan x = true) l ->
  PrimFloat.is_nan (sum l) = true.
Proof.
  unfold sum. generalize 0. induction l as [| x l IH]; intros acc H.
  - inversion H.
  - simpl. inversion H as [? ? Hx | ? ? Hl]; subst.
    + apply fold_add_nan. apply add_nan_r. assumption.
    + apply IH. assumption.
Qed.

Lemma nan_unique a : PrimFloat.is_nan a = true -> a = nan.
Proof.
  intros H. apply is_nan_spec in H.
  rewrite <- (SF2Prim_Prim2SF a), H. reflexivity.
Qed.

(** A number equal to zero is one of the two zeros. *)
Lemma eqb_zero_cases v : (v =? 0) = true -> v = 0 \/ v = (-0)%float.
Proof.
  intros H. rewrite eqb_spec in H.
  assert (Hz : exists s, Prim2SF v = S754_zero s).
  { change (Prim2SF 0) with (S754_zero false) in H.
    destruct (Prim2SF v) as [s | s | | s m e]; try discriminate H.
    - exists s. reflexivity.
    - destruct s; discriminate H.
    - destruct s; discriminate H. }
  destruct Hz as [s Hs].
  rewrite <- (SF2Prim_Prim2SF v), Hs.
  destruct s; [right | left]; reflexivity.
Qed.

Lemma ltb_irrefl a : (a <? a) = false.
Proof.
  destruct (PrimFloat.is_nan a) eqn:E.
  - destruct (a <? a) eqn:F; [| reflexivity].
    apply ltb_true_not_nan in F. destruct F as [F _]. congruence.
  - rewrite ltb_val by assumption. apply Z.ltb_irrefl.
Qed.

Lemma leb_refl a : PrimFloat.is_nan a = false -> (a <=? a) = true.
Proof. intros H. rewrite leb_val by assumption. apply Z.leb_refl. Qed.

Lemma eqb_refl a : PrimFloat.is_nan a = false -> (a =? a) = true.
Proof. intros H. rewrite eqb_val by assumption. apply Z.eqb_refl. Qed.

Lemma ltb_leb_false a b : (a <? b) = true -> (b <=? a) = false.
Proof.
  intros H. destruct (ltb_true_not_nan _ _ H) as [Ha Hb].
  rewrite ltb_val in H by assumption. rewrite leb_val by assumption.
  apply Z.ltb_lt in H. apply Z.leb_gt. assumption.
Qed.

Lemma ltb_leb a b : (a <? b) = true -> (a <=? b) = true.
Proof.
  intros H. destruct (ltb_true_not_nan _ _ H) as [Ha Hb].
  rewrite ltb_val in H by assumption. rewrite leb_val by assumption.
  apply Z.ltb_lt in H. apply Z.leb_le. lia.
Qed.

Lemma not_ltb_leb a b :
  PrimFloat.is_nan a = false -> PrimFloat.is_nan b = false ->
  (a <? b) = false -> (b <=? a) = true.
Proof.
  intros Ha Hb H. rewrite ltb_val in H by assumption.
  rewrite leb_val by assumption.
  apply Z.ltb_ge in H. apply Z.leb_le. assumption.
Qed.

Lemma leb_trans a b c :
  (a <=? b) = true -> (b <=? c) = true -> (a <=? c) = true.
Proof.
  intros H1 H2.
  destruct (leb_true_not_nan _ _ H1) as [Ha Hb].
  destruct (leb_true_not_nan _ _ H2) as [_ Hc].
  rewrite leb_val in * by assumption.
  apply Z.leb_le in H1, H2. apply Z.leb_le. lia.
Qed.

Lemma finite_not_nan c :
  PrimFloat.is_finite c = true -> PrimFloat.is_nan c = false.
Proof.
  intros H. apply not_nan_spec.
  destruct (is_finite_spec c H) as [[s Hs] | (s & m & e & Hs)];
    rewrite Hs; discriminate.
Qed.

Lemma finite_val c :
  PrimFloat.is_finite c = true -> (- 2 ^ 2100 < val c < 2 ^ 2100)%Z.
Proof.
  intros H. unfold val.
  assert (Hpow : (0 < 2 ^ 2100)%Z) by (apply Z.pow_pos_nonneg; lia).
  destruct (is_finite_spec c H) as [[s Hs] | (s & m & e & Hs)].
  - rewrite Hs. simpl. lia.
  - pose proof (Prim2SF_valid c) as Hv. rewrite Hs in *.
    simpl in Hv. pose proof (finite_val_bounds m e Hv) as Hb.
    unfold SFval. destruct s; unfold cond_Zopp; lia.
Qed.

Lemma finite_between c :
  PrimFloat.is_finite c = true ->
  (neg_infinity <? c) = true /\ (c <? infinity) = true.
Proof.
  intros H. pose proof (finite_not_nan c H) as Hn.
  pose proof (finite_val c H) as Hv.
  rewrite !ltb_val by (assumption || reflexivity).
  change (val neg_infinity) with (- 2 ^ 2100)%Z.
  change (val infinity) with (2 ^ 2100)%Z.
  split; apply Z.ltb_lt; lia.
Qed.

Lemma abs_nonneg x :
  PrimFloat.is_nan (abs x) = false -> (0 <=? abs x) = true.
Proof.
  intros H. rewrite leb_val by (assumption || reflexivity).
  apply Z.leb_le. change (val 0) with 0%Z.
  unfold val. rewrite abs_spec.
  assert (Hpow : (0 < 2 ^ 2100)%Z) by (apply Z.pow_pos_nonneg; lia).
  destruct (Prim2SF x) as [s | s | | s m e];
    unfold SFabs, SFval, cond_Zopp; lia.
Qed.

End FloatFacts.

(* ================================================================= *)
(** ** Loops whose turn reads the values pushed before *)

Section SelfLoops.
Variable v : nat -> list float -> float.

Lemma selfloop_length n :
  length (for_loop 0 n (fun i l => push l (v i l)) []) = n.
Proof.
  rewrite (for_loop_measure (@length float)); [simpl; lia |].
  intros; apply push_length.
Qed.

Lemma selfloop_stable n m j :
  (j < m)%nat -> (m <= n)%nat ->
  get (for_loop 0 n (fun i l => push l (v i l)) []) j
  = get (for_loop 0 m (fun i l => push l (v i l)) []) j.
Proof.
  intros Hj Hm. induction n as [| n IH]; [lia |].
  destruct (Nat.eq_dec m (Datatypes.S n)) as [-> | Hne]; [reflexivity |].
  rewrite for_loop_last by lia.
  rewrite get_push_lt by (rewrite selfloop_length; lia).
  apply IH. lia.
Qed.

Lemma selfloop_get n i :
  (i < n)%nat ->
  get (for_loop 0 n (fun i l => push l (v i l)) []) i
  = v i (for_loop 0 i (fun i l => push l (v i l)) []).
Proof.
  intros Hi.
  rewrite (selfloop_stable n (Datatypes.S i) i) by lia.
  rewrite for_loop_last by lia.
  pose proof (get_push_eq (for_loop 0 i (fun i l => push l (v i l)) [])) as H.
  rewrite selfloop_length in H. apply H.
Qed.

End SelfLoops.

(** ** A NaN in the input of the EMA poisons the rest of its output *)

Module EMASticky.
Import Indicators FloatFacts.

(** What turn [i] of [calculateEMA] pushes, given the values so far. *)
Lemma calculateEMA_selfloop data period :
  calculateEMA data period
  = for_loop 0 (length data)
      (fun i l =>
         push l
           (if (i =? 0)%nat then get data 0
            else if (i <? period - 1)%nat
                 then sum (slice 0 (i + 1) data) / of_nat (i + 1)
                 else (get data i - get l (i - 1)) * (2 / (of_nat period + 1))
                      + get l (i - 1)))
      [].
Proof.
  unfold calculateEMA. cbv zeta.
  apply for_loop_congr. intros i s _.
  destruct (i =? 0)%nat; [reflexivity |].
  destruct (i <? period - 1)%nat; reflexivity.
Qed.

Lemma calculateEMA_head data period :
  (0 < length data)%nat -> get (calculateEMA data period) 0 = get data 0.
Proof.
  intros H. rewrite calculateEMA_selfloop.
  rewrite selfloop_get by assumption. reflexivity.
Qed.

Lemma prefix_has_nan data j n :
  (j <= n)%nat -> (n < length data)%nat ->
  PrimFloat.is_nan (get data j) = true ->
  Exists (fun x => PrimFloat.is_nan x = true) (slice 0 (n + 1) data).
Proof.
  intros Hj Hn Hnan. apply Exists_exists.
  exists (get (slice 0 (n + 1) data) j). split.
  - unfold get. apply nth_In.
    rewrite WindowFacts.slice_length by lia. lia.
  - rewrite WindowFacts.slice_get by lia. assumption.
Qed.

Lemma sticky data period j :
  PrimFloat.is_nan (get data j) = true ->
  forall n i, (n <= length data)%nat -> (j <= i)%nat -> (i < n)%nat ->
    PrimFloat.is_nan
      (get (for_loop 0 n
              (fun i l =>
                 push l
                   (if (i =? 0)%nat then get data 0
                    else if (i <? period - 1)%nat
                         then sum (slice 0 (i + 1) data) / of_nat (i + 1)
                         else (get data i - get l (i - 1))
                              * (2 / (of_nat period + 1))
                              + get l (i - 1)))
              []) i) = true.
Proof.
  intros Hnan n. induction n as [| n IH]; intros i Hn Hj Hi; [lia |].
  rewrite for_loop_last by lia.
  destruct (Nat.eq_dec i n) as [-> | Hne].
  - match goal with
    | |- context [push ?l ?x] =>
        pose proof (get_push_eq l x) as E;
        rewrite selfloop_length in E; rewrite E; clear E
    end.
    destruct (Nat.eqb_spec n 0) as [-> | Hn0].
    + replace j with 0%nat in Hnan by lia. assumption.
    + destruct (n <? period - 1)%nat.
      * apply div_nan_l, sum_nan. apply (prefix_has_nan data j n); [lia | lia |].
        assumption.
      * destruct (Nat.eq_dec j n) as [-> | Hjn].
        -- apply add_nan_l, mul_nan_l, sub_nan_l. assumption.
        -- apply add_nan_r. apply IH; lia.
  - rewrite get_push_lt by (rewrite selfloop_length; lia).
    apply IH; lia.
Qed.

Lemma calculateEMA_sticky data period j i :
  (j <= i)%nat -> (i < length data)%nat ->
  PrimFloat.is_nan (get data j) = true ->
  PrimFloat.is_nan (get (calculateEMA data period) i) = true.
Proof.
  intros Hj Hi Hnan. rewrite calculateEMA_selfloop.
  apply (sticky data period j Hnan); [lia | assumption | assumption].
Qed.

End EMASticky.

(** X7: [calculateEMA] never recovers from a NaN: if [data[j]] is NaN,
    every value of the result from index [j] on is NaN, whatever the
    period. *)
Theorem calculateEMA_nan_is_sticky :
  forall (data : list float) (period j i : nat),
    (j <= i)%nat -> (i < length data)%nat ->
    isNaN (get data j) = true ->
    isNaN (get (Indicators.calculateEMA data period) i) = true.
Proof.
  intros data period j i Hj Hi Hnan.
  apply (EMASticky.calculateEMA_sticky data period j i); assumption.
Qed.

(** X7 on a series of four values whose second is NaN, with period 3. *)
Lemma calculateEMA_nan_is_sticky_witness :
  isNaN (get (Indicators.calculateEMA [1; nan; 3; 4] 3) 3) = true.
Proof.
  apply (calculateEMA_nan_is_sticky [1; nan; 3; 4] 3 1 3);
    [lia | simpl; lia | reflexivity].
Defined.

(** ** The ADX line *)

Module ADXFacts.
Import Indicators IndicatorSpec FloatFacts.

Lemma plusDM_map data :
  fst (directionalMoves data)
  = map (fun i =>
           if (i =? 0)%nat then 0
           else
             let upMove := high (bar data i) - high (bar data (i - 1)) in
             let downMove := low (bar data (i - 1)) - low (bar data i) in
             if gt upMove downMove && gt upMove 0 then upMove else 0)
      (seq 0 (length data)).
Proof.
  unfold directionalMoves.
  apply (for_loop_field (fun dm => fst dm)); [reflexivity |].
  intros i s. destruct (i =? 0)%nat; reflexivity.
Qed.

Lemma minusDM_map data :
  snd (directionalMoves data)
  = map (fun i =>
           if (i =? 0)%nat then 0
           else
             let upMove := high (bar data i) - high (bar data (i - 1)) in
             let downMove := low (bar data (i - 1)) - low (bar data i) in
             if gt downMove upMove && gt downMove 0 then downMove else 0)
      (seq 0 (length data)).
Proof.
  unfold directionalMoves.
  apply (for_loop_field (fun dm => snd dm)); [reflexivity |].
  intros i s. destruct (i =? 0)%nat; reflexivity.
Qed.

Lemma dx_map atr sp sm n :
  loop_dx (for_loop 0 n (adxStep atr sp sm)
             {| loop_plusDI := []; loop_minusDI := []; loop_dx := [] |})
  = map (dxAt atr sp sm) (seq 0 n).
Proof.
  apply (for_loop_field (fun st => loop_dx st)); [reflexivity |].
  intros i s. unfold adxStep, dxAt. destruct (_ || _); reflexivity.
Qed.

Lemma plusDI_map atr sp sm n :
  loop_plusDI (for_loop 0 n (adxStep atr sp sm)
                 {| loop_plusDI := []; loop_minusDI := []; loop_dx := [] |})
  = map (fun i => if isNaN (get atr i) || JS.eq (get atr i) 0 then nan
                  else 100 * get sp i / get atr i)
      (seq 0 n).
Proof.
  apply (for_loop_field (fun st => loop_plusDI st)); [reflexivity |].
  intros i s. unfold adxStep. destruct (_ || _); reflexivity.
Qed.

Lemma minusDI_map atr sp sm n :
  loop_minusDI (for_loop 0 n (adxStep atr sp sm)
                  {| loop_plusDI := []; loop_minusDI := []; loop_dx := [] |})
  = map (fun i => if isNaN (get atr i) || JS.eq (get atr i) 0 then nan
                  else 100 * get sm i / get atr i)
      (seq 0 n).
Proof.
  apply (for_loop_field (fun st => loop_minusDI st)); [reflexivity |].
  intros i s. unfold adxStep. destruct (_ || _); reflexivity.
Qed.

(** Zero over a number that is neither NaN nor zero is a zero. *)
Lemma zero_div a :
  PrimFloat.is_nan a = false -> (a =? 0) = false ->
  0 / a = 0 \/ 0 / a = (-0)%float.
Proof.
  intros Hn Hz.
  assert (H : exists s, Prim2SF (0 / a) = S754_zero s).
  { rewrite div_spec. change (Prim2SF 0) with (S754_zero false).
    apply Binary64.not_nan_spec in Hn.
    rewrite eqb_spec in Hz. change (Prim2SF 0) with (S754_zero false) in Hz.
    destruct (Prim2SF a) as [s | s | | s m e].
    - discriminate Hz.
    - eexists; reflexivity.
    - contradiction Hn; reflexivity.
    - eexists; reflexivity. }
  destruct H as [s Hs]. rewrite <- (SF2Prim_Prim2SF (0 / a)), Hs.
  destruct s; [right | left]; reflexivity.
Qed.

(** With both smoothed moves at zero, [dx] is not a number. *)
Lemma dxAt_zero_moves atr sp sm i :
  get sp i = 0 -> get sm i = 0 ->
  PrimFloat.is_nan (dxAt atr sp sm i) = true.
Proof.
  intros Hp Hm. unfold dxAt. rewrite Hp, Hm.
  destruct (isNaN (get atr i)) eqn:En; [reflexivity |].
  destruct (JS.eq (get atr i) 0) eqn:Ez; [reflexivity |].
  simpl orb. cbv zeta.
  change (100 * 0) with 0.
  destruct (zero_div (get atr i) En Ez) as [-> | ->]; reflexivity.
Qed.

Lemma dx_head data period :
  (0 < length data)%nat ->
  let atr := atr (calculateATR data period) in
  let sp := calculateEMA (fst (directionalMoves data)) period in
  let sm := calculateEMA (snd (directionalMoves data)) period in
  PrimFloat.is_nan (dxAt atr sp sm 0) = true.
Proof.
  intros Hlen atr sp sm. apply dxAt_zero_moves.
  - unfold sp. rewrite EMASticky.calculateEMA_head
      by (rewrite plusDM_map, length_map, length_seq; assumption).
    rewrite plusDM_map, get_map_seq by assumption. reflexivity.
  - unfold sm. rewrite EMASticky.calculateEMA_head
      by (rewrite minusDM_map, length_map, length_seq; assumption).
    rewrite minusDM_map, get_map_seq by assumption. reflexivity.
Qed.

End ADXFacts.

(** X8: the ADX line of [calculateADX] is NaN at every bar, for every
    series and period.  At bar 0 both directional moves are 0, so both
    indices are 0 and [dx[0]] is 0/0 (or the NaN pushed for a zero or NaN
    ATR); [adx] is the EMA of [dx], which a NaN poisons from there on.
    The directional indices themselves are NaN exactly where the code
    blanks them (ATR NaN or 0) and [100 * EMA(DM) / ATR] elsewhere. *)
Theorem calculateADX_line_is_nan :
  forall (data : list OHLCV) (period i : nat),
    (i < length data)%nat ->
    let r := Indicators.calculateADX data period in
    let atr := get (Indicators.atr (Indicators.calculateATR data period)) i in
    isNaN (get (Indicators.adx r) i) = true
    /\ (isNaN atr || JS.eq atr 0 = true ->
        get (Indicators.plusDI r) i = nan
        /\ get (Indicators.minusDI r) i = nan)
    /\ (isNaN atr || JS.eq atr 0 = false ->
        get (Indicators.plusDI r) i
        = 100
          * get (Indicators.calculateEMA
                   (fst (Indicators.directionalMoves data)) period) i
          / atr
        /\ get (Indicators.minusDI r) i
           = 100
             * get (Indicators.calculateEMA
                      (snd (Indicators.directionalMoves data)) period) i
             / atr).
Proof.
  intros data period i Hi r atr. subst r atr.
  unfold Indicators.calculateADX. cbv zeta.
  cbn [Indicators.adx Indicators.plusDI Indicators.minusDI].
  rewrite ADXFacts.dx_map, ADXFacts.plusDI_map, ADXFacts.minusDI_map.
  rewrite !get_map_seq by assumption.
  split; [| split].
  - apply (EMASticky.calculateEMA_sticky _ period 0 i).
    + lia.
    + rewrite length_map, length_seq. assumption.
    + rewrite get_map_seq by lia. apply ADXFacts.dx_head. lia.
  - intros ->. auto.
  - intros ->. auto.
Qed.

(** X8 on [Breakout.three_bars] with the default period 14. *)
Lemma calculateADX_line_is_nan_witness :
  map isNaN
    (Indicators.adx (Indicators.calculateADX Breakout.three_bars 14))
  = [true; true; true]
  /\ isNaN (get (Indicators.plusDI
                   (Indicators.calculateADX Breakout.three_bars 14)) 1)
     = false.
Proof.
  destruct (calculateADX_line_is_nan Breakout.three_bars 14 1) as (H & _).
  - simpl. lia.
  - split; reflexivity.
Defined.

(* ================================================================= *)
(** ** Maxima, minima and the true range *)

Module Extremes.
Import FloatFacts.

Lemma leb_of_val a b :
  PrimFloat.is_nan a = false -> PrimFloat.is_nan b = false ->
  (Binary64Val.val a <= Binary64Val.val b)%Z -> (a <=? b) = true.
Proof.
  intros Ha Hb H. rewrite Binary64.leb_val by assumption.
  apply Z.leb_le. assumption.
Qed.

(** [Math.max] of numbers is above each of them. *)
Lemma max_from_ge l : forall h,
  isNaN h = false -> isNaN (max_from h l) = false ->
  le h (max_from h l) = true
  /\ Forall (fun x => le x (max_from h l) = true) l.
Proof.
  unfold isNaN, le.
  induction l as [| x l IH]; intros h Hh Hres; simpl in *.
  - split; [apply leb_refl; assumption | constructor].
  - unfold isNaN in *. destruct (PrimFloat.is_nan x) eqn:Ex;
      [discriminate Hres |].
    destruct (is_pos_zero x && is_neg_zero h) eqn:Ez.
    + apply andb_prop in Ez. destruct Ez as [Zx Zh].
      apply FloatAxioms.Leibniz.eqb_spec in Zx, Zh. subst x h.
      destruct (IH zero Ex Hres) as [H1 H2].
      split; [| constructor; assumption].
      apply (leb_trans _ zero); [reflexivity | assumption].
    + unfold gt in *. destruct (h <? x) eqn:Eg.
      * destruct (IH x Ex Hres) as [H1 H2].
        split; [| constructor; assumption].
        apply (leb_trans _ x); [apply ltb_leb |]; assumption.
      * destruct (IH h Hh Hres) as [H1 H2].
        split; [assumption |]. constructor; [| assumption].
        apply (leb_trans _ h); [| assumption].
        apply not_ltb_leb; assumption.
Qed.

Lemma Math_max_ge l x :
  isNaN (Math_max l) = false -> In x l -> le x (Math_max l) = true.
Proof.
  intros H Hin. unfold Math_max in *.
  destruct (max_from_ge l neg_infinity eq_refl H) as [_ Hall].
  rewrite Forall_forall in Hall. apply Hall. assumption.
Qed.

(** The maximum and the minimum of a list that repeats one finite
    number. *)
Lemma max_from_repeat c n :
  isNaN c = false -> max_from c (repeat c n) = c.
Proof.
  intros Hc. induction n as [| n IH]; simpl; [reflexivity |].
  rewrite Hc. destruct (_ && _); [assumption |].
  destruct (gt c c); assumption.
Qed.

Lemma min_from_repeat c n :
  isNaN c = false -> min_from c (repeat c n) = c.
Proof.
  intros Hc. induction n as [| n IH]; simpl; [reflexivity |].
  rewrite Hc. destruct (_ && _); [assumption |].
  destruct (lt c c); assumption.
Qed.

Lemma Math_max_repeat c n :
  PrimFloat.is_finite c = true ->
  Math_max (repeat c (Datatypes.S n)) = c.
Proof.
  intros Hf. pose proof (finite_not_nan c Hf) as Hn.
  destruct (finite_between c Hf) as [Hlo _].
  unfold Math_max. simpl. unfold isNaN, gt. rewrite Hn.
  change (is_neg_zero neg_infinity) with false. rewrite andb_false_r.
  rewrite Hlo. apply max_from_repeat. assumption.
Qed.

Lemma Math_min_repeat c n :
  PrimFloat.is_finite c = true ->
  Math_min (repeat c (Datatypes.S n)) = c.
Proof.
  intros Hf. pose proof (finite_not_nan c Hf) as Hn.
  destruct (finite_between c Hf) as [_ Hhi].
  unfold Math_min. simpl. unfold isNaN, lt. rewrite Hn.
  change (is_pos_zero infinity) with false. rewrite andb_false_r.
  rewrite Hhi. apply min_from_repeat. assumption.
Qed.

Lemma map_constant {A} (f : A -> float) c l :
  Forall (fun a => f a = c) l -> map f l = repeat c (length l).
Proof.
  induction 1 as [| a l Ha _ IH]; simpl; [reflexivity |].
  rewrite Ha, IH. reflexivity.
Qed.

End Extremes.

Module TrueRange.
Import Indicators.

Lemma tr_map data period :
  tr (calculateATR data period)
  = map (fun i =>
           if (i =? 0)%nat then high (bar data i) - low (bar data i)
           else
             Math_max
               [high (bar data i) - low (bar data i);
                Math_abs (high (bar data i) - close (bar data (i - 1)));
                Math_abs (low (bar data i) - close (bar data (i - 1)))])
      (seq 0 (length data)).
Proof.
  unfold calculateATR. cbv zeta. cbn [tr].
  apply (for_loop_field (fun l => l)); [reflexivity |].
  intros i s. cbv zeta. apply push_if.
Qed.

End TrueRange.

(** X9: the true range of bar 0 is its high minus its low; at every later
    bar where it is a number, it is at least the bar's own range, at least
    both gaps to the previous close, and never negative (even for a bar
    whose high is below its low).  The ATR is the EMA of the true range. *)
Theorem true_range_bounds :
  forall (data : list OHLCV) (period i : nat),
    (i < length data)%nat ->
    let r := Indicators.calculateATR data period in
    let b := Indicators.bar data i in
    let prev := Indicators.bar data (i - 1) in
    Indicators.atr r = Indicators.calculateEMA (Indicators.tr r) period
    /\ (i = 0%nat -> get (Indicators.tr r) i = high b - low b)
    /\ ((1 <= i)%nat -> isNaN (get (Indicators.tr r) i) = false ->
        le (high b - low b) (get (Indicators.tr r) i) = true
        /\ le (Math_abs (high b - close prev)) (get (Indicators.tr r) i) = true
        /\ le (Math_abs (low b - close prev)) (get (Indicators.tr r) i) = true
        /\ le 0 (get (Indicators.tr r) i) = true).
Proof.
  intros data period i Hi r b prev. subst r.
  split; [reflexivity |].
  rewrite TrueRange.tr_map. rewrite get_map_seq by assumption.
  split.
  - intros ->. reflexivity.
  - intros H1 Hn. destruct (Nat.eqb_spec i 0) as [-> | _]; [lia |].
    fold b prev in Hn |- *.
    assert (H2 : le (Math_abs (high b - close prev))
                   (Math_max [high b - low b;
                              Math_abs (high b - close prev);
                              Math_abs (low b - close prev)]) = true)
      by (apply Extremes.Math_max_ge; [assumption | simpl; auto]).
    repeat split.
    + apply Extremes.Math_max_ge; [assumption | simpl; auto].
    + assumption.
    + apply Extremes.Math_max_ge; [assumption | simpl; auto].
    + unfold le in *. eapply FloatFacts.leb_trans; [| exact H2].
      apply FloatFacts.abs_nonneg.
      apply Binary64.leb_true_not_nan in H2. apply H2.
Qed.

(** X9 on the second of [Breakout.three_bars]. *)
Lemma true_range_bounds_witness :
  le 0 (get (Indicators.tr (Indicators.calculateATR Breakout.three_bars 14)) 1)
  = true.
Proof.
  destruct (true_range_bounds Breakout.three_bars 14 1) as (_ & _ & H).
  - simpl. lia.
  - destruct H as (_ & _ & _ & H); [lia | reflexivity | exact H].
Defined.

(* ================================================================= *)
(** ** The stochastic oscillator on a flat window *)

Module StochasticFacts.
Import Indicators.

Lemma k_map data kPeriod dPeriod :
  k (calculateStochastic data kPeriod dPeriod)
  = map (fun i =>
           if (i <? kPeriod - 1)%nat then nan
           else
             let slice := slice (i + 1 - kPeriod) (i + 1) data in
             let lowestLow := Math_min (map low slice) in
             let highestHigh := Math_max (map high slice) in
             if JS.eq highestHigh lowestLow then 50
             else ((close (bar data i) - lowestLow)
                   / (highestHigh - lowestLow)) * 100)
      (seq 0 (length data)).
Proof.
  unfold calculateStochastic. cbv zeta. cbn [k].
  apply (for_loop_field (fun l => l)); [reflexivity |].
  intros i s. cbv zeta. rewrite push_if. f_equal.
  destruct (i <? kPeriod - 1)%nat; [reflexivity |].
  destruct (JS.eq _ _); reflexivity.
Qed.

End StochasticFacts.

(** X10: [%D] is the SMA of [%K]; [%K] is NaN while [i < kPeriod - 1];
    and on a window whose bars all have the same finite high and low
    (a flat market) [%K] is 50, not a division by zero. *)
Theorem stochastic_warmup_and_flat_window :
  forall (data : list OHLCV) (kPeriod dPeriod i : nat),
    (i < length data)%nat ->
    let r := Indicators.calculateStochastic data kPeriod dPeriod in
    Indicators.d r = Indicators.calculateSMA (Indicators.k r) dPeriod
    /\ ((i < kPeriod - 1)%nat -> get (Indicators.k r) i = nan)
    /\ (forall c : float,
          (1 <= kPeriod)%nat -> (kPeriod - 1 <= i)%nat ->
          PrimFloat.is_finite c = true ->
          Forall (fun b => high b = c /\ low b = c)
            (slice (i + 1 - kPeriod) (i + 1) data) ->
          get (Indicators.k r) i = 50).
Proof.
  intros data kPeriod dPeriod i Hi r. subst r.
  split; [reflexivity |].
  rewrite StochasticFacts.k_map, get_map_seq by assumption.
  split.
  - intros Hlt. apply Nat.ltb_lt in Hlt. rewrite Hlt. reflexivity.
  - intros c Hk Hge Hf Hall.
    apply Nat.ltb_ge in Hge. rewrite Hge. cbv zeta.
    apply Nat.ltb_ge in Hge.
    assert (Hlen : length (slice (i + 1 - kPeriod) (i + 1) data)
                   = Datatypes.S (kPeriod - 1)).
    { rewrite WindowFacts.slice_length by lia. lia. }
    rewrite (Extremes.map_constant high c), (Extremes.map_constant low c).
    + rewrite Hlen, Extremes.Math_max_repeat, Extremes.Math_min_repeat
        by assumption.
      unfold JS.eq. rewrite FloatFacts.eqb_refl; [reflexivity |].
      apply FloatFacts.finite_not_nan. assumption.
    + eapply Forall_impl; [| exact Hall]. intros b [_ H]. exact H.
    + eapply Forall_impl; [| exact Hall]. intros b [H _]. exact H.
Qed.

(** X10 on [HeldTrade.bars], whose first bar is flat at 10. *)
Lemma stochastic_warmup_and_flat_window_witness :
  get (Indicators.k (Indicators.calculateStochastic HeldTrade.bars 1 3)) 0 = 50.
Proof.
  destruct (stochastic_warmup_and_flat_window HeldTrade.bars 1 3 0)
    as (_ & _ & H).
  - simpl. lia.
  - apply (H 10); [lia | simpl; lia | reflexivity |].
    repeat constructor.
Defined.

(* ================================================================= *)
(** ** VWAP without volume *)

Module VWAPFacts.
Import Indicators.

Lemma zero_plus_zero v : JS.eq v 0 = true -> 0 + v = 0.
Proof.
  intros H. destruct (FloatFacts.eqb_zero_cases v H) as [-> | ->];
    reflexivity.
Qed.

Lemma no_volume_loop data n :
  Forall (fun b => JS.eq (volume b) 0 = true) data ->
  (n <= length data)%nat ->
  let st := for_loop 0 n (vwapStep data)
              {| vwap_result := []; cumulativeTPV := 0;
                 cumulativeVolume := 0; currentDay := "" |} in
  vwap_result st
  = map (fun i => (high (bar data i) + low (bar data i) + close (bar data i))
                  / 3)
      (seq 0 n)
  /\ cumulativeVolume st = 0.
Proof.
  intros Hall. induction n as [| n IH]; intros Hn.
  - split; reflexivity.
  - cbv zeta. rewrite for_loop_last by lia.
    destruct IH as [IHr IHv]; [lia |]. cbv zeta in IHr, IHv.
    set (st := for_loop 0 n (vwapStep data) _) in *.
    assert (Hv : JS.eq (volume (bar data n)) 0 = true).
    { rewrite Forall_forall in Hall. apply Hall. unfold bar.
      apply nth_In. lia. }
    assert (Hcv : cumulativeVolume
                    (if negb (String.eqb (toDateString (date (bar data n)))
                                (currentDay st))
                     then {| vwap_result := vwap_result st;
                             cumulativeTPV := 0; cumulativeVolume := 0;
                             currentDay := toDateString (date (bar data n)) |}
                     else st) = 0)
      by (destruct (negb _); [reflexivity | assumption]).
    assert (Hr : vwap_result
                   (if negb (String.eqb (toDateString (date (bar data n)))
                               (currentDay st))
                    then {| vwap_result := vwap_result st;
                            cumulativeTPV := 0; cumulativeVolume := 0;
                            currentDay := toDateString (date (bar data n)) |}
                    else st) = vwap_result st)
      by (destruct (negb _); reflexivity).
    unfold vwapStep. cbv zeta. cbn [vwap_result cumulativeVolume].
    rewrite Hcv, Hr, (zero_plus_zero _ Hv).
    change (gt 0 0) with false. cbv iota.
    split; [| reflexivity].
    rewrite IHr, seq_S, map_app. reflexivity.
Qed.

End VWAPFacts.

(** X11: on a series whose every bar has zero volume, [calculateVWAP]
    divides nothing by zero: at every bar it returns the bar's typical
    price (high + low + close) / 3. *)
Theorem vwap_without_volume_is_typical_price :
  forall (data : list OHLCV) (i : nat),
    (i < length data)%nat ->
    Forall (fun b => JS.eq (volume b) 0 = true) data ->
    get (Indicators.calculateVWAP data) i
    = (high (Indicators.bar data i) + low (Indicators.bar data i)
       + close (Indicators.bar data i)) / 3.
Proof.
  intros data i Hi Hall. unfold Indicators.calculateVWAP.
  destruct (VWAPFacts.no_volume_loop data (length data) Hall (Nat.le_refl _))
    as [Hr _].
  rewrite Hr, get_map_seq by assumption. reflexivity.
Qed.

(** X11 on one bar without volume. *)
Lemma vwap_without_volume_is_typical_price_witness :
  get (Indicators.calculateVWAP
         [ {| date := Samples.day 0; open := 9; high := 12; low := 9;
              close := 9; volume := 0 |} ]) 0
  = (12 + 9 + 9) / 3.
Proof.
  apply (vwap_without_volume_is_typical_price
           [ {| date := Samples.day 0; open := 9; high := 12; low := 9;
                close := 9; volume := 0 |} ] 0);
    [simpl; lia | repeat constructor].
Defined.

(* ================================================================= *)
(** ** On-balance volume *)

Module OBVFacts.
Import Indicators.

(** What turn [i] of [calculateOBV] pushes, given the values so far. *)
Lemma obv_selfloop data :
  obv (calculateOBV data)
  = for_loop 0 (length data)
      (fun i l =>
         push l
           (if (i =? 0)%nat then volume (bar data i)
            else if gt (close (bar data i)) (close (bar data (i - 1)))
                 then get l (i - 1) + volume (bar data i)
            else if lt (close (bar data i)) (close (bar data (i - 1)))
                 then get l (i - 1) - volume (bar data i)
            else get l (i - 1)))
      [].
Proof.
  unfold calculateOBV. cbv zeta. cbn [obv].
  apply for_loop_congr. intros i s _. unfold obvStep.
  destruct (i =? 0)%nat; [reflexivity |].
  destruct (gt _ _); [reflexivity |].
  destruct (lt _ _); reflexivity.
Qed.

Lemma obv_get data i :
  (i < length data)%nat ->
  get (obv (calculateOBV data)) i
  = if (i =? 0)%nat then volume (bar data i)
    else if gt (close (bar data i)) (close (bar data (i - 1)))
         then get (obv (calculateOBV data)) (i - 1) + volume (bar data i)
    else if lt (close (bar data i)) (close (bar data (i - 1)))
         then get (obv (calculateOBV data)) (i - 1) - volume (bar data i)
    else get (obv (calculateOBV data)) (i - 1).
Proof.
  intros Hi. rewrite obv_selfloop.
  rewrite selfloop_get by assumption.
  destruct (Nat.eqb_spec i 0) as [-> | Hne]; [reflexivity |].
  rewrite (selfloop_stable _ (length data) i (i - 1)) by lia.
  reflexivity.
Qed.

Lemma obv_flat data :
  forall i, (i < length data)%nat ->
    (forall j, (j <= i)%nat -> close (bar data j) = close (bar data 0)) ->
    get (obv (calculateOBV data)) i = volume (bar data 0).
Proof.
  induction i as [| i IH]; intros Hi Hflat.
  - rewrite obv_get by assumption. reflexivity.
  - rewrite obv_get by assumption. cbn [Nat.eqb].
    replace (Datatypes.S i - 1)%nat with i by lia.
    rewrite (Hflat (Datatypes.S i)), (Hflat i) by lia.
    unfold gt, lt. rewrite FloatFacts.ltb_irrefl.
    apply IH; [lia |]. intros j Hj. apply Hflat. lia.
Qed.

End OBVFacts.

(** X12: the on-balance volume starts at the volume of bar 0; at each
    later bar it adds the bar's volume if the close rose, subtracts it if
    the close fell, and is carried over unchanged otherwise (equal closes,
    or a NaN close).  While the close has not moved since bar 0 it stays
    at the volume of bar 0.  [obvEMA] is the 20-period EMA of it. *)
Theorem obv_follows_the_close :
  forall (data : list OHLCV) (i : nat),
    (i < length data)%nat ->
    let r := Indicators.calculateOBV data in
    let o := Indicators.obv r in
    let b := Indicators.bar data i in
    let prev := Indicators.bar data (i - 1) in
    Indicators.obvEMA r = Indicators.calculateEMA o 20
    /\ (i = 0%nat -> get o i = volume b)
    /\ ((1 <= i)%nat ->
        get o i
        = if gt (close b) (close prev) then get o (i - 1) + volume b
          else if lt (close b) (close prev) then get o (i - 1) - volume b
          else get o (i - 1))
    /\ ((forall j, (j <= i)%nat ->
           close (Indicators.bar data j) = close (Indicators.bar data 0)) ->
        get o i = volume (Indicators.bar data 0)).
Proof.
  intros data i Hi r o b prev. subst r o b prev.
  split; [reflexivity |].
  split; [| split].
  - intros ->. rewrite OBVFacts.obv_get by assumption. reflexivity.
  - intros H1. rewrite OBVFacts.obv_get at 1 by assumption.
    destruct (Nat.eqb_spec i 0) as [-> | _]; [lia | reflexivity].
  - apply OBVFacts.obv_flat. assumption.
Qed.

(** X12 on [HeldTrade.bars] (closes 10, 12, 11; volume 100 each). *)
Lemma obv_follows_the_close_witness :
  get (Indicators.obv (Indicators.calculateOBV HeldTrade.bars)) 1
  = get (Indicators.obv (Indicators.calculateOBV HeldTrade.bars)) 0 + 100.
Proof.
  destruct (obv_follows_the_close HeldTrade.bars 1) as (_ & _ & H & _).
  - simpl. lia.
  - apply H. lia.
Defined.

(* ================================================================= *)
(** ** Crossover detection *)

Module CrossFacts.
Import FloatFacts.

Lemma one_not_zero : (1 : float) <> 0.
Proof.
  intros H. apply (f_equal (fun x => PrimFloat.eqb x 0)) in H.
  vm_compute in H. discriminate H.
Qed.

Lemma minus_one_not_zero : (-1 : float) <> 0.
Proof.
  intros H. apply (f_equal (fun x => PrimFloat.eqb x 0)) in H.
  vm_compute in H. discriminate H.
Qed.

Lemma one_not_minus_one : (1 : float) <> (-1).
Proof.
  intros H. apply (f_equal (fun x => PrimFloat.eqb x 1)) in H.
  vm_compute in H. discriminate H.
Qed.

Lemma detectCrossover_crossAt fast slow i :
  (i < length fast)%nat ->
  get (Indicators.detectCrossover fast slow) i
  = IndicatorSpec.crossAt fast slow i.
Proof.
  intros Hi. rewrite Windows.detectCrossover_map.
  rewrite get_map_seq by assumption. reflexivity.
Qed.

Lemma crossAt_values fast slow i :
  IndicatorSpec.crossAt fast slow i = 1
  \/ IndicatorSpec.crossAt fast slow i = -1
  \/ IndicatorSpec.crossAt fast slow i = 0.
Proof.
  unfold IndicatorSpec.crossAt.
  destruct (_ || _); [auto |].
  destruct (gt _ _ && le _ _); [auto |].
  destruct (lt _ _ && ge _ _); auto.
Qed.

Lemma crossAt_up fast slow i :
  IndicatorSpec.crossAt fast slow i = 1 ->
  (1 <= i)%nat /\ gt (get fast i) (get slow i) = true
  /\ le (get fast (i - 1)) (get slow (i - 1)) = true.
Proof.
  unfold IndicatorSpec.crossAt.
  destruct (Nat.eqb_spec i 0) as [-> | Hne]; cbn [orb].
  - intros H. symmetry in H. contradiction (one_not_zero H).
  - destruct (_ || _).
    + intros H. symmetry in H. contradiction (one_not_zero H).
    + destruct (gt _ _ && le _ _) eqn:E.
      * intros _. apply andb_prop in E. split; [lia | exact E].
      * destruct (lt _ _ && ge _ _); intros H.
        -- symmetry in H. contradiction (one_not_minus_one H).
        -- symmetry in H. contradiction (one_not_zero H).
Qed.

Lemma crossAt_down fast slow i :
  IndicatorSpec.crossAt fast slow i = -1 ->
  (1 <= i)%nat /\ lt (get fast i) (get slow i) = true
  /\ ge (get fast (i - 1)) (get slow (i - 1)) = true.
Proof.
  unfold IndicatorSpec.crossAt.
  destruct (Nat.eqb_spec i 0) as [-> | Hne]; cbn [orb].
  - intros H. symmetry in H. contradiction (minus_one_not_zero H).
  - destruct (_ || _).
    + intros H. symmetry in H. contradiction (minus_one_not_zero H).
    + destruct (gt _ _ && le _ _).
      * intros H. contradiction (one_not_minus_one H).
      * destruct (lt _ _ && ge _ _) eqn:E; intros H.
        -- apply andb_prop in E. split; [lia | exact E].
        -- symmetry in H. contradiction (minus_one_not_zero H).
Qed.

Lemma crossAt_blank fast slow i :
  i = 0%nat \/ isNaN (get fast i) = true \/ isNaN (get slow i) = true
  \/ isNaN (get fast (i - 1)) = true \/ isNaN (get slow (i - 1)) = true ->
  IndicatorSpec.crossAt fast slow i = 0.
Proof.
  intros H. unfold IndicatorSpec.crossAt.
  assert (E : (i =? 0)%nat || isNaN (get fast i) || isNaN (get slow i)
              || isNaN (get fast (i - 1)) || isNaN (get slow (i - 1))
              = true).
  { destruct H as [-> | [H | [H | [H | H]]]]; rewrite ?H;
      rewrite ?orb_true_r; reflexivity. }
  rewrite E. reflexivity.
Qed.

End CrossFacts.

(** X13: [detectCrossover] returns only 1, -1 and 0; it returns 0 at
    index 0 and wherever one of the four values it compares is NaN or
    missing; a 1 at [i] means [fast] is above [slow] at [i] and was not at
    [i - 1], a -1 the reverse; and it never reports the same cross at two
    consecutive indices. *)
Theorem detectCrossover_marks :
  forall (fast slow : list float) (i : nat),
    (i < length fast)%nat ->
    let r := Indicators.detectCrossover fast slow in
    (get r i = 1 \/ get r i = -1 \/ get r i = 0)
    /\ (i = 0%nat \/ isNaN (get fast i) = true \/ isNaN (get slow i) = true
        \/ isNaN (get fast (i - 1)) = true \/ isNaN (get slow (i - 1)) = true ->
        get r i = 0)
    /\ (get r i = 1 ->
        (1 <= i)%nat /\ gt (get fast i) (get slow i) = true
        /\ le (get fast (i - 1)) (get slow (i - 1)) = true)
    /\ (get r i = -1 ->
        (1 <= i)%nat /\ lt (get fast i) (get slow i) = true
        /\ ge (get fast (i - 1)) (get slow (i - 1)) = true)
    /\ ((Datatypes.S i < length fast)%nat ->
        (get r i = 1 -> get r (Datatypes.S i) <> 1)
        /\ (get r i = -1 -> get r (Datatypes.S i) <> -1)).
Proof.
  intros fast slow i Hi r. subst r.
  rewrite (CrossFacts.detectCrossover_crossAt fast slow i Hi).
  split; [apply CrossFacts.crossAt_values |].
  split; [apply CrossFacts.crossAt_blank |].
  split; [apply CrossFacts.crossAt_up |].
  split; [apply CrossFacts.crossAt_down |].
  intros Hnext.
  rewrite (CrossFacts.detectCrossover_crossAt fast slow _ Hnext).
  split.
  - intros H1 H2.
    apply CrossFacts.crossAt_up in H1, H2.
    destruct H1 as (_ & Hgt & _). destruct H2 as (_ & _ & Hle).
    replace (Datatypes.S i - 1)%nat with i in Hle by lia.
    unfold gt, le in *.
    rewrite (FloatFacts.ltb_leb_false _ _ Hgt) in Hle. discriminate Hle.
  - intros H1 H2.
    apply CrossFacts.crossAt_down in H1, H2.
    destruct H1 as (_ & Hlt & _). destruct H2 as (_ & _ & Hge).
    replace (Datatypes.S i - 1)%nat with i in Hge by lia.
    unfold lt, ge in *.
    rewrite (FloatFacts.ltb_leb_false _ _ Hlt) in Hge. discriminate Hge.
Qed.

(** X13 on a fast line that crosses above a flat slow line at index 1. *)
Lemma detectCrossover_marks_witness :
  Indicators.detectCrossover [1; 3; 4] [2; 2; 2] = [0; 1; 0]
  /\ get (Indicators.detectCrossover [1; 3; 4] [2; 2; 2]) 2 <> 1.
Proof.
  destruct (detectCrossover_marks [1; 3; 4] [2; 2; 2] 1) as (_ & _ & _ & _ & H).
  - simpl. lia.
  - split; [reflexivity |]. apply H; [simpl; lia | reflexivity].
Defined.

(* ================================================================= *)
(** ** The Ichimoku lines *)

Module IchimokuFacts.
Import Indicators.

Lemma get_push_map (f : nat -> float) n x :
  get (push (map f (seq 0 n)) x) n = x.
Proof.
  pose proof (get_push_eq (map f (seq 0 n)) x) as H.
  rewrite length_map, length_seq in H. exact H.
Qed.

Lemma push_map_seq {A} (f : nat -> A) n :
  push (map f (seq 0 n)) (f n) = map f (seq 0 (Datatypes.S n)).
Proof. rewrite seq_S, map_app. reflexivity. Qed.

Lemma map_bar {A} (f : OHLCV -> A) data :
  map (fun i => f (bar data i)) (seq 0 (length data)) = map f data.
Proof.
  unfold bar. induction data as [| b data IH]; [reflexivity |].
  cbn [length seq map nth]. f_equal.
  rewrite <- seq_shift, map_map. exact IH.
Qed.

Lemma ichimoku_loop data n :
  let t i := if (i <? 8)%nat then nan else midpoint data (i - 8) i in
  let kj i := if (i <? 25)%nat then nan else midpoint data (i - 25) i in
  for_loop 0 n (ichimokuStep data)
    {| tenkanSen := []; kijunSen := []; senkouSpanA := [];
       senkouSpanB := []; chikouSpan := [] |}
  = {| tenkanSen := map t (seq 0 n);
       kijunSen := map kj (seq 0 n);
       senkouSpanA :=
         map (fun i => if isNaN (t i) || isNaN (kj i) then nan
                       else (t i + kj i) / 2)
           (seq 0 n);
       senkouSpanB :=
         map (fun i => if (i <? 51)%nat then nan
                       else midpoint data (i - 51) i)
           (seq 0 n);
       chikouSpan := map (fun i => close (bar data i)) (seq 0 n) |}.
Proof.
  intros t kj. induction n as [| n IH]; [reflexivity |].
  rewrite for_loop_last by lia. rewrite IH.
  unfold ichimokuStep. cbv zeta.
  cbn [tenkanSen kijunSen senkouSpanA senkouSpanB chikouSpan].
  rewrite !push_if. rewrite !get_push_map.
  fold (t n) (kj n).
  rewrite (push_map_seq t), (push_map_seq kj).
  rewrite (push_map_seq
             (fun i => if isNaN (t i) || isNaN (kj i) then nan
                       else (t i + kj i) / 2)).
  rewrite (push_map_seq
             (fun i => if (i <? 51)%nat then nan
                       else midpoint data (i - 51) i)).
  rewrite (push_map_seq (fun i => close (bar data i))).
  reflexivity.
Qed.

End IchimokuFacts.

(** X14: the lagging span of [calculateIchimoku] is the series of closes,
    index for index (nothing is shifted).  At a bar [i] the conversion,
    base and span-B lines are NaN before 9, 26 and 52 bars are available
    and then the midpoint of the highest high and lowest low of the last
    9, 26 and 52 bars; span A is the mean of the conversion and base lines
    of the same bar, NaN where one of them is (in particular before bar
    25). *)
Theorem ichimoku_lines :
  forall (data : list OHLCV),
    let r := Indicators.calculateIchimoku data in
    Indicators.chikouSpan r = map close data
    /\ forall i, (i < length data)%nat ->
         let t := get (Indicators.tenkanSen r) i in
         let kj := get (Indicators.kijunSen r) i in
         t = (if (i <? 8)%nat then nan
              else Indicators.midpoint data (i - 8) i)
         /\ kj = (if (i <? 25)%nat then nan
                  else Indicators.midpoint data (i - 25) i)
         /\ get (Indicators.senkouSpanB r) i
            = (if (i <? 51)%nat then nan
               else Indicators.midpoint data (i - 51) i)
         /\ get (Indicators.senkouSpanA r) i
            = (if isNaN t || isNaN kj then nan else (t + kj) / 2)
         /\ ((i < 25)%nat -> get (Indicators.senkouSpanA r) i = nan).
Proof.
  intros data r. subst r. unfold Indicators.calculateIchimoku.
  rewrite IchimokuFacts.ichimoku_loop. cbv zeta.
  cbn [Indicators.tenkanSen Indicators.kijunSen Indicators.senkouSpanA
       Indicators.senkouSpanB Indicators.chikouSpan].
  split; [apply IchimokuFacts.map_bar |].
  intros i Hi. rewrite !get_map_seq by assumption.
  repeat split.
  intros Hlt. apply Nat.ltb_lt in Hlt. rewrite Hlt.
  rewrite orb_true_r. reflexivity.
Qed.

(* ================================================================= *)
(** ** The trades of a strategy are round trips in bar order *)

Section IndexedLoops.
Context {St : Type}.

(** The invariant rule of the counting loop, for an invariant that
    mentions the counter. *)
Lemma for_loop_indexed (P : nat -> St -> Prop) (body : nat -> St -> St)
    s from to :
  (from <= to)%nat -> P from s ->
  (forall i s, (from <= i < to)%nat -> P i s -> P (Datatypes.S i) (body i s)) ->
  P to (for_loop from to body s).
Proof.
  intros Hle H0 Hstep. induction to as [| to IH].
  - replace from with 0%nat in * by lia.
    rewrite for_loop_done by lia. assumption.
  - destruct (Nat.eq_dec from (Datatypes.S to)) as [E | Hne].
    + rewrite for_loop_done by lia. rewrite <- E. assumption.
    + rewrite for_loop_last by lia. apply Hstep; [lia |].
      apply IH; [lia |]. intros i s' Hi. apply Hstep. lia.
Qed.

End IndexedLoops.

Module Booking.
Import Indicators Strategies Ledger.

Create HintDb booking.
#[local] Hint Constructors advanceAt : booking.

Lemma start_booked data first n :
  (first <= n)%nat -> booked data first n start.
Proof.
  intros H. exists first. split; [constructor |].
  split; [assumption | reflexivity].
Qed.

Lemma closed_position data k c n pnlPercent reason :
  pnlPercent = pnlPercentOf (close (bar data n)) (close (bar data c)) ->
  closed (position data k c) (date (bar data n)) (close (bar data n))
    (close (bar data n) - entryPrice (position data k c)) pnlPercent reason
  = roundTrip data k c n reason.
Proof. intros ->. reflexivity. Qed.

Lemma advanceAt_booked data first n st st' :
  (n < length data)%nat ->
  booked data first n st -> advanceAt data n st st' ->
  booked data first (Datatypes.S n) st'.
Proof.
  intros Hn (free & Hled & Hfree & Hcur) Hadv.
  destruct Hadv as [| reason Hnone | t exitReason signalReason Hsome].
  - exists free. split; [assumption |]. split; [lia |].
    destruct (currentTrade st); [| assumption].
    destruct Hcur as (Hid & c & H1 & H2 & H3 & H4).
    split; [assumption |]. exists c. repeat split; (assumption || lia).
  - rewrite Hnone in Hcur. exists free. cbn [enter trades currentTrade tradeId].
    split; [assumption |]. split; [lia |].
    split; [rewrite Hcur; reflexivity |].
    exists n. repeat split; try lia. rewrite Hcur. reflexivity.
  - rewrite Hsome in Hcur. destruct Hcur as (Hid & c & H1 & H2 & H3 & ->).
    exists (Datatypes.S n). cbn [leave trades currentTrade tradeId].
    split; [| split; [lia |]].
    + unfold push. rewrite closed_position by reflexivity.
      apply ledger_snoc with (free := free); try assumption; lia.
    + unfold push. rewrite length_app. simpl. lia.
Qed.

(** A scan whose turn at bar [i] is a transition at bar [i]. *)
Lemma scan_booked data first (step : nat -> Run -> Run) :
  (forall i st, advanceAt data i st (step i st)) ->
  booked data first (Nat.max first (length data))
    (for_loop first (length data) step start).
Proof.
  intros Hstep.
  destruct (Nat.le_gt_cases first (length data)) as [Hle | Hgt].
  - rewrite Nat.max_r by assumption.
    apply (for_loop_indexed (booked data first)); [assumption | |].
    + apply start_booked. lia.
    + intros i st Hi Hb. apply advanceAt_booked with (st := st);
        [lia | assumption | apply Hstep].
  - rewrite for_loop_done by lia. apply start_booked. lia.
Qed.

Ltac split_at :=
  cbv zeta;
  repeat match goal with
    | |- advanceAt _ _ _ (if ?c then _ else _) => destruct c
    | |- advanceAt _ _ ?st (match currentTrade ?st with _ => _ end) =>
        let E := fresh "E" in destruct (currentTrade st) eqn:E
    end;
  eauto with booking.

Section WithPow.
Variable Math_pow : float -> float -> float.

Lemma meanReversionStep_at data bb rsi sl i st :
  advanceAt data i st (meanReversionStep data bb rsi sl i st).
Proof. unfold meanReversionStep. split_at. Qed.

Lemma momentumStep_at data macd sma50 sma200 sl tp i st :
  advanceAt data i st (momentumStep data macd sma50 sma200 sl tp i st).
Proof. unfold momentumStep. split_at. Qed.

Lemma vwapBounceStep_at data vwap rsi dev sl tp i st :
  advanceAt data i st (vwapBounceStep data vwap rsi dev sl tp i st).
Proof. unfold vwapBounceStep. split_at. Qed.

Lemma rsiStep_at data rsi sma50 lo hi sl tp i st :
  advanceAt data i st (Strategies.rsiStep data rsi sma50 lo hi sl tp i st).
Proof. unfold Strategies.rsiStep. split_at. Qed.

Lemma breakoutStep_at data n sl tp i st :
  advanceAt data i st (breakoutStep data n sl tp i st).
Proof. unfold breakoutStep. split_at. Qed.

Lemma emaCrossoverStep_at data fast slow nf ns sl tp i st :
  advanceAt data i st (emaCrossoverStep data fast slow nf ns sl tp i st).
Proof. unfold emaCrossoverStep. split_at. Qed.

Lemma stochasticStep_at data stoch sma50 sl tp i st :
  advanceAt data i st (stochasticStep data stoch sma50 sl tp i st).
Proof. unfold stochasticStep. split_at. Qed.

Lemma combinedStep_at data sma20 rsi bb macd stoch i st :
  advanceAt data i st (combinedStep data sma20 rsi bb macd stoch i st).
Proof. unfold combinedStep. split_at. Qed.

Lemma atrTrailingStopStep_at data sma20 atr mult i st :
  advanceAt data i (run st) (run (atrTrailingStopStep data sma20 atr mult i st)).
Proof.
  unfold atrTrailingStopStep. cbv zeta.
  destruct (isNaN (get sma20 i) || isNaN (get atr i)); [constructor |].
  destruct (currentTrade (run st)) eqn:E.
  - destruct (gt (close (bar data i)) (highestPrice st)); simpl;
      match goal with |- context [if ?c then _ else _] => destruct c end;
      simpl; eauto with booking.
  - destruct (_ && _); simpl; eauto with booking.
Qed.

(** Every scan moves by transitions at the bar it looks at, from the
    bar [warmup] on. *)
Lemma scan_by_transitions (P : nat -> Run -> Prop) type data params :
  let first := warmup type params in
  P first start ->
  (forall i st st', (first <= i < length data)%nat ->
     P i st -> advanceAt data i st st' -> P (Datatypes.S i) st') ->
  P (Nat.max first (length data)) (scanOf Math_pow type data params).
Proof.
  intros first H0 Hstep.
  assert (Hrun : forall step : nat -> Run -> Run,
             (forall i st, advanceAt data i st (step i st)) ->
             P (Nat.max first (length data))
               (for_loop first (length data) step start)).
  { intros step Hadv.
    destruct (Nat.le_gt_cases first (length data)) as [Hle | Hgt].
    - rewrite Nat.max_r by assumption.
      apply (for_loop_indexed P); [assumption | assumption |].
      intros i st Hi Hp. apply Hstep with (st := st);
        [assumption | assumption | apply Hadv].
    - rewrite for_loop_done by lia. rewrite Nat.max_l by lia. assumption. }
  subst first. destruct type; simpl.
  - apply Hrun. intros; apply meanReversionStep_at.
  - apply Hrun. intros; apply momentumStep_at.
  - apply Hrun. intros; apply vwapBounceStep_at.
  - apply Hrun. intros; apply rsiStep_at.
  - apply Hrun. intros; apply breakoutStep_at.
  - apply Hrun. intros; apply emaCrossoverStep_at.
  - apply Hrun. intros; apply stochasticStep_at.
  - unfold atrTrailingStopScan. cbv zeta.
    set (first := (default 14%nat (lookbackPeriod params) + 20)%nat) in *.
    destruct (Nat.le_gt_cases first (length data)) as [Hle | Hgt].
    + rewrite Nat.max_r by assumption.
      apply (for_loop_indexed (fun i st => P i (run st)));
        [assumption | assumption |].
      intros i st Hi Hp. apply Hstep with (st := run st);
        [assumption | assumption | apply atrTrailingStopStep_at].
    + rewrite for_loop_done by lia. rewrite Nat.max_l by lia. assumption.
  - apply Hrun. intros; apply combinedStep_at.
Qed.

Lemma scanOf_booked type data params :
  booked data (warmup type params)
    (Nat.max (warmup type params) (length data))
    (scanOf Math_pow type data params).
Proof.
  apply (scan_by_transitions (booked data (warmup type params))).
  - apply start_booked. lia.
  - intros i st st' Hi Hb Hadv.
    apply advanceAt_booked with (st := st); [lia | assumption | assumption].
Qed.

Lemma runStrategy_scanOf type data params :
  runStrategy Math_pow type data params
  = closeAtEnd data (scanOf Math_pow type data params).
Proof. destruct type; reflexivity. Qed.

(** The trades [runStrategy] returns form a ledger. *)
Lemma runStrategy_ledger type data params :
  exists free,
    ledger data (warmup type params)
      (result_trades (runStrategy Math_pow type data params)) free.
Proof.
  rewrite runStrategy_scanOf.
  destruct (scanOf_booked type data params) as (free & Hled & Hfree & Hcur).
  unfold closeAtEnd.
  destruct (currentTrade (scanOf Math_pow type data params)) as [t |].
  - destruct Hcur as (_ & c & H1 & H2 & H3 & ->).
    exists (Datatypes.S (length data - 1)). cbn [result_trades]. unfold push.
    change (closed (position data _ c) _ _ _ _ ?r)
      with (roundTrip data
              (length (trades (scanOf Math_pow type data params)))
              c (length data - 1) r).
    apply ledger_snoc with (free := free); try assumption; try lia.
    right. split; reflexivity.
  - exists free. assumption.
Qed.

End WithPow.

(** What a ledger says of each trade and of the numbering. *)
Lemma ledger_ids data first trades free :
  ledger data first trades free -> map id trades = seq 0 (length trades).
Proof.
  induction 1 as [| trades free i j reason _ IH _ _ _ _]; [reflexivity |].
  rewrite map_app, length_app, IH. simpl.
  rewrite Nat.add_1_r, seq_S. reflexivity.
Qed.

Lemma ledger_round_trips data first trades free :
  ledger data first trades free ->
  Forall (fun t => exists i j reason,
                     t = roundTrip data (id t) i j reason
                     /\ (first <= i)%nat /\ (i <= j)%nat
                     /\ (j < length data)%nat)
    trades
  /\ (first <= free)%nat.
Proof.
  induction 1 as [| trades free i j reason _ [IH Hf] Hi Hij Hj _].
  - split; [constructor | lia].
  - split; [| lia]. apply Forall_app. split; [assumption |].
    constructor; [| constructor].
    exists i, j, reason. repeat split; (assumption || lia).
Qed.

End Booking.

(** X15: the trades [runStrategy] returns are round trips in bar order
    that never overlap: each trade buys one unit at the close of a bar
    and sells it at the close of a later bar (or, for the position closed
    with "End of data", at the last bar, which may be the entry bar); the
    first entry is not before the strategy's first scanned bar, and each
    next trade is entered at a bar after the exit bar of the one
    before. *)
Theorem runStrategy_trades_form_a_ledger :
  forall (Math_pow : float -> float -> float) (type : StrategyType)
         (data : list OHLCV) (params : StrategyParams),
    exists free,
      Ledger.ledger data (Ledger.warmup type params)
        (Strategies.result_trades
           (Strategies.runStrategy Math_pow type data params))
        free.
Proof. intros. apply Booking.runStrategy_ledger. Qed.

(** X16: the ids of the returned trades are 0, 1, 2, ... in list order,
    so a trade's id is its index and no two trades share an id. *)
Theorem runStrategy_ids_are_indices :
  forall (Math_pow : float -> float -> float) (type : StrategyType)
         (data : list OHLCV) (params : StrategyParams),
    let returned :=
      Strategies.result_trades
        (Strategies.runStrategy Math_pow type data params) in
    map id returned = seq 0 (length returned) /\ NoDup (map id returned).
Proof.
  intros Math_pow type data params returned.
  destruct (Booking.runStrategy_ledger Math_pow type data params)
    as [free Hled].
  fold returned in Hled.
  pose proof (Booking.ledger_ids _ _ _ _ Hled) as Hids.
  split; [exact Hids |]. rewrite Hids. apply seq_NoDup.
Qed.

(** X17: every returned trade is a LONG trade of size 1, CLOSED, entered
    at the close of a bar [i] and exited at the close of a bar [j] of the
    series with [i <= j]; its pnl is exit price minus entry price and its
    pnlPercent is that difference over the entry price, times 100. *)
Theorem runStrategy_trade_accounting :
  forall (Math_pow : float -> float -> float) (strategyType : StrategyType)
         (data : list OHLCV) (params : StrategyParams),
    Forall
      (fun t =>
         Types.type t = LONG /\ size t = 1 /\ status t = CLOSED
         /\ exists i j,
              (Ledger.warmup strategyType params <= i)%nat /\ (i <= j)%nat
              /\ (j < length data)%nat
              /\ entryDate t = date (Indicators.bar data i)
              /\ entryPrice t = close (Indicators.bar data i)
              /\ exitDate t = Some (date (Indicators.bar data j))
              /\ exitPrice t = Some (close (Indicators.bar data j))
              /\ pnl t
                 = Some (close (Indicators.bar data j) - entryPrice t)
              /\ pnlPercent t
                 = Some (((close (Indicators.bar data j) - entryPrice t)
                          / entryPrice t) * 100))
      (Strategies.result_trades
         (Strategies.runStrategy Math_pow strategyType data params)).
Proof.
  intros Math_pow strategyType data params.
  destruct (Booking.runStrategy_ledger Math_pow strategyType data params)
    as [free Hled].
  destruct (Booking.ledger_round_trips _ _ _ _ Hled) as [Hall _].
  eapply Forall_impl; [| exact Hall].
  intros t (i & j & reason & Ht & Hi & Hij & Hj).
  rewrite Ht. cbn.
  repeat split. exists i, j. repeat split; assumption.
Qed.

(* ================================================================= *)
(** ** The signals of a strategy *)

Module SignalFacts.
Import Indicators Strategies Ledger SignalCount.

Lemma start_signalled : signalled start.
Proof. repeat split; constructor. Qed.

Lemma advanceAt_signalled data i st st' :
  signalled st -> advanceAt data i st st' -> signalled st'.
Proof.
  intros (Hm & Hb & He & Hs) Hadv.
  destruct Hadv as [| reason Hnone | t exitReason signalReason Hsome].
  - repeat split; assumption.
  - unfold signalled, marksOf, held in *. rewrite Hnone in *.
    cbn [enter signals trades currentTrade]. unfold push.
    rewrite map_app, !filter_app, !length_app, Forall_app, Hm, Hb, He.
    rewrite app_nil_r. cbn.
    repeat split; try lia; try assumption.
    repeat constructor. discriminate.
  - unfold signalled, marksOf, held in *. rewrite Hsome in *.
    cbn [leave signals trades currentTrade]. unfold push.
    rewrite map_app, !filter_app, !length_app, Forall_app, Hm, Hb, He.
    rewrite flat_map_app, app_nil_r, <- app_assoc. cbn.
    repeat split; try lia; try assumption.
    repeat constructor. discriminate.
Qed.

Lemma scanOf_signalled Math_pow type data params :
  signalled (scanOf Math_pow type data params).
Proof.
  apply (Booking.scan_by_transitions Math_pow (fun _ st => signalled st)).
  - apply start_signalled.
  - intros i st st' _ Hs Hadv.
    apply advanceAt_signalled with (data := data) (i := i) (st := st);
      assumption.
Qed.

End SignalFacts.

(** X18: the signals [runStrategy] returns are BUY and EXIT signals only
    (never SELL), in the order of the trades: a BUY at the entry date and
    price and an EXIT at the exit date and price for each trade closed
    during the scan, and a lone BUY for the position closed with "End of
    data", for which no EXIT signal is emitted.  So there is one BUY per
    returned trade and one EXIT per trade closed during the scan. *)
Theorem runStrategy_signals_pair_with_trades :
  forall (Math_pow : float -> float -> float) (type : StrategyType)
         (data : list OHLCV) (params : StrategyParams),
    let scan := Strategies.scanOf Math_pow type data params in
    let r := Strategies.runStrategy Math_pow type data params in
    map Ledger.mark (Strategies.result_signals r) = Ledger.marksOf scan
    /\ length (filter SignalCount.isBuy (Strategies.result_signals r))
       = length (Strategies.result_trades r)
    /\ length (filter SignalCount.isExit (Strategies.result_signals r))
       = length (Strategies.trades scan)
    /\ Forall (fun s => signal_type s <> SELL) (Strategies.result_signals r).
Proof.
  intros Math_pow type data params scan r.
  destruct (SignalFacts.scanOf_signalled Math_pow type data params)
    as (Hm & Hb & He & Hs).
  fold scan in Hm, Hb, He, Hs.
  assert (Hr : r = Strategies.closeAtEnd data scan)
    by apply Booking.runStrategy_scanOf.
  rewrite Hr. unfold Strategies.closeAtEnd, SignalCount.held in *.
  destruct (Strategies.currentTrade scan);
    cbn [Strategies.result_signals Strategies.result_trades];
    repeat split; try assumption.
  - rewrite Hb. unfold push. rewrite length_app. reflexivity.
  - rewrite Hb. lia.
Qed.

(** X19: a series with no more bars than the index of the first bar the
    strategy looks at (its warm-up: 50 bars for the RSI, stochastic and
    combined strategies, 20 for VWAP bounce, [lookbackPeriod] for
    breakout, ...) gives no trade and no signal. *)
Theorem runStrategy_needs_its_warmup :
  forall (Math_pow : float -> float -> float) (type : StrategyType)
         (data : list OHLCV) (params : StrategyParams),
    (length data <= Ledger.warmup type params)%nat ->
    Strategies.runStrategy Math_pow type data params
    = {| Strategies.result_trades := []; Strategies.result_signals := [] |}.
Proof.
  intros Math_pow type data params Hshort.
  rewrite Booking.runStrategy_scanOf.
  assert (Hscan : Strategies.scanOf Math_pow type data params
                  = Strategies.start).
  { apply (Booking.scan_by_transitions Math_pow
             (fun _ st => st = Strategies.start)).
    - reflexivity.
    - intros i st st' Hi. lia. }
  rewrite Hscan. reflexivity.
Qed.

(** X19 on [Breakout.three_bars] with the default breakout lookback of
    20 bars. *)
Lemma runStrategy_needs_its_warmup_witness :
  Strategies.runStrategy Samples.pow breakout Breakout.three_bars
    Samples.noParams
  = {| Strategies.result_trades := []; Strategies.result_signals := [] |}.
Proof.
  apply (runStrategy_needs_its_warmup Samples.pow breakout
           Breakout.three_bars Samples.noParams).
  simpl. lia.
Defined.

(* ================================================================= *)
(** ** The back-test without trades *)

Module FlatCurve.
Import Backtest FloatFacts.

Lemma sub_self x : PrimFloat.is_finite x = true -> x - x = 0.
Proof.
  intros H. rewrite <- (SF2Prim_Prim2SF (x - x)), sub_spec.
  destruct (Binary64.is_finite_spec x H) as [[s Hs] | (s & m & e & Hs)];
    rewrite Hs.
  - destruct s; reflexivity.
  - unfold SF64sub, SFsub. rewrite Z.sub_diag. reflexivity.
Qed.

Lemma add_zero_pos x : (0 <? x) = true -> x + 0 = x.
Proof.
  intros H. rewrite <- (SF2Prim_Prim2SF (x + 0)), add_spec.
  rewrite <- (SF2Prim_Prim2SF x) at 2.
  rewrite ltb_spec in H. change (Prim2SF 0) with (S754_zero false) in *.
  destruct (Prim2SF x) as [s | s | | s m e]; try reflexivity.
  - destruct s; discriminate H.
Qed.

(** The point the loop pushes for a bar when there is no trade. *)
Lemma curveStep_no_trades data config st candle :
  openTrade st = None ->
  curveStep data [] config st candle
  = {| equityCurve :=
         push (equityCurve st)
           {| point_date := date candle;
              equity := st_equity st + 0;
              drawdown :=
                if gt (peakEquity st) 0
                then ((peakEquity st - (st_equity st + 0)) / peakEquity st)
                     * 100
                else 0;
              benchmark :=
                ((close candle - firstPriceOf data) / firstPriceOf data)
                * 100 |};
       st_equity := st_equity st;
       peakEquity := peakEquity st;
       openTrade := None;
       openTradeEntryValue := openTradeEntryValue st |}.
Proof.
  intros Hnone. unfold curveStep, entryStep, exitingTradesAt, unrealizedPnLOf.
  cbn [find filter fold_left]. rewrite Hnone. reflexivity.
Qed.

Lemma curve_no_trades data config seen :
  forall st,
    openTrade st = None ->
    equityCurve (fold_left (curveStep data [] config) seen st)
    = equityCurve st
      ++ map (fun candle =>
                {| point_date := date candle;
                   equity := st_equity st + 0;
                   drawdown :=
                     if gt (peakEquity st) 0
                     then ((peakEquity st - (st_equity st + 0))
                           / peakEquity st) * 100
                     else 0;
                   benchmark :=
                     ((close candle - firstPriceOf data) / firstPriceOf data)
                     * 100 |})
          seen.
Proof.
  induction seen as [| candle seen IH]; intros st Hnone; simpl.
  - rewrite app_nil_r. reflexivity.
  - rewrite curveStep_no_trades by assumption.
    rewrite IH by reflexivity. cbn [equityCurve st_equity peakEquity].
    unfold push. rewrite <- app_assoc. reflexivity.
Qed.

Lemma generateEquityCurve_no_trades data config :
  generateEquityCurve data [] config
  = map (fun candle =>
           {| point_date := date candle;
              equity := initialCapital config + 0;
              drawdown :=
                if gt (initialCapital config) 0
                then ((initialCapital config - (initialCapital config + 0))
                      / initialCapital config) * 100
                else 0;
              benchmark :=
                ((close candle - firstPriceOf data) / firstPriceOf data)
                * 100 |})
      data.
Proof.
  unfold generateEquityCurve, curveAfter.
  rewrite curve_no_trades by reflexivity. reflexivity.
Qed.

Lemma flat_drawdown ic :
  gt ic 0 = true -> PrimFloat.is_finite ic = true ->
  ic + 0 = ic
  /\ (if gt ic 0 then ((ic - (ic + 0)) / ic) * 100 else 0) = 0.
Proof.
  intros Hpos Hfin. unfold gt in *.
  rewrite (add_zero_pos ic Hpos). split; [reflexivity |].
  rewrite Hpos, (sub_self ic Hfin), (Binary64.zero_div_pos ic Hpos).
  reflexivity.
Qed.

Lemma short_series Math_pow type data params :
  (length data <= Ledger.warmup type params)%nat ->
  Strategies.runStrategy Math_pow type data params
  = {| Strategies.result_trades := []; Strategies.result_signals := [] |}.
Proof.
  intros Hshort. rewrite Booking.runStrategy_scanOf.
  assert (Hscan : Strategies.scanOf Math_pow type data params
                  = Strategies.start).
  { apply (Booking.scan_by_transitions Math_pow
             (fun _ st => st = Strategies.start)).
    - reflexivity.
    - intros i st st' Hi. lia. }
  rewrite Hscan. reflexivity.
Qed.

End FlatCurve.

(** X20: without trades [generateEquityCurve] returns a flat curve: one
    point per bar, dated as the bar, with equity [initialCapital + 0] and
    the buy-and-hold benchmark relative to the first close; for a positive
    finite initial capital the equity is the initial capital and the
    drawdown is 0 at every bar. *)
Theorem generateEquityCurve_without_trades :
  forall (data : list OHLCV) (config : BacktestConfig),
    let curve := Backtest.generateEquityCurve data [] config in
    map point_date curve = map date data
    /\ map equity curve = map (fun _ => initialCapital config + 0) data
    /\ map benchmark curve
       = map (fun candle =>
                ((close candle - Backtest.firstPriceOf data)
                 / Backtest.firstPriceOf data) * 100)
           data
    /\ (gt (initialCapital config) 0 = true ->
        PrimFloat.is_finite (initialCapital config) = true ->
        Forall (fun p => equity p = initialCapital config /\ drawdown p = 0)
          curve).
Proof.
  intros data config curve. subst curve.
  rewrite FlatCurve.generateEquityCurve_no_trades.
  rewrite !map_map. cbn [point_date equity benchmark].
  repeat split.
  intros Hpos Hfin.
  destruct (FlatCurve.flat_drawdown _ Hpos Hfin) as [He Hd].
  apply Forall_map. apply Forall_forall. intros candle _.
  cbn [equity drawdown]. split; assumption.
Qed.

(** X21: on a series with no more bars than the strategy's warm-up,
    [runBacktest] returns no trade and no signal, the all-zero metrics and
    the flat equity curve. *)
Theorem runBacktest_on_a_short_series :
  forall (Math_pow : float -> float -> float) (now : Date)
         (data : list OHLCV) (type : StrategyType) (params : StrategyParams)
         (initialCapital commission slippage : float),
    (length data <= Ledger.warmup type params)%nat ->
    let r := Backtest.runBacktest Math_pow now data type params
               initialCapital commission slippage in
    Backtest.bt_trades r = []
    /\ Backtest.bt_signals r = []
    /\ Backtest.bt_metrics r = Backtest.getEmptyMetrics
    /\ map point_date (Backtest.bt_equityCurve r) = map date data
    /\ map equity (Backtest.bt_equityCurve r)
       = map (fun _ => initialCapital + 0) data.
Proof.
  intros Math_pow now data type params ic comm slip Hshort r. subst r.
  unfold Backtest.runBacktest. cbv zeta.
  rewrite (FlatCurve.short_series Math_pow type data params Hshort).
  cbn [Backtest.bt_trades Backtest.bt_signals Backtest.bt_metrics
       Backtest.bt_equityCurve Strategies.result_trades
       Strategies.result_signals].
  rewrite FlatCurve.generateEquityCurve_no_trades.
  rewrite !map_map. cbn [point_date equity Types.initialCapital].
  repeat split.
Qed.

(** X20 on [HeldTrade.bars] with [Samples.config]. *)
Lemma generateEquityCurve_without_trades_witness :
  map equity (Backtest.generateEquityCurve HeldTrade.bars [] Samples.config)
  = [100000; 100000; 100000]
  /\ map drawdown
       (Backtest.generateEquityCurve HeldTrade.bars [] Samples.config)
     = [0; 0; 0].
Proof.
  destruct (generateEquityCurve_without_trades HeldTrade.bars Samples.config)
    as (_ & _ & _ & H).
  specialize (H eq_refl eq_refl).
  split; reflexivity.
Defined.

(** X21 on [Breakout.three_bars] with the default breakout lookback. *)
Lemma runBacktest_on_a_short_series_witness :
  Backtest.bt_metrics
    (Backtest.runBacktest Samples.pow (Samples.day 0) Breakout.three_bars
       breakout Samples.noParams 100000 0.0005 0.001)
  = Backtest.getEmptyMetrics.
Proof.
  destruct (runBacktest_on_a_short_series Samples.pow (Samples.day 0)
              Breakout.three_bars breakout Samples.noParams
              100000 0.0005 0.001) as (_ & _ & H & _).
  - simpl. lia.
  - exact H.
Defined.

(* ================================================================= *)
(** ** What the metrics read *)

Module MetricsReads.
Import Backtest.

Lemma filter_idem {A} (f : A -> bool) l : filter f (filter f l) = filter f l.
Proof.
  induction l as [| a l IH]; [reflexivity |]. simpl.
  destruct (f a) eqn:E; simpl; rewrite ?E, IH; reflexivity.
Qed.

Lemma filter_all {A} (f : A -> bool) l :
  Forall (fun a => f a = true) l -> filter f l = l.
Proof.
  induction 1 as [| a l Ha _ IH]; [reflexivity |].
  simpl. rewrite Ha, IH. reflexivity.
Qed.

Lemma nonempty_length {A} (l : list A) :
  l <> [] -> (length l =? 0)%nat = false.
Proof. destruct l; [contradiction | reflexivity]. Qed.

Lemma calculateMetrics_closed_only Math_pow trades equityCurve config :
  calculateMetrics Math_pow trades equityCurve config
  = calculateMetrics Math_pow (filter isClosed trades) equityCurve config.
Proof.
  destruct (filter isClosed trades) as [| c closed] eqn:E.
  - unfold calculateMetrics at 1. rewrite E.
    destruct (length trades =? 0)%nat; reflexivity.
  - assert (Hne : trades <> []) by (intros ->; discriminate E).
    unfold calculateMetrics.
    rewrite (nonempty_length trades Hne).
    rewrite <- E. rewrite filter_idem. rewrite E.
    cbn [length Nat.eqb]. reflexivity.
Qed.

End MetricsReads.

(** X22: [calculateMetrics] reads only the CLOSED trades: the report for
    a trade list is the report for its CLOSED trades, so adding, removing
    or changing trades that are not CLOSED changes no metric. *)
Theorem calculateMetrics_ignores_open_trades :
  forall (Math_pow : float -> float -> float) (trades : list Trade)
         (equityCurve : list EquityPoint) (config : BacktestConfig),
    Backtest.calculateMetrics Math_pow trades equityCurve config
    = Backtest.calculateMetrics Math_pow
        (filter Backtest.isClosed trades) equityCurve config.
Proof. intros. apply MetricsReads.calculateMetrics_closed_only. Qed.

(** X23: with a CLOSED trade and an equity curve of fewer than two
    points there is no daily return: the volatility is NaN (0/0), while
    the Sharpe and Sortino ratios are 0. *)
Theorem calculateMetrics_without_daily_returns :
  forall (Math_pow : float -> float -> float) (trades : list Trade)
         (equityCurve : list EquityPoint) (config : BacktestConfig),
    filter Backtest.isClosed trades <> [] ->
    (length equityCurve <= 1)%nat ->
    let m := Backtest.calculateMetrics Math_pow trades equityCurve config in
    isNaN (volatility m) = true
    /\ sharpeRatio m = 0
    /\ sortinoRatio m = 0.
Proof.
  intros Math_pow trades equityCurve config Hne Hlen m. subst m.
  assert (Ht : trades <> []) by (intros ->; apply Hne; reflexivity).
  unfold Backtest.calculateMetrics.
  rewrite (MetricsReads.nonempty_length trades Ht).
  rewrite (MetricsReads.nonempty_length _ Hne).
  cbv zeta. cbn [volatility sharpeRatio sortinoRatio].
  rewrite !(for_loop_done _ _ 1 (length equityCurve)) by assumption.
  repeat split.
Qed.

(** X23 on the closed sample trade with a one-point curve. *)
Lemma calculateMetrics_without_daily_returns_witness :
  isNaN (volatility
           (Backtest.calculateMetrics Samples.pow [Samples.winner]
              [ {| point_date := Samples.day 0; equity := 100000;
                   drawdown := 0; benchmark := 0 |} ]
              Samples.config)) = true.
Proof.
  destruct (calculateMetrics_without_daily_returns Samples.pow
              [Samples.winner]
              [ {| point_date := Samples.day 0; equity := 100000;
                   drawdown := 0; benchmark := 0 |} ]
              Samples.config) as (H & _).
  - discriminate.
  - simpl. lia.
  - exact H.
Defined.

(* ================================================================= *)
(** ** The back-test as a pipeline *)

Module Pipeline.
Import Backtest.

Lemma ledger_all_closed data first trades free :
  Ledger.ledger data first trades free ->
  Forall (fun t => isClosed t = true) trades.
Proof.
  induction 1 as [| trades free i j reason _ IH _ _ _ _]; [constructor |].
  apply Forall_app. split; [assumption |]. repeat constructor.
Qed.

Lemma curve_length data trades config :
  length (generateEquityCurve data trades config) = length data.
Proof.
  rewrite <- (length_map point_date).
  unfold generateEquityCurve, curveAfter.
  rewrite curve_dates. apply length_map.
Qed.

End Pipeline.

(** X24: [runBacktest] chains the three stages: its trades and signals
    are those of [runStrategy]; its configuration carries the arguments
    and, for a series that is not empty, the dates of the first and last
    bar; its equity curve is [generateEquityCurve] of those trades and has
    one point per bar; its metrics are [calculateMetrics] of those trades
    and that curve.  Every returned trade is counted: when there is a
    trade, [totalTrades] is the number of returned trades and
    [commissionPaid] is that number times initialCapital * commission * 2;
    when there is none, the metrics are all 0. *)
Theorem runBacktest_pipeline :
  forall (Math_pow : float -> float -> float) (now : Date)
         (data : list OHLCV) (type : StrategyType) (params : StrategyParams)
         (initialCapital commission slippage : float),
    let s := Strategies.runStrategy Math_pow type data params in
    let r := Backtest.runBacktest Math_pow now data type params
               initialCapital commission slippage in
    Backtest.bt_trades r = Strategies.result_trades s
    /\ Backtest.bt_signals r = Strategies.result_signals s
    /\ Types.initialCapital (Backtest.bt_config r) = initialCapital
    /\ Types.commission (Backtest.bt_config r) = commission
    /\ Types.slippage (Backtest.bt_config r) = slippage
    /\ (forall b, nth_error data 0 = Some b ->
                  startDate (Backtest.bt_config r) = date b)
    /\ (forall b, nth_error data (length data - 1) = Some b ->
                  endDate (Backtest.bt_config r) = date b)
    /\ Backtest.bt_equityCurve r
       = Backtest.generateEquityCurve data (Backtest.bt_trades r)
           (Backtest.bt_config r)
    /\ length (Backtest.bt_equityCurve r) = length data
    /\ Backtest.bt_metrics r
       = Backtest.calculateMetrics Math_pow (Backtest.bt_trades r)
           (Backtest.bt_equityCurve r) (Backtest.bt_config r)
    /\ (Backtest.bt_trades r <> [] ->
        totalTrades (Backtest.bt_metrics r)
        = of_nat (length (Backtest.bt_trades r))
        /\ commissionPaid (Backtest.bt_metrics r)
           = of_nat (length (Backtest.bt_trades r))
             * initialCapital * commission * 2)
    /\ (Backtest.bt_trades r = [] ->
        Backtest.bt_metrics r = Backtest.getEmptyMetrics).
Proof.
  intros Math_pow now data type params ic comm slip s r. subst s r.
  unfold Backtest.runBacktest. cbv zeta.
  cbn [Backtest.bt_trades Backtest.bt_signals Backtest.bt_config
       Backtest.bt_equityCurve Backtest.bt_metrics
       Types.initialCapital Types.commission Types.slippage
       startDate endDate].
  repeat (split; [reflexivity |]).
  split; [intros b ->; reflexivity |].
  split; [intros b ->; reflexivity |].
  split; [reflexivity |].
  split; [apply Pipeline.curve_length |].
  split; [reflexivity |].
  destruct (Booking.runStrategy_ledger Math_pow type data params)
    as [free Hled].
  pose proof (Pipeline.ledger_all_closed _ _ _ _ Hled) as Hclosed.
  set (trades := Strategies.result_trades
                   (Strategies.runStrategy Math_pow type data params)) in *.
  split.
  - intros Hne.
    unfold Backtest.calculateMetrics.
    rewrite (MetricsReads.filter_all _ _ Hclosed).
    rewrite (MetricsReads.nonempty_length trades Hne).
    cbv zeta. cbn [totalTrades commissionPaid].
    split; reflexivity.
  - intros ->. reflexivity.
Qed.

(* ================================================================= *)
(** ** The strategy comparison *)

Module SortFacts.
Import Optimizer.

Lemma insert_perm {A} (cmp : A -> A -> float) x l :
  Permutation (insert cmp x l) (x :: l).
Proof.
  induction l as [| h l IH]; simpl; [reflexivity |].
  destruct (gt (sortCompare cmp x h) 0); [| reflexivity].
  rewrite IH. apply perm_swap.
Qed.

Lemma sort_perm {A} (cmp : A -> A -> float) l : Permutation (sort cmp l) l.
Proof.
  induction l as [| x l IH]; simpl; [reflexivity |].
  rewrite insert_perm. constructor. assumption.
Qed.

Section ByKey.
Context {A : Type} (f : A -> float).

(** The comparator [(a, b) => f(b) - f(a)] puts [x] after [h] exactly
    when [h] has the higher key. *)
Lemma key_after x h :
  PrimFloat.is_nan (f x) = false -> PrimFloat.is_nan (f h) = false ->
  gt (sortCompare (fun a b => f b - f a) x h) 0 = lt (f x) (f h).
Proof.
  intros Nx Nh. unfold sortCompare, gt, lt, isNaN.
  destruct (Binary64.sub_sign (f h) (f x) Nh Nx) as [Hpos _].
  destruct (PrimFloat.is_nan (f h - f x)) eqn:E.
  - rewrite <- Hpos.
    destruct (0 <? f h - f x) eqn:F; [| reflexivity].
    destruct (Binary64.ltb_true_not_nan _ _ F) as [_ N]. congruence.
  - exact Hpos.
Qed.

Lemma insert_sorted x l :
  PrimFloat.is_nan (f x) = false ->
  Forall (fun a => PrimFloat.is_nan (f a) = false) l ->
  StronglySorted (fun a b => lt (f a) (f b) = false) l ->
  StronglySorted (fun a b => lt (f a) (f b) = false)
    (insert (fun a b => f b - f a) x l).
Proof.
  intros Nx Hall Hs. induction Hs as [| h l Hs IH Hh]; simpl.
  - repeat constructor.
  - inversion Hall as [| ? ? Nh Hall']; subst.
    rewrite key_after by assumption.
    destruct (lt (f x) (f h)) eqn:Hlt.
    + constructor; [apply IH; assumption |].
      apply Forall_forall. intros y Hy.
      apply (Permutation_in _ (insert_perm _ x l)) in Hy.
      destruct Hy as [<- | Hy].
      * unfold lt in *. apply FloatFacts.ltb_leb_false in Hlt.
        destruct (f h <? f x) eqn:F; [| reflexivity].
        apply FloatFacts.ltb_leb in F. congruence.
      * rewrite Forall_forall in Hh. apply Hh. assumption.
    + constructor; [constructor; assumption |].
      constructor; [assumption |].
      apply Forall_forall. intros y Hy.
      assert (Ny : PrimFloat.is_nan (f y) = false)
        by (rewrite Forall_forall in Hall'; apply Hall'; assumption).
      rewrite Forall_forall in Hh. specialize (Hh y Hy).
      unfold lt in *.
      rewrite Binary64.ltb_val in Hlt, Hh |- * by assumption.
      apply Z.ltb_ge in Hlt, Hh. apply Z.ltb_ge. lia.
Qed.

Lemma sort_sorted l :
  Forall (fun a => PrimFloat.is_nan (f a) = false) l ->
  StronglySorted (fun a b => lt (f a) (f b) = false)
    (sort (fun a b => f b - f a) l).
Proof.
  induction 1 as [| x l Nx Hall IH]; simpl; [constructor |].
  apply insert_sorted; [assumption | | assumption].
  apply Forall_forall. intros y Hy.
  apply (Permutation_in _ (sort_perm _ l)) in Hy.
  rewrite Forall_forall in Hall. apply Hall. assumption.
Qed.

End ByKey.
End SortFacts.

Module ComparisonFacts.
Import Backtest Comparison ComparisonSpec.

Section WithClock.
Variable Math_pow : float -> float -> float.
Variable performance_now : nat -> float.
Variable now : nat -> Date.

Lemma compare_loop data ic comm slip strategies :
  forall results calls,
    calls = (4 * length results)%nat ->
    fold_left (compareStep Math_pow performance_now now data ic comm slip)
      strategies (results, calls)
    = (results
       ++ mapFrom (entryOf Math_pow performance_now now data ic comm slip)
            (length results) strategies,
       (calls + 4 * length strategies)%nat).
Proof.
  induction strategies as [| choice strategies IH]; intros results calls Hc.
  - cbn [fold_left mapFrom length]. rewrite app_nil_r. f_equal. lia.
  - cbn [fold_left].
    assert (Hstep :
              compareStep Math_pow performance_now now data ic comm slip
                (results, calls) choice
              = (push results
                   (entryOf Math_pow performance_now now data ic comm slip
                      (length results) choice),
                 (calls + 4)%nat)).
    { unfold compareStep, entryOf. cbn [fst snd]. subst calls. reflexivity. }
    rewrite Hstep. rewrite IH by (rewrite push_length; lia).
    rewrite push_length. unfold push. rewrite <- app_assoc.
    cbn [mapFrom app length]. f_equal. lia.
Qed.

Lemma comparisons_mapFrom data strategies ic comm slip :
  comparisons Math_pow performance_now now data strategies ic comm slip
  = mapFrom (entryOf Math_pow performance_now now data ic comm slip)
      0 strategies.
Proof.
  unfold comparisons.
  rewrite (compare_loop data ic comm slip strategies [] 0%nat eq_refl).
  reflexivity.
Qed.

Lemma mapFrom_length {A B} (g : nat -> A -> B) l :
  forall k, length (mapFrom g k l) = length l.
Proof.
  induction l as [| a l IH]; intros k; simpl; [reflexivity |].
  rewrite IH. reflexivity.
Qed.

End WithClock.
End ComparisonFacts.

(** X25: [compareStrategies] back-tests every requested strategy once, in
    the order given, with the same data, capital, commission and slippage,
    and returns those entries, each with the name and type it was
    requested under, reordered by the sort: the result is a permutation of
    the entries, one per requested strategy; and when no Sharpe ratio is
    NaN it is in descending order of Sharpe ratio. *)
Theorem compareStrategies_ranks_every_strategy :
  forall (Math_pow : float -> float -> float)
         (performance_now : nat -> float) (now : nat -> Date)
         (data : list OHLCV) (strategies : list Comparison.StrategyChoice)
         (initialCapital commission slippage : float),
    let entries :=
      ComparisonSpec.mapFrom
        (ComparisonSpec.entryOf Math_pow performance_now now data
           initialCapital commission slippage)
        0 strategies in
    let ranked :=
      Comparison.compareStrategies Math_pow performance_now now data
        strategies initialCapital commission slippage in
    Permutation ranked entries
    /\ length ranked = length strategies
    /\ (Forall (fun c => isNaN (ComparisonSpec.sharpe c) = false) entries ->
        StronglySorted ComparisonSpec.notBelow ranked).
Proof.
  intros Math_pow performance_now now data strategies ic comm slip
    entries ranked.
  subst ranked. unfold Comparison.compareStrategies. cbv zeta.
  rewrite ComparisonFacts.comparisons_mapFrom. fold entries.
  split; [apply SortFacts.sort_perm |].
  split.
  - rewrite (Permutation_length (SortFacts.sort_perm _ entries)).
    apply ComparisonFacts.mapFrom_length.
  - intros Hall.
    apply (SortFacts.sort_sorted ComparisonSpec.sharpe). assumption.
Qed.

(* ================================================================= *)
(** ** The drawdown is never negative *)

Module DrawdownFacts.
Import Backtest FloatFacts.

Lemma shr_fexp_nonneg m e l :
  (0 <= m)%Z -> (0 <= shr_m (fst (shr_fexp prec emax m e l)))%Z.
Proof.
  intros Hm. unfold shr_fexp, shr.
  destruct (fexp prec emax (Zdigits2 m + e) - e)%Z as [| n | n]; simpl.
  - rewrite Binary64.shr_record_of_loc_m. assumption.
  - rewrite Binary64.iter_shr_1_m
      by (rewrite Binary64.shr_record_of_loc_m; assumption).
    rewrite Binary64.shr_record_of_loc_m.
    apply Z.div_pos; [assumption |]. apply Z.pow_pos_nonneg; lia.
  - rewrite Binary64.shr_record_of_loc_m. assumption.
Qed.

Lemma round_nearest_even_nonneg m l :
  (0 <= m)%Z -> (0 <= round_nearest_even m l)%Z.
Proof.
  intros H. unfold round_nearest_even.
  destruct l as [| []]; try lia. destruct (Z.even m); lia.
Qed.

(** Rounding keeps the sign: the result is a zero, a finite number or an
    infinity of the sign given. *)
Lemma binary_round_aux_sign sx p e l :
  (exists s, binary_round_aux prec emax sx (Zpos p) e l = S754_zero sx
             /\ s = sx)
  \/ (exists m' e',
        binary_round_aux prec emax sx (Zpos p) e l = S754_finite sx m' e')
  \/ binary_round_aux prec emax sx (Zpos p) e l = S754_infinity sx.
Proof.
  unfold binary_round_aux.
  pose proof (shr_fexp_nonneg (Zpos p) e l ltac:(lia)) as H1.
  destruct (shr_fexp prec emax (Zpos p) e l) as [mrs' e'].
  simpl in H1.
  pose proof (round_nearest_even_nonneg (shr_m mrs')
                (loc_of_shr_record mrs') H1) as Hr.
  pose proof (shr_fexp_nonneg
                (round_nearest_even (shr_m mrs') (loc_of_shr_record mrs'))
                e' loc_Exact Hr) as H3.
  destruct (shr_fexp prec emax
              (round_nearest_even (shr_m mrs') (loc_of_shr_record mrs'))
              e' loc_Exact) as [mrs'' e''].
  simpl in H3.
  destruct (shr_m mrs'') as [| m | m]; try lia.
  - left. exists sx. split; reflexivity.
  - destruct (e'' <=? emax - prec)%Z.
    + right. left. eauto.
    + right. right. reflexivity.
Qed.

(** A number that is not negative, times a positive finite number, is
    not negative (and not NaN). *)
Lemma mul_nonneg x y :
  (0 <=? x) = true -> (0 <? y) = true -> PrimFloat.is_finite y = true ->
  (0 <=? x * y) = true.
Proof.
  intros Hx Hy Hf.
  rewrite leb_spec in Hx |- *. rewrite ltb_spec in Hy. rewrite mul_spec.
  change (Prim2SF 0) with (S754_zero false) in *.
  destruct (Binary64.is_finite_spec y Hf) as [[sy Ey] | (sy & my & ey & Ey)];
    rewrite Ey in *.
  - destruct sy; discriminate Hy.
  - destruct sy; [discriminate Hy |].
    destruct (Prim2SF x) as [s | s | | s m e].
    + destruct s; reflexivity.
    + destruct s; [discriminate Hx | reflexivity].
    + discriminate Hx.
    + destruct s; [discriminate Hx |].
      unfold SF64mul, SFmul. cbn [xorb].
      destruct (binary_round_aux_sign false (m * my) (e + ey) loc_Exact)
        as [(s & -> & _) | [(m' & e' & ->) | ->]]; reflexivity.
Qed.

(** What holds of the drawdown loop before it looks at point [i]. *)
Lemma drawdownStep_keeps equityCurve i st :
  le 0 (dd_maxDrawdown st) = true ->
  (dd_maxDrawdownDuration st <= i - 1)%nat ->
  le 0 (dd_maxDrawdown (drawdownStep equityCurve i st)) = true
  /\ (dd_maxDrawdownDuration (drawdownStep equityCurve i st) <= i)%nat.
Proof.
  intros Hm Hd. unfold drawdownStep. cbv zeta.
  destruct (gt (equityAt equityCurve i) (dd_peakEquity st));
    cbn [dd_maxDrawdown dd_maxDrawdownDuration].
  - split; [assumption | lia].
  - match goal with
    | |- context [if gt ?d (dd_maxDrawdown st) then _ else _] =>
        destruct (gt d (dd_maxDrawdown st)) eqn:E
    end; cbn [dd_maxDrawdown dd_maxDrawdownDuration].
    + split; [| lia]. unfold le, gt in *.
      apply leb_trans with (b := dd_maxDrawdown st); [assumption |].
      apply ltb_leb. assumption.
    + split; [assumption | lia].
Qed.

Lemma drawdown_loop equityCurve initialCapital :
  let dd := for_loop 0 (length equityCurve) (drawdownStep equityCurve)
              {| dd_maxDrawdown := 0; dd_maxDrawdownDuration := 0;
                 dd_currentDrawdownDuration := 0;
                 dd_peakEquity := initialCapital; dd_drawdownStart := 0 |} in
  le 0 (dd_maxDrawdown dd) = true
  /\ (dd_maxDrawdownDuration dd <= length equityCurve - 1)%nat.
Proof.
  cbv zeta.
  apply (for_loop_indexed
           (fun i st => le 0 (dd_maxDrawdown st) = true
                        /\ (dd_maxDrawdownDuration st <= i - 1)%nat));
    [lia | split; [reflexivity | simpl; lia] |].
  intros i st Hi [Hm Hd].
  destruct (drawdownStep_keeps equityCurve i st Hm Hd) as [H1 H2].
  split; [assumption | lia].
Qed.

End DrawdownFacts.

(** X26: the maximum drawdown [calculateMetrics] reports is never
    negative and never NaN, and its duration is a whole number of bars
    below the length of the equity curve (0 for an empty curve). *)
Theorem calculateMetrics_drawdown_bounds :
  forall (Math_pow : float -> float -> float) (trades : list Trade)
         (equityCurve : list EquityPoint) (config : BacktestConfig),
    let m := Backtest.calculateMetrics Math_pow trades equityCurve config in
    le 0 (maxDrawdown m) = true
    /\ exists bars : nat,
         maxDrawdownDuration m = of_nat bars
         /\ (bars <= length equityCurve - 1)%nat.
Proof.
  intros Math_pow trades equityCurve config m. subst m.
  unfold Backtest.calculateMetrics.
  destruct (length trades =? 0)%nat;
    [split; [reflexivity | exists 0%nat; split; [reflexivity | lia]] |].
  destruct (length (filter Backtest.isClosed trades) =? 0)%nat;
    [split; [reflexivity | exists 0%nat; split; [reflexivity | lia]] |].
  cbv zeta. cbn [maxDrawdown maxDrawdownDuration].
  destruct (DrawdownFacts.drawdown_loop equityCurve (initialCapital config))
    as [Hm Hd].
  split.
  - unfold le in *. apply DrawdownFacts.mul_nonneg;
      [assumption | reflexivity | reflexivity].
  - eexists. split; [reflexivity | exact Hd].
Qed.

(* ================================================================= *)
(** ** The buy-and-hold benchmark *)

Module BenchmarkFacts.
Import Backtest.

Lemma benchmarks data trades config seen :
  forall st,
    map benchmark
      (equityCurve (fold_left (curveStep data trades config) seen st))
    = map benchmark (equityCurve st)
      ++ map (fun candle =>
                ((close candle - firstPriceOf data) / firstPriceOf data)
                * 100)
          seen.
Proof.
  induction seen as [| candle seen IH]; intros st; simpl.
  - rewrite app_nil_r. reflexivity.
  - rewrite IH. unfold curveStep. cbv zeta. cbn [equityCurve].
    rewrite exits_curve, entryStep_curve.
    unfold push. rewrite map_app, <- app_assoc. reflexivity.
Qed.

Lemma positive_truthy c : gt c 0 = true -> truthy c = true.
Proof.
  intros H. unfold truthy, gt in *.
  destruct (Binary64.ltb_true_not_nan _ _ H) as [_ Hn]. rewrite Hn.
  unfold PrimFloat.is_zero. cbn [orb negb].
  destruct (c =? zero) eqn:E; [| reflexivity].
  apply Binary64.eqb_zero_not_gt in E. congruence.
Qed.

End BenchmarkFacts.

(** X27: the benchmark of every point is the bar's close relative to the
    first close of the series, in percent; when that first close is 0 or
    NaN the base price is 1 instead; and for a positive finite first
    close the benchmark of the first point is 0. *)
Theorem generateEquityCurve_benchmark :
  forall (data : list OHLCV) (trades : list Trade) (config : BacktestConfig)
         (first : OHLCV) (rest : list OHLCV),
    data = first :: rest ->
    let curve := Backtest.generateEquityCurve data trades config in
    let base := if truthy (close first) then close first else 1 in
    map benchmark curve
    = map (fun candle => ((close candle - base) / base) * 100) data
    /\ (gt (close first) 0 = true ->
        PrimFloat.is_finite (close first) = true ->
        base = close first
        /\ option_map benchmark (nth_error curve 0) = Some 0).
Proof.
  intros data trades config first rest Hdata curve base. subst curve.
  assert (Hbase : Backtest.firstPriceOf data = base).
  { subst data. reflexivity. }
  assert (Hmap : map benchmark
                   (Backtest.generateEquityCurve data trades config)
                 = map (fun candle => ((close candle - base) / base) * 100)
                     data).
  { unfold Backtest.generateEquityCurve, Backtest.curveAfter.
    rewrite BenchmarkFacts.benchmarks, Hbase. reflexivity. }
  split; [exact Hmap |].
  intros Hpos Hfin.
  assert (Hb : base = close first).
  { unfold base. rewrite (BenchmarkFacts.positive_truthy _ Hpos).
    reflexivity. }
  split; [exact Hb |].
  rewrite <- nth_error_map, Hmap, Hdata. cbn [map nth_error].
  rewrite Hb, (FlatCurve.sub_self _ Hfin).
  unfold gt in Hpos. rewrite (Binary64.zero_div_pos _ Hpos). reflexivity.
Qed.

(** X27 on [HeldTrade.bars] with the held trade. *)
Lemma generateEquityCurve_benchmark_witness :
  map benchmark
    (Backtest.generateEquityCurve HeldTrade.bars [HeldTrade.held]
       Samples.config)
  = [0; 20; 10].
Proof.
  destruct (generateEquityCurve_benchmark HeldTrade.bars [HeldTrade.held]
              Samples.config
              {| date := Samples.day 0; open := 10; high := 10; low := 10;
                 close := 10; volume := 100 |}
              [ {| date := Samples.day 1; open := 10; high := 12; low := 10;
                   close := 12; volume := 100 |};
                {| date := Samples.day 2; open := 12; high := 12; low := 11;
                   close := 11; volume := 100 |} ]
              eq_refl) as [H _].
  rewrite H. reflexivity.
Defined.

(* ================================================================= *)
(** ** The RSI of a series that never falls *)

Module RSINeverFalls.
Import RSISpec RSIFlat.
Import Indicators.

Lemma ltb_nan_l a b : PrimFloat.is_nan a = true -> (a <? b) = false.
Proof.
  intros H. destruct (a <? b) eqn:E; [| reflexivity].
  apply Binary64.ltb_true_not_nan in E. destruct E as [E _]. congruence.
Qed.

(** A difference is below zero only if its first operand is below the
    second. *)
Lemma sub_not_negative a b : (a <? b) = false -> (a - b <? 0) = false.
Proof.
  intros H.
  destruct (PrimFloat.is_nan a) eqn:Na;
    [apply ltb_nan_l, FloatFacts.sub_nan_l; assumption |].
  destruct (PrimFloat.is_nan b) eqn:Nb;
    [apply ltb_nan_l, FloatFacts.sub_nan_r; assumption |].
  destruct (Binary64.sub_sign a b Na Nb) as [_ Hneg].
  rewrite Hneg. assumption.
Qed.

Lemma no_loss data :
  neverFalls data -> Forall (fun x => x = 0) (snd (rsiChanges data)).
Proof.
  intros Hnf. unfold rsiChanges.
  apply (for_loop_invariant (fun gl => Forall (fun x => x = 0) (snd gl))).
  - constructor.
  - intros i gl Hi Hall. cbv zeta. cbn [snd].
    unfold push. apply Forall_app. split; [assumption |].
    constructor; [| constructor].
    assert (H : lt (get data i) (get data (i - 1)) = false).
    { specialize (Hnf (i - 1)%nat).
      replace (Datatypes.S (i - 1)) with i in Hnf by lia.
      apply Hnf. lia. }
    unfold lt in *. rewrite (sub_not_negative _ _ H). reflexivity.
Qed.

Lemma losses_count data :
  length (snd (rsiChanges data)) = (length data - 1)%nat.
Proof.
  change (rsiChanges data)
    with (for_loop 1 (length data) (changeStep data) ([], [])).
  generalize (length data). intros n.
  induction n as [| n IH]; [reflexivity |].
  destruct n as [| n]; [reflexivity |].
  rewrite for_loop_last by lia. unfold changeStep at 1. cbv zeta.
  cbn [snd]. rewrite push_length, IH. lia.
Qed.

Lemma sum_of_zeros l : Forall (fun x => x = 0) l -> sum l = 0.
Proof.
  unfold sum. induction 1 as [| x l Hx _ IH]; [reflexivity |].
  simpl. subst x. exact IH.
Qed.

Lemma firstn_of_zeros n l :
  Forall (fun x => x = 0) l -> Forall (fun x => x = 0) (firstn n l).
Proof.
  intros H. revert n. induction H as [| x l Hx _ IH]; intros [| n]; simpl;
    try constructor; auto.
Qed.

Lemma avgLoss_stays_zero data period i :
  (1 <= period)%nat -> periodOk period = true ->
  Forall (fun x => x = 0) (snd (rsiChanges data)) ->
  (period <= i)%nat -> (i < length data)%nat ->
  avgLoss (rsiLoop data period (Datatypes.S i)) = 0.
Proof.
  intros Hp Hok Hzero Hpi Hi.
  unfold periodOk in Hok. apply andb_prop in Hok. destruct Hok as [Hpos Hfin].
  induction i as [| i IH]; [lia |].
  unfold rsiLoop in *. cbv zeta in *. rewrite for_loop_last by lia.
  unfold rsiStep at 1.
  assert (E0 : (Datatypes.S i =? 0)%nat = false) by reflexivity.
  assert (E1 : (Datatypes.S i <? period)%nat = false)
    by (apply Nat.ltb_ge; lia).
  rewrite E0, E1.
  destruct (Datatypes.S i =? period)%nat eqn:E2; cbv zeta; cbn [avgLoss].
  - rewrite sum_of_zeros.
    + apply Binary64.zero_div_pos. exact Hpos.
    + unfold slice. rewrite skipn_O. apply firstn_of_zeros. assumption.
  - apply Nat.eqb_neq in E2.
    rewrite IH by lia.
    replace (get (snd (rsiChanges data)) (Datatypes.S i - 1)) with 0.
    + rewrite Binary64.zero_mul_add_zero by assumption.
      apply Binary64.zero_div_pos. exact Hpos.
    + symmetry. rewrite Forall_forall in Hzero. apply Hzero.
      unfold get. apply nth_In. rewrite losses_count. lia.
Qed.

Lemma period_ok period :
  (1 <= period)%nat -> (Z.of_nat period < 2 ^ 63)%Z -> periodOk period = true.
Proof.
  intros H1 H2. unfold periodOk, of_nat, of_Z, lt.
  destruct (Z.of_nat period) as [| q | q] eqn:E; try lia.
  destruct (Binary64.of_uint63_finite q H2) as (m & e & Hm & He & Hd).
  apply andb_true_intro. split.
  - rewrite ltb_spec, Hm. reflexivity.
  - apply (Binary64.sub_one_finite _ m e); assumption.
Qed.

(** The value pushed at a turn from the period on, when the average loss
    it computes is zero. *)
Lemma rsiStep_fallback gains losses period i st :
  (1 <= period)%nat -> (period <= i)%nat ->
  avgLoss (rsiStep gains losses period i st) = 0 ->
  rsi_result (rsiStep gains losses period i st)
  = push (rsi_result st) fallbackRSI.
Proof.
  intros Hp Hpi. unfold rsiStep.
  assert (E0 : (i =? 0)%nat = false) by (apply Nat.eqb_neq; lia).
  assert (E1 : (i <? period)%nat = false) by (apply Nat.ltb_ge; lia).
  rewrite E0, E1.
  destruct (i =? period)%nat; cbv zeta; cbn [avgLoss rsi_result];
    intros ->; reflexivity.
Qed.

Lemma rsi_length data period n :
  length (rsi_result (rsiLoop data period n)) = n.
Proof.
  unfold rsiLoop. cbv zeta.
  rewrite (for_loop_measure (fun st => length (rsi_result st))); [simpl; lia |].
  intros i s. unfold rsiStep. cbv zeta.
  destruct (i =? 0)%nat; [apply push_length |].
  destruct (i <? period)%nat; [apply push_length |].
  destruct (i =? period)%nat; apply push_length.
Qed.

Lemma rsi_stable data period i : forall n,
  (i < n)%nat ->
  get (rsi_result (rsiLoop data period n)) i
  = get (rsi_result (rsiLoop data period (Datatypes.S i))) i.
Proof.
  induction n as [| n IH]; intros Hi; [lia |].
  destruct (Nat.eq_dec i n) as [-> | Hne]; [reflexivity |].
  rewrite <- IH by lia.
  unfold rsiLoop at 1. cbv zeta. rewrite for_loop_last by lia.
  fold (rsiLoop data period n).
  assert (Hpush : exists v,
             rsi_result
               (rsiStep (fst (rsiChanges data)) (snd (rsiChanges data))
                  period n (rsiLoop data period n))
             = push (rsi_result (rsiLoop data period n)) v).
  { unfold rsiStep.
    destruct (n =? 0)%nat; [eexists; reflexivity |].
    destruct (n <? period)%nat; [eexists; reflexivity |].
    destruct (n =? period)%nat; eexists; reflexivity. }
  destruct Hpush as [v ->].
  apply get_push_lt. rewrite rsi_length. lia.
Qed.

Lemma never_falls_value data period i :
  (1 <= period)%nat -> periodOk period = true -> neverFalls data ->
  (period <= i)%nat -> (i < length data)%nat ->
  get (calculateRSI data period) i = fallbackRSI.
Proof.
  intros Hp Hok Hnf Hpi Hi.
  pose proof (avgLoss_stays_zero data period i Hp Hok (no_loss data Hnf)
                Hpi Hi) as Hz.
  unfold calculateRSI. rewrite (rsi_stable data period i _ Hi).
  unfold rsiLoop in *. cbv zeta in *.
  rewrite for_loop_last in Hz |- * by lia.
  rewrite (rsiStep_fallback _ _ _ _ _ Hp Hpi Hz).
  match goal with
  | |- get (push ?l ?x) i = _ =>
      pose proof (get_push_eq l x) as E
  end.
  fold (rsiLoop data period i) in E |- *.
  rewrite rsi_length in E. exact E.
Qed.

End RSINeverFalls.

(** X28: on a series that never falls (no value below the one before:
    rising, flat, or both) no loss is ever recorded, so from index
    [period] on [calculateRSI] returns 100 - 100/101 = 99.0099...; in
    particular a flat market reads as overbought, not as neutral. *)
Theorem calculateRSI_of_a_series_that_never_falls :
  forall (data : list float) (period i : nat),
    (1 <= period)%nat -> (Z.of_nat period < 2 ^ 53)%Z ->
    RSIFlat.neverFalls data ->
    (period <= i)%nat -> (i < length data)%nat ->
    get (Indicators.calculateRSI data period) i = RSISpec.fallbackRSI
    /\ gt (get (Indicators.calculateRSI data period) i) 70 = true.
Proof.
  intros data period i Hp Hbig Hnf Hpi Hi.
  rewrite (RSINeverFalls.never_falls_value data period i); try assumption.
  - split; reflexivity.
  - apply RSINeverFalls.period_ok; [assumption | lia].
Qed.

(** X28 on a flat series of four values with period 2. *)
Lemma calculateRSI_of_a_series_that_never_falls_witness :
  get (Indicators.calculateRSI [5; 5; 5; 5] 2) 3 = RSISpec.fallbackRSI.
Proof.
  destruct (calculateRSI_of_a_series_that_never_falls [5; 5; 5; 5] 2 3)
    as [H _].
  - lia.
  - reflexivity.
  - intros i Hi. simpl in Hi.
    destruct i as [| [| [| i]]]; try reflexivity. lia.
  - lia.
  - simpl. lia.
  - exact H.
Defined.

(* ================================================================= *)
(** ** The EMA crossover strategy and [detectCrossover] *)

Module CrossoverEntry.
Import Indicators Strategies IndicatorSpec.

Lemma crossAt_one fast slow i :
  (1 <= i)%nat ->
  gt (get fast i) (get slow i) && le (get fast (i - 1)) (get slow (i - 1))
  = true ->
  crossAt fast slow i = 1.
Proof.
  intros Hi H. unfold crossAt. rewrite H.
  apply andb_prop in H. destruct H as [Hgt Hle]. unfold gt, le in *.
  destruct (Binary64.ltb_true_not_nan _ _ Hgt) as [Ns Nf].
  destruct (Binary64.leb_true_not_nan _ _ Hle) as [Nf' Ns'].
  unfold isNaN. rewrite Nf, Ns, Nf', Ns'.
  destruct (Nat.eqb_spec i 0); [lia | reflexivity].
Qed.

Lemma crossAt_minus_one fast slow i :
  (1 <= i)%nat ->
  lt (get fast i) (get slow i) && ge (get fast (i - 1)) (get slow (i - 1))
  = true ->
  crossAt fast slow i = -1.
Proof.
  intros Hi H. unfold crossAt. rewrite H.
  apply andb_prop in H. destruct H as [Hlt Hge]. unfold lt, ge in *.
  destruct (Binary64.ltb_true_not_nan _ _ Hlt) as [Nf Ns].
  destruct (Binary64.leb_true_not_nan _ _ Hge) as [Ns' Nf'].
  unfold isNaN. rewrite Nf, Ns, Nf', Ns'.
  destruct (Nat.eqb_spec i 0); [lia |]. cbn [orb].
  assert (Hup : gt (get fast i) (get slow i) = false).
  { unfold gt. destruct (get slow i <? get fast i) eqn:E; [| reflexivity].
    apply FloatFacts.ltb_leb_false in E.
    apply FloatFacts.ltb_leb in Hlt. congruence. }
  rewrite Hup. reflexivity.
Qed.

End CrossoverEntry.

(** X29: the EMA crossover strategy trades on the crosses
    [detectCrossover] marks.  At a bar [i >= 1] within the averages,
    while flat, the scan buys exactly when [detectCrossover(fastEMA,
    slowEMA)[i]] is 1; while in position, a bar marked -1 closes the
    trade at the bar's close with the reason "EMA cross down". *)
Theorem emaCrossover_trades_on_detected_crosses :
  forall (data : list OHLCV) (fastEMA slowEMA : list float)
         (fastPeriod slowPeriod : nat) (stopLossPercent takeProfitPercent : float)
         (i : nat) (st : Strategies.Run),
    (1 <= i)%nat -> (i < length fastEMA)%nat ->
    let cross := get (Indicators.detectCrossover fastEMA slowEMA) i in
    let b := Indicators.bar data i in
    let st' :=
      Strategies.emaCrossoverStep data fastEMA slowEMA fastPeriod slowPeriod
        stopLossPercent takeProfitPercent i st in
    (Strategies.currentTrade st = None ->
     (cross = 1 ->
      st' = Strategies.enter st (date b) (close b)
              [Text "EMA Crossover: EMA("; Num (of_nat fastPeriod);
               Text ") crossed above EMA("; Num (of_nat slowPeriod);
               Text ")"])
     /\ (cross <> 1 -> st' = st))
    /\ (forall t, Strategies.currentTrade st = Some t ->
          cross = -1 ->
          st' = Strategies.leave st t (date b) (close b)
                  (Strategies.pnlPercentOf (close b) (entryPrice t))
                  [Text "EMA cross down"] [Text "EMA cross down"]).
Proof.
  intros data fastEMA slowEMA fastPeriod slowPeriod sl tp i st Hi Hlen
    cross b st'.
  subst cross st' b.
  rewrite (CrossFacts.detectCrossover_crossAt fastEMA slowEMA i Hlen).
  unfold Strategies.emaCrossoverStep. cbv zeta.
  split.
  - intros Hnone. rewrite Hnone. split.
    + intros H1. apply CrossFacts.crossAt_up in H1.
      destruct H1 as (_ & Hgt & Hle).
      unfold gt, le in Hgt, Hle.
      destruct (Binary64.ltb_true_not_nan _ _ Hgt) as [Ns Nf].
      unfold isNaN, gt, le. rewrite Nf, Ns, Hgt, Hle. reflexivity.
    + intros Hne.
      destruct (isNaN (get fastEMA i) || isNaN (get slowEMA i));
        [reflexivity |].
      destruct (gt (get fastEMA i) (get slowEMA i)
                && le (get fastEMA (i - 1)) (get slowEMA (i - 1))) eqn:E;
        [| reflexivity].
      contradiction Hne.
      apply CrossoverEntry.crossAt_one; assumption.
  - intros t Hsome H1. rewrite Hsome.
    apply CrossFacts.crossAt_down in H1. destruct H1 as (_ & Hlt & Hge).
    unfold lt, ge in Hlt, Hge.
    destruct (Binary64.ltb_true_not_nan _ _ Hlt) as [Nf Ns].
    unfold isNaN, lt, ge. rewrite Nf, Ns, Hlt, Hge. reflexivity.
Qed.

(** X29 on a fast average crossing above a flat slow one at bar 1 of
    [Breakout.three_bars]. *)
Lemma emaCrossover_trades_on_detected_crosses_witness :
  Strategies.currentTrade
    (Strategies.emaCrossoverStep Breakout.three_bars [1; 3; 4] [2; 2; 2]
       9 21 2 3 1 Strategies.start)
  <> None.
Proof.
  destruct (emaCrossover_trades_on_detected_crosses Breakout.three_bars
              [1; 3; 4] [2; 2; 2] 9 21 2 3 1 Strategies.start)
    as [H _].
  - lia.
  - simpl. lia.
  - destruct (H eq_refl) as [Henter _].
    rewrite Henter by reflexivity. discriminate.
Defined.

(* ================================================================= *)
(** ** The opening prices are never read *)

Module OpenFacts.
Import Indicators Strategies Backtest OpenPrices.

Lemma bar_strip data i : bar (map strip data) i = strip (bar data i).
Proof. unfold bar. change no_bar with (strip no_bar). apply map_nth. Qed.

Lemma slice_map {A B} (f : A -> B) from to l :
  slice from to (map f l) = map f (slice from to l).
Proof. unfold slice. rewrite skipn_map, firstn_map. reflexivity. Qed.

Lemma closes_strip data : map close (map strip data) = map close data.
Proof. rewrite map_map. reflexivity. Qed.

Lemma highs_strip l : map high (map strip l) = map high l.
Proof. rewrite map_map. reflexivity. Qed.

Lemma lows_strip l : map low (map strip l) = map low l.
Proof. rewrite map_map. reflexivity. Qed.

Ltac unstrip :=
  rewrite ?length_map, ?closes_strip, ?bar_strip, ?slice_map, ?highs_strip,
    ?lows_strip;
  cbn [strip date high low close volume].

Lemma calculateATR_strip data period :
  calculateATR (map strip data) period = calculateATR data period.
Proof.
  unfold calculateATR. cbv zeta. rewrite length_map.
  assert (H : forall n,
             for_loop 0 n
               (fun i tr =>
                  if (i =? 0)%nat
                  then push tr (high (bar (map strip data) i)
                                - low (bar (map strip data) i))
                  else push tr
                         (Math_max
                            [high (bar (map strip data) i)
                             - low (bar (map strip data) i);
                             Math_abs (high (bar (map strip data) i)
                                       - close (bar (map strip data) (i - 1)));
                             Math_abs (low (bar (map strip data) i)
                                       - close (bar (map strip data) (i - 1)))]))
               []
             = for_loop 0 n
                 (fun i tr =>
                    if (i =? 0)%nat
                    then push tr (high (bar data i) - low (bar data i))
                    else push tr
                           (Math_max
                              [high (bar data i) - low (bar data i);
                               Math_abs (high (bar data i)
                                         - close (bar data (i - 1)));
                               Math_abs (low (bar data i)
                                         - close (bar data (i - 1)))]))
                 []).
  { intros n. apply for_loop_congr. intros i s _. unstrip. reflexivity. }
  rewrite H. reflexivity.
Qed.

Lemma calculateVWAP_strip data :
  calculateVWAP (map strip data) = calculateVWAP data.
Proof.
  unfold calculateVWAP. rewrite length_map. f_equal.
  apply for_loop_congr. intros i s _. unfold vwapStep. unstrip. reflexivity.
Qed.

Lemma calculateStochastic_strip data kPeriod dPeriod :
  calculateStochastic (map strip data) kPeriod dPeriod
  = calculateStochastic data kPeriod dPeriod.
Proof.
  unfold calculateStochastic. cbv zeta. rewrite length_map.
  assert (H : forall n,
             for_loop 0 n
               (fun i kValues =>
                  if (i <? kPeriod - 1)%nat then push kValues nan
                  else
                    if JS.eq
                         (Math_max
                            (map high
                               (slice (i + 1 - kPeriod) (i + 1)
                                  (map strip data))))
                         (Math_min
                            (map low
                               (slice (i + 1 - kPeriod) (i + 1)
                                  (map strip data))))
                    then push kValues 50
                    else
                      push kValues
                        (((close (bar (map strip data) i)
                           - Math_min
                               (map low
                                  (slice (i + 1 - kPeriod) (i + 1)
                                     (map strip data))))
                          / (Math_max
                               (map high
                                  (slice (i + 1 - kPeriod) (i + 1)
                                     (map strip data)))
                             - Math_min
                                 (map low
                                    (slice (i + 1 - kPeriod) (i + 1)
                                       (map strip data)))))
                         * 100))
               []
             = for_loop 0 n
                 (fun i kValues =>
                    if (i <? kPeriod - 1)%nat then push kValues nan
                    else
                      if JS.eq
                           (Math_max
                              (map high
                                 (slice (i + 1 - kPeriod) (i + 1) data)))
                           (Math_min
                              (map low
                                 (slice (i + 1 - kPeriod) (i + 1) data)))
                      then push kValues 50
                      else
                        push kValues
                          (((close (bar data i)
                             - Math_min
                                 (map low
                                    (slice (i + 1 - kPeriod) (i + 1) data)))
                            / (Math_max
                                 (map high
                                    (slice (i + 1 - kPeriod) (i + 1) data))
                               - Math_min
                                   (map low
                                      (slice (i + 1 - kPeriod) (i + 1)
                                         data))))
                           * 100))
                 []).
  { intros n. apply for_loop_congr. intros i s _. unstrip. reflexivity. }
  rewrite H. reflexivity.
Qed.

Section WithPow.
Variable Math_pow : float -> float -> float.

Lemma scanOf_strip type data params :
  scanOf Math_pow type (map strip data) params
  = scanOf Math_pow type data params.
Proof.
  destruct type; cbn [scanOf].
  - unfold meanReversionScan. cbv zeta. unstrip.
    apply for_loop_congr. intros i s _.
    unfold meanReversionStep. unstrip. reflexivity.
  - unfold momentumScan. cbv zeta. unstrip.
    apply for_loop_congr. intros i s _.
    unfold momentumStep. unstrip. reflexivity.
  - unfold vwapBounceScan. cbv zeta. unstrip.
    rewrite calculateVWAP_strip.
    apply for_loop_congr. intros i s _.
    unfold vwapBounceStep. unstrip. reflexivity.
  - unfold rsiScan. cbv zeta. unstrip.
    apply for_loop_congr. intros i s _.
    unfold Strategies.rsiStep. unstrip. reflexivity.
  - unfold breakoutScan. cbv zeta. unstrip.
    apply for_loop_congr. intros i s _.
    unfold breakoutStep. unstrip. reflexivity.
  - unfold emaCrossoverScan. cbv zeta. unstrip.
    apply for_loop_congr. intros i s _.
    unfold emaCrossoverStep. unstrip. reflexivity.
  - unfold stochasticScan. cbv zeta. unstrip.
    rewrite calculateStochastic_strip.
    apply for_loop_congr. intros i s _.
    unfold stochasticStep. unstrip. reflexivity.
  - unfold atrTrailingStopScan. cbv zeta. unstrip.
    rewrite calculateATR_strip. f_equal.
    apply for_loop_congr. intros i s _.
    unfold atrTrailingStopStep. unstrip. reflexivity.
  - unfold combinedScan. cbv zeta. unstrip.
    rewrite calculateStochastic_strip.
    apply for_loop_congr. intros i s _.
    unfold combinedStep. unstrip. reflexivity.
Qed.

Lemma runStrategy_strip type data params :
  runStrategy Math_pow type (map strip data) params
  = runStrategy Math_pow type data params.
Proof.
  rewrite !Booking.runStrategy_scanOf, scanOf_strip.
  unfold closeAtEnd. unstrip. reflexivity.
Qed.

Lemma firstPriceOf_strip data :
  firstPriceOf (map strip data) = firstPriceOf data.
Proof. unfold firstPriceOf. destruct data; reflexivity. Qed.

Lemma curve_strip data trades config seen :
  forall st,
    fold_left (curveStep (map strip data) trades config) (map strip seen) st
    = fold_left (curveStep data trades config) seen st.
Proof.
  induction seen as [| candle seen IH]; intros st; [reflexivity |].
  cbn [map fold_left]. rewrite IH. f_equal.
  unfold curveStep, unrealizedPnLOf. rewrite firstPriceOf_strip.
  reflexivity.
Qed.

Lemma runBacktest_strip now data type params ic comm slip :
  runBacktest Math_pow now (map strip data) type params ic comm slip
  = runBacktest Math_pow now data type params ic comm slip.
Proof.
  unfold runBacktest. cbv zeta. rewrite runStrategy_strip, length_map.
  rewrite !nth_error_map.
  assert (Hs : match option_map strip (nth_error data 0) with
               | Some b => date b
               | None => now
               end
               = match nth_error data 0 with
                 | Some b => date b
                 | None => now
                 end)
    by (destruct (nth_error data 0); reflexivity).
  assert (He : match option_map strip (nth_error data (length data - 1)) with
               | Some b => date b
               | None => now
               end
               = match nth_error data (length data - 1) with
                 | Some b => date b
                 | None => now
                 end)
    by (destruct (nth_error data (length data - 1)); reflexivity).
  rewrite Hs, He.
  unfold generateEquityCurve, curveAfter. rewrite curve_strip.
  reflexivity.
Qed.

End WithPow.
End OpenFacts.

(** X30: the opening prices are never read: two series that agree on the
    date, high, low, close and volume of every bar give the same
    back-test (the same trades, signals, equity curve, metrics and
    configuration), whatever the strategy. *)
Theorem runBacktest_ignores_the_open :
  forall (Math_pow : float -> float -> float) (now : Date)
         (data data' : list OHLCV) (type : StrategyType)
         (params : StrategyParams) (initialCapital commission slippage : float),
    OpenPrices.sameButOpen data data' ->
    Backtest.runBacktest Math_pow now data type params
      initialCapital commission slippage
    = Backtest.runBacktest Math_pow now data' type params
        initialCapital commission slippage.
Proof.
  intros Math_pow now data data' type params ic comm slip Hsame.
  rewrite <- (OpenFacts.runBacktest_strip Math_pow now data).
  rewrite <- (OpenFacts.runBacktest_strip Math_pow now data').
  unfold OpenPrices.sameButOpen in Hsame. rewrite Hsame. reflexivity.
Qed.

(** X30 on [Breakout.three_bars] and the same bars with other opens, for
    the breakout strategy with a lookback of one bar. *)
Lemma runBacktest_ignores_the_open_witness :
  Backtest.runBacktest Samples.pow (Samples.day 0) Breakout.three_bars
    breakout OpenSample.lookbackOne 100000 0.0005 0.001
  = Backtest.runBacktest Samples.pow (Samples.day 0) OpenSample.reopened
      breakout OpenSample.lookbackOne 100000 0.0005 0.001.
Proof.
  apply (runBacktest_ignores_the_open Samples.pow (Samples.day 0)
           Breakout.three_bars OpenSample.reopened breakout
           OpenSample.lookbackOne 100000 0.0005 0.001).
  reflexivity.
Defined.

(* ================================================================= *)
(** ** The parameters a strategy reads *)

Module ParamsFacts.
Import Indicators Strategies Backtest ParamsRead.

Section WithPow.
Variable Math_pow : float -> float -> float.

Lemma runStrategy_sameFor type data p q :
  sameFor type p q ->
  runStrategy Math_pow type data p = runStrategy Math_pow type data q.
Proof.
  destruct type; cbn [sameFor runStrategy].
  - intros (H1 & H2 & H3).
    unfold meanReversionStrategy, meanReversionScan. cbv zeta.
    rewrite H1, H2, H3. reflexivity.
  - intros (H1 & H2 & H3 & H4).
    unfold momentumStrategy, momentumScan. cbv zeta.
    rewrite H1, H2, H3, H4. reflexivity.
  - intros (H1 & H2 & H3).
    unfold vwapBounceStrategy, vwapBounceScan. cbv zeta.
    rewrite H1, H2, H3. reflexivity.
  - intros (H1 & H2 & H3 & H4).
    unfold rsiStrategy, rsiScan. cbv zeta.
    rewrite H1, H2, H3, H4. reflexivity.
  - intros (H1 & H2 & H3).
    unfold breakoutStrategy, breakoutScan. cbv zeta.
    rewrite H1, H2, H3. reflexivity.
  - intros (H1 & H2 & H3 & H4).
    unfold emaCrossoverStrategy, emaCrossoverScan. cbv zeta.
    rewrite H1, H2, H3, H4. reflexivity.
  - intros (H1 & H2).
    unfold stochasticStrategy, stochasticScan. cbv zeta.
    rewrite H1, H2. reflexivity.
  - intros (H1 & H2).
    unfold atrTrailingStopStrategy, atrTrailingStopScan. cbv zeta.
    rewrite H1, H2. reflexivity.
  - intros _. reflexivity.
Qed.

(** The equity curve and the metrics read the capital, the costs and the
    two dates of the configuration, not its strategy or parameters. *)
Lemma generateEquityCurve_config data trades type p q ic comm slip d1 d2 :
  generateEquityCurve data trades
    {| strategy := type; params := p; initialCapital := ic;
       commission := comm; slippage := slip; startDate := d1; endDate := d2 |}
  = generateEquityCurve data trades
      {| strategy := type; params := q; initialCapital := ic;
         commission := comm; slippage := slip; startDate := d1;
         endDate := d2 |}.
Proof. reflexivity. Qed.

Lemma calculateMetrics_config trades curve type p q ic comm slip d1 d2 :
  calculateMetrics Math_pow trades curve
    {| strategy := type; params := p; initialCapital := ic;
       commission := comm; slippage := slip; startDate := d1; endDate := d2 |}
  = calculateMetrics Math_pow trades curve
      {| strategy := type; params := q; initialCapital := ic;
         commission := comm; slippage := slip; startDate := d1;
         endDate := d2 |}.
Proof. reflexivity. Qed.

End WithPow.
End ParamsFacts.

(** X5: each strategy reads only the parameters it destructures, with its
    default standing for a missing one: [lookbackPeriod],
    [stdDevMultiplier] and [stopLossPercent] for mean reversion (not
    [takeProfitPercent]); the two periods, stop and target for momentum
    and EMA crossover; [vwapDeviation], stop and target for VWAP bounce;
    the two RSI levels, stop and target for RSI; [lookbackPeriod], stop
    and target for breakout; stop and target for stochastic;
    [lookbackPeriod] and [atrMultiplier] for ATR trailing (no stop or
    target); nothing for the combined strategy.  Parameter objects that
    agree on those give the same trades, signals, equity curve and
    metrics. *)
Theorem runBacktest_reads_only_its_parameters :
  forall (Math_pow : float -> float -> float) (now : Date)
         (data : list OHLCV) (type : StrategyType) (p q : StrategyParams)
         (initialCapital commission slippage : float),
    ParamsRead.sameFor type p q ->
    let rp := Backtest.runBacktest Math_pow now data type p
                initialCapital commission slippage in
    let rq := Backtest.runBacktest Math_pow now data type q
                initialCapital commission slippage in
    Strategies.runStrategy Math_pow type data p
    = Strategies.runStrategy Math_pow type data q
    /\ Backtest.bt_trades rp = Backtest.bt_trades rq
    /\ Backtest.bt_signals rp = Backtest.bt_signals rq
    /\ Backtest.bt_equityCurve rp = Backtest.bt_equityCurve rq
    /\ Backtest.bt_metrics rp = Backtest.bt_metrics rq.
Proof.
  intros Math_pow now data type p q ic comm slip Hsame rp rq.
  pose proof (ParamsFacts.runStrategy_sameFor Math_pow type data p q Hsame)
    as Hrun.
  subst rp rq. unfold Backtest.runBacktest. cbv zeta.
  cbn [Backtest.bt_trades Backtest.bt_signals Backtest.bt_equityCurve
       Backtest.bt_metrics].
  rewrite Hrun.
  split; [reflexivity |]. split; [reflexivity |]. split; [reflexivity |].
  split.
  - apply ParamsFacts.generateEquityCurve_config.
  - rewrite (ParamsFacts.generateEquityCurve_config data _ type p q).
    apply ParamsFacts.calculateMetrics_config.
Qed.

(** X5 on the breakout strategy over [Breakout.three_bars], where a
    look-back of one bar trades once: parameters that set that look-back
    alone, and parameters that also write out the default stop and target
    and set the seven fields the strategy does not read, give the same
    trade, signals, equity curve and metrics. *)
Lemma runBacktest_reads_only_its_parameters_witness :
  let rp := Backtest.runBacktest Samples.pow (Samples.day 0)
              Breakout.three_bars breakout OpenSample.lookbackOne
              100000 0.0005 0.001 in
  let rq := Backtest.runBacktest Samples.pow (Samples.day 0)
              Breakout.three_bars breakout ParamsRead.spelled
              100000 0.0005 0.001 in
  ParamsRead.sameFor breakout OpenSample.lookbackOne ParamsRead.spelled
  /\ stopLossPercent OpenSample.lookbackOne
     <> stopLossPercent ParamsRead.spelled
  /\ length (Backtest.bt_trades rp) = 1%nat
  /\ Backtest.bt_trades rp = Backtest.bt_trades rq
  /\ Backtest.bt_signals rp = Backtest.bt_signals rq
  /\ Backtest.bt_equityCurve rp = Backtest.bt_equityCurve rq
  /\ Backtest.bt_metrics rp = Backtest.bt_metrics rq.
Proof.
  assert (Hsame : ParamsRead.sameFor breakout OpenSample.lookbackOne
                    ParamsRead.spelled).
  { split; [reflexivity | split; reflexivity]. }
  destruct (runBacktest_reads_only_its_parameters Samples.pow (Samples.day 0)
              Breakout.three_bars breakout OpenSample.lookbackOne
              ParamsRead.spelled 100000 0.0005 0.001 Hsame)
    as (_ & Ht & Hs & Hc & Hm).
  cbv zeta.
  refine (conj Hsame (conj _ (conj _ (conj Ht (conj Hs (conj Hc Hm)))))).
  - discriminate.
  - vm_compute. reflexivity.
Defined.
